(** * Routing and execution core of the AI-provider gateway

    A shallow embedding of [src/handlers]: the error shaper
    ([services/errorHandler.ts]), the header processor
    ([services/headerProcessor.ts]), the request construction, the
    after-request hook loop and the target resolver of [handlerUtils.ts],
    the four strategies of [strategies/] and the configuration builder
    ([services/providerConfigBuilder.ts]).

    Conventions of the embedding.
    - A JavaScript object used as a dictionary is a [gmap string _]; an
      optional property is an [option]; [undefined] and [null] are both
      [None].
    - A JavaScript number is a binary64 floating-point number ([float],
      the primitive floats of the kernel, with their IEEE 754 operations)
      where the code does arithmetic on it: the weights and the draws of
      [Math.random].  It is an integer ([Z]) for HTTP status codes and
      attempt counters, and a rational ([Q]) inside configuration objects
      of free shape, on which no arithmetic is done.
    - A string is a sequence of characters below 256, each standing for
      one UTF-16 code unit; texts with other characters are not
      represented.
    - A function that can throw returns an [Outcome]; asynchronous functions
      are sequential here (every [await] is a plain call). *)

From Stdlib Require Import ZArith QArith String Ascii List Bool Lia Floats
  Sorted.
From stdpp Require Import base option list gmap strings pretty.

Set Warnings "-register-all,-inexact-float".
Close Scope Q_scope.
Local Open Scope string_scope.
Local Open Scope Z_scope.

(** ** JavaScript values *)

(** A JSON-like JavaScript value.  An object is the list of its own
    properties in insertion order, with distinct keys.  [Object.keys]
    enumerates the keys that are array indices first, in ascending order,
    and the other keys in insertion order: the list is the enumeration
    for an object none of whose keys is made of decimal digits only
    ([integer_like] below).  [JUndefined] is the value of a property that
    was assigned [undefined]. *)
Inductive json : Type :=
| JUndefined
| JNull
| JBool (b : bool)
| JNum (q : Q)
| JStr (s : string)
| JArr (items : list json)
| JObj (props : list (string * json)).

(** [obj[k]] on a property list. *)
Fixpoint obj_get (props : list (string * json)) (k : string) : option json :=
  match props with
  | [] => None
  | (k', v) :: rest => if String.eqb k' k then Some v else obj_get rest k
  end.

(** [obj[k] = v]: an existing property keeps its position, a new one is
    appended. *)
Fixpoint obj_set (props : list (string * json)) (k : string) (v : json)
  : list (string * json) :=
  match props with
  | [] => [(k, v)]
  | (k', v') :: rest =>
      if String.eqb k' k then (k, v) :: rest else (k', v') :: obj_set rest k v
  end.

(** [delete obj[k]]. *)
Fixpoint obj_delete (props : list (string * json)) (k : string)
  : list (string * json) :=
  match props with
  | [] => []
  | (k', v') :: rest =>
      if String.eqb k' k then rest else (k', v') :: obj_delete rest k
  end.

Definition obj_keys (props : list (string * json)) : list string :=
  map fst props.

(** Truthiness of the values the code tests with [if (x)] or [x && ...]. *)
Definition truthy_string (s : option string) : bool :=
  match s with
  | Some s => negb (String.eqb s "")
  | None => false
  end.

Definition truthy_Z (z : option Z) : bool :=
  match z with
  | Some z => negb (Z.eqb z 0)
  | None => false
  end.

Definition is_present {A} (x : option A) : bool :=
  match x with Some _ => true | None => false end.

(** [s.toLowerCase()] on ASCII letters (header names are ASCII). *)
Definition lower_ascii (c : ascii) : ascii :=
  let n := nat_of_ascii c in
  if (Nat.leb 65 n && Nat.leb n 90)%bool then ascii_of_nat (n + 32) else c.

Fixpoint toLowerCase (s : string) : string :=
  match s with
  | EmptyString => EmptyString
  | String c rest => String (lower_ascii c) (toLowerCase rest)
  end.

(** [s.split(sep)[0]] for a one-character separator. *)
Fixpoint split_first (sep : ascii) (s : string) : string :=
  match s with
  | EmptyString => EmptyString
  | String c rest =>
      if Ascii.eqb c sep then EmptyString else String c (split_first sep rest)
  end.

(** [s.startsWith(p)]. *)
Definition startsWith (s p : string) : bool := String.prefix p s.

(** A thrown value: the [name] and [message] of the error object and
    whether it is an [instanceof GatewayError]. *)
Record JsError : Type := mkError {
  err_name : string;
  err_message : string;
  err_isGatewayError : bool;
}.

(** [new Error(msg)]. *)
Definition Error_ (msg : string) : JsError := mkError "Error" msg false.

(** A [TypeError] of the runtime: a non-iterable is spread, a property of
    [null] or [undefined] is read, a value that is not a function is
    called. *)
Definition TypeError_ (msg : string) : JsError := mkError "TypeError" msg false.

(** Modelled from the spec: the class [RouterError] of [errors/RouterError]
    is not among the sources; its instances carry the name the resolver
    tests for ("RouterError") and are not gateway errors. *)
Definition RouterError_ (msg : string) : JsError :=
  mkError "RouterError" msg false.

(** Result of a call that either returns or throws. *)
Inductive Outcome (A : Type) : Type :=
| Ok (a : A)
| Throw (e : JsError).
Arguments Ok {A} a.
Arguments Throw {A} e.

(** ** Constants ([constants.ts]) *)

Module REQUEST_PROCESSING.
Definition DEFAULT_WEIGHT : float := 1%float.
Definition GATEWAY_EXCEPTION_HEADER : string := "x-portkey-gateway-exception".
Definition HEADERS_TO_AVOID_CLOUDFLARE : list string := ["expect"].
Definition DEFAULT_CONTENT_TYPE : string := "application/json".
Definition POWERED_BY_HEADER_PREFIX : string := "x-portkey-".
End REQUEST_PROCESSING.

Module ERROR_MESSAGES.
Definition NO_PROVIDER_SELECTED : string :=
  "No provider selected, please check the weights".
Definition SOMETHING_WENT_WRONG : string := "Something went wrong".
Definition HOOKS_FAILED : string :=
  "The guardrail checks defined in the config failed. You can find more information in the `hook_results` object.".
End ERROR_MESSAGES.

Module HTTP_STATUS.
Definition HOOKS_FAILED : Z := 446.
Definition INTERNAL_SERVER_ERROR : Z := 500.
Definition BAD_REQUEST : Z := 400.
Definition SUCCESS : Z := 200.
End HTTP_STATUS.

Module HOOK_PROPERTIES.
Definition EXTRACTABLE_KEYS : list string :=
  ["deny"; "on_fail"; "on_success"; "async"; "id"; "type";
   "guardrail_version_id"].
Definition DEFAULT_PLUGIN_PREFIX : string := "default.".
End HOOK_PROPERTIES.

Module STRATEGY_CONFIG.
Definition SINGLE_TARGET_INDEX : nat := 0%nat.
Definition RETRY_ATTEMPT_EXHAUSTED : Z := -1.
End STRATEGY_CONFIG.

(** Modelled from the spec: the constants of [globals] are not among the
    sources; the spec names the header family prefix [x-portkey-], the
    content types [multipart/form-data] and [audio/], and the headers
    [content-type] and [x-portkey-metadata]. *)
Module GLOBALS.
Definition POWERED_BY : string := "portkey".
Definition MULTIPART_FORM_DATA : string := "multipart/form-data".
Definition GENERIC_AUDIO_PATTERN : string := "audio/".
Definition CONTENT_TYPE : string := "content-type".
Definition METADATA : string := "x-portkey-metadata".
End GLOBALS.

(** ** Responses *)

(** The body of a [Response]: the JSON text of a value
    ([JSON.stringify(v)]), another text, or an opaque byte stream. *)
Inductive ResponseBody : Type :=
| BodyJson (j : json)
| BodyText (s : string)
| BodyStream.

(** A fetch [Response].  [Headers] lower-cases names, so the map is keyed
    by lower-case names. *)
Record Response : Type := mkResponse {
  status : Z;
  headers : gmap string string;
  body : ResponseBody;
}.

(** [response.headers.get(name)]. *)
Definition headers_get (r : Response) (name : string) : option string :=
  headers r !! toLowerCase name.

(** [response.ok]. *)
Definition ok (r : Response) : bool := (200 <=? status r) && (status r <=? 299).

(** ** Error shaper ([services/errorHandler.ts]) *)

Module RequestErrorHandler.

Definition failure_body (msg : string) : ResponseBody :=
  BodyJson (JObj [("status", JStr "failure"); ("message", JStr msg)]).

Definition handleTryPostError (error : JsError) : Response :=
  let errorMessage :=
    if err_isGatewayError error then err_message error
    else ERROR_MESSAGES.SOMETHING_WENT_WRONG in
  mkResponse HTTP_STATUS.INTERNAL_SERVER_ERROR
    (<[REQUEST_PROCESSING.GATEWAY_EXCEPTION_HEADER := "true"]>
       (<["content-type" := REQUEST_PROCESSING.DEFAULT_CONTENT_TYPE]> ∅))
    (failure_body errorMessage).

Definition handleTargetRecursionError (error : JsError) : Response :=
  let errorMessage :=
    if err_isGatewayError error then err_message error
    else ERROR_MESSAGES.SOMETHING_WENT_WRONG in
  mkResponse HTTP_STATUS.INTERNAL_SERVER_ERROR
    (<[REQUEST_PROCESSING.GATEWAY_EXCEPTION_HEADER := "true"]>
       (<["content-type" := REQUEST_PROCESSING.DEFAULT_CONTENT_TYPE]> ∅))
    (failure_body errorMessage).

Definition handleRouterError (error : JsError) : Response :=
  mkResponse HTTP_STATUS.BAD_REQUEST
    (<["content-type" := REQUEST_PROCESSING.DEFAULT_CONTENT_TYPE]> ∅)
    (failure_body (err_message error)).

Definition createHooksFailureResponse (hookResults : json) : Response :=
  mkResponse HTTP_STATUS.HOOKS_FAILED
    (<["content-type" := REQUEST_PROCESSING.DEFAULT_CONTENT_TYPE]> ∅)
    (BodyJson
       (JObj
          [("error",
            JObj [("message", JStr ERROR_MESSAGES.HOOKS_FAILED);
                  ("type", JStr "hooks_failed");
                  ("param", JNull);
                  ("code", JNull)]);
           ("hook_results",
            JObj [("before_request_hooks", hookResults);
                  ("after_request_hooks", JArr [])])])).

End RequestErrorHandler.

(** The marker the fallback strategy looks for. *)
Definition carries_gateway_exception (r : Response) : Prop :=
  headers_get r REQUEST_PROCESSING.GATEWAY_EXCEPTION_HEADER = Some "true".

(** ** Request context (the part of [RequestContext] the core reads) *)

(** The original request body: structured parameters or one of the opaque
    body kinds. *)
Inductive RequestBody : Type :=
| ParamsBody (params : json)
| FormDataBody
| ReadableStreamBody
| ArrayBufferBody.

Record RequestContext : Type := mkRequestContext {
  rc_method : string;
  rc_endpoint : string;
  rc_requestHeaders : gmap string string;
  rc_requestBody : RequestBody;
  rc_transformedRequestBody : option RequestBody;
  rc_forwardHeaders : list string;
  (* env(c).CUSTOM_HEADERS_TO_IGNORE *)
  rc_CUSTOM_HEADERS_TO_IGNORE : option (list string);
}.

(** Modelled from the spec: [RequestContext.getHeader] is not among the
    sources; the spec's body-shape decision reads "the client's
    content-type", that is the request header of that name. *)
Definition getHeader (rc : RequestContext) (key : string) : option string :=
  rc_requestHeaders rc !! key.

(** ** Header processor ([services/headerProcessor.ts]) *)

Module HeaderProcessor.

(** [headers[k]] where a property may hold [undefined]. *)
Definition hget (h : gmap string (option string)) (k : string)
  : option string :=
  mjoin (h !! k).

Definition getHeadersToIgnore (rc : RequestContext) : list string :=
  let customHeadersToIgnore := default [] (rc_CUSTOM_HEADERS_TO_IGNORE rc) in
  customHeadersToIgnore
    ++ REQUEST_PROCESSING.HEADERS_TO_AVOID_CLOUDFLARE
    ++ ["content-length"].

Definition includes (l : list string) (k : string) : bool :=
  existsb (String.eqb k) l.

Definition processProxyHeaders (rc : RequestContext)
  : gmap string (option string) :=
  if negb (String.eqb (rc_endpoint rc) "proxy") then ∅
  else
    let headersToIgnore := getHeadersToIgnore rc in
    Some <$>
      filter (fun kv =>
                negb (includes headersToIgnore kv.1)
                && negb (startsWith kv.1
                           REQUEST_PROCESSING.POWERED_BY_HEADER_PREFIX) = true)
             (rc_requestHeaders rc).

(** The map of the request headers holds the headers the client sent: the
    own properties of [requestHeaders].  The lookup of the code also finds
    what the object inherits from [Object.prototype] (under
    [constructor], say); such a name in the forward list is outside this
    model. *)
Definition processForwardHeaders (rc : RequestContext)
    (forwardHeaders : list string) : gmap string (option string) :=
  fold_left
    (fun forwardHeadersMap header =>
       let lowerCaseHeaderKey := toLowerCase header in
       if truthy_string (rc_requestHeaders rc !! lowerCaseHeaderKey)
       then <[lowerCaseHeaderKey := rc_requestHeaders rc !! lowerCaseHeaderKey]>
              forwardHeadersMap
       else forwardHeadersMap)
    forwardHeaders ∅.

Definition getBaseHeaders (rc : RequestContext)
  : gmap string (option string) :=
  let base :=
    <["content-type" := Some REQUEST_PROCESSING.DEFAULT_CONTENT_TYPE]> ∅ in
  if truthy_string (rc_requestHeaders rc !! "accept-encoding")
  then <["accept-encoding" := rc_requestHeaders rc !! "accept-encoding"]> base
  else base.

(** Keys are visited in the order of [Object.keys]; the provider's header
    object is given as its property list. *)
Definition processProviderHeaders
    (providerConfigMappedHeaders : list (string * option string))
  : gmap string (option string) :=
  fold_left
    (fun headers kv => <[toLowerCase kv.1 := kv.2]> headers)
    providerConfigMappedHeaders ∅.

Definition postProcessHeaders (rc : RequestContext)
    (headers : gmap string (option string)) : gmap string (option string) :=
  let contentType := split_first ";" <$> hget headers "content-type" in
  let isGetMethod := String.eqb (rc_method rc) "GET" in
  let isMultipartFormData :=
    bool_decide (contentType = Some GLOBALS.MULTIPART_FORM_DATA) in
  let shouldDeleteContentTypeHeader := isGetMethod || isMultipartFormData in
  if shouldDeleteContentTypeHeader then
    let headers := delete "content-type" headers in
    if String.eqb (rc_endpoint rc) "uploadFile" then
      let headers :=
        <["Content-Type" := rc_requestHeaders rc !! "content-type"]> headers in
      let filePurposeHeader := "x-" ++ GLOBALS.POWERED_BY ++ "-file-purpose" in
      if truthy_string (rc_requestHeaders rc !! filePurposeHeader)
      then <[filePurposeHeader := rc_requestHeaders rc !! filePurposeHeader]>
             headers
      else headers
    else headers
  else headers.

(** The map [postProcessHeaders] leaves when it deletes the content
  type (the body of its outer [if]). *)
Definition rewritten (rc : RequestContext)
  (h : gmap string (option string)) : gmap string (option string) :=
let headers := delete "content-type" h in
if String.eqb (rc_endpoint rc) "uploadFile" then
  let headers :=
    <["Content-Type" := rc_requestHeaders rc !! "content-type"]> headers in
  if truthy_string (rc_requestHeaders rc !! "x-portkey-file-purpose")
  then <["x-portkey-file-purpose" :=
           rc_requestHeaders rc !! "x-portkey-file-purpose"]> headers
  else headers
else headers.

(** The spread [{...base, ...provider, ...forward, ...proxy}]: later
    sources overwrite earlier ones; [∪] on maps prefers its left
    argument. *)
Definition buildFinalHeaders (rc : RequestContext)
    (providerConfigMappedHeaders : list (string * option string))
    (forwardHeaders : list string) : gmap string (option string) :=
  let baseHeaders := getBaseHeaders rc in
  let providerHeaders := processProviderHeaders providerConfigMappedHeaders in
  let forwardHeadersMap := processForwardHeaders rc forwardHeaders in
  let proxyHeaders := processProxyHeaders rc in
  let headers :=
    proxyHeaders ∪ (forwardHeadersMap ∪ (providerHeaders ∪ baseHeaders)) in
  postProcessHeaders rc headers.

Record BodyDecision : Type := mkBodyDecision {
  isMultiPartRequest : bool;
  isProxyAudio : bool;
  shouldProcessAsJson : bool;
}.

(** [providerHeaders[HEADER_KEYS.CONTENT_TYPE]] is the first property of
    that exact name. *)
Definition shouldProcessRequestBody (rc : RequestContext)
    (providerHeaders : list (string * option string)) : BodyDecision :=
  let headerContentType :=
    mjoin (snd <$> find (fun kv => String.eqb kv.1 GLOBALS.CONTENT_TYPE)
                        providerHeaders) in
  let requestContentType := getHeader rc GLOBALS.CONTENT_TYPE in
  let isMultiPartRequest :=
    bool_decide (headerContentType = Some GLOBALS.MULTIPART_FORM_DATA)
    || (String.eqb (rc_endpoint rc) "proxy"
        && bool_decide
             (requestContentType = Some GLOBALS.MULTIPART_FORM_DATA)) in
  let isProxyAudio :=
    String.eqb (rc_endpoint rc) "proxy"
    && match requestContentType with
       | Some ct => startsWith ct GLOBALS.GENERIC_AUDIO_PATTERN
       | None => false
       end in
  let shouldProcessAsJson :=
    negb isMultiPartRequest && negb isProxyAudio
    && truthy_string requestContentType in
  mkBodyDecision isMultiPartRequest isProxyAudio shouldProcessAsJson.

End HeaderProcessor.

(** ** Request construction ([handlerUtils.ts]) *)

(** A [BodyInit]: the transformed request body passed through as it is,
    the original stream, or the JSON text of the transformed body. *)
Inductive BodyInit : Type :=
| BodyOf (b : RequestBody)
| BodyStringified (text : string).

Record RequestInit : Type := mkRequestInit {
  ri_method : string;
  ri_headers : gmap string (option string);
  ri_duplex : option string;
  ri_body : option BodyInit;
}.

Section RequestConstruction.

(** [JSON.stringify] of the runtime; [None] is [undefined]. *)
Variable JSON_stringify : option RequestBody -> option string.

(** The value of [reqBody as FormData] (or [as ArrayBuffer]): a cast
    changes nothing at run time. *)
Definition cast (reqBody : option RequestBody) : option BodyInit :=
  BodyOf <$> reqBody.

Definition constructRequestBody (requestContext : RequestContext)
    (providerHeaders : list (string * option string)) : option BodyInit :=
  let d := HeaderProcessor.shouldProcessRequestBody
             requestContext providerHeaders in
  let reqBody := rc_transformedRequestBody requestContext in
  let body :=
    if HeaderProcessor.isMultiPartRequest d then cast reqBody
    else match rc_requestBody requestContext with
         | ReadableStreamBody => Some (BodyOf ReadableStreamBody)
         | _ =>
             if HeaderProcessor.isProxyAudio d then cast reqBody
             else if HeaderProcessor.shouldProcessAsJson d
                  then BodyStringified <$> JSON_stringify reqBody
                  else None
         end in
  if HeaderProcessor.includes ["GET"; "DELETE"] (rc_method requestContext)
  then None
  else body.

Definition constructRequestHeaders (requestContext : RequestContext)
    (providerConfigMappedHeaders : list (string * option string))
  : gmap string (option string) :=
  HeaderProcessor.buildFinalHeaders requestContext
    providerConfigMappedHeaders (rc_forwardHeaders requestContext).

(** [if (body)]: an object is truthy, a string unless it is empty. *)
Definition truthy_body (b : option BodyInit) : bool :=
  match b with
  | Some (BodyOf _) => true
  | Some (BodyStringified text) => negb (String.eqb text "")
  | None => false
  end.

(** [providerContext.getHeaders] belongs to the provider adapter; it
    returns the provider's header object or throws. *)
Variable getHeaders : RequestContext -> Outcome (list (string * option string)).

Definition constructRequest (requestContext : RequestContext)
  : Outcome RequestInit :=
  match getHeaders requestContext with
  | Throw e => Throw e
  | Ok providerMappedHeaders =>
      let headers :=
        constructRequestHeaders requestContext providerMappedHeaders in
      let duplex :=
        if String.eqb (rc_endpoint requestContext) "uploadFile"
        then Some "half" else None in
      let body := constructRequestBody requestContext providerMappedHeaders in
      Ok (mkRequestInit (rc_method requestContext) headers duplex
            (if truthy_body body then body else None))
  end.

End RequestConstruction.

(** ** After-request hook loop ([recursiveAfterRequestHookHandler]) *)

(** [requestContext.retryConfig]. *)
Record RetrySettings : Type := mkRetrySettings {
  attempts : option Z;
  onStatusCodes : option (list Z);
  useRetryAfterHeader : option bool;
}.

(** What [retryRequest] resolves to. *)
Record RetryResult : Type := mkRetryResult {
  rr_response : Response;
  rr_attempt : option Z;
  rr_createdAt : Z;
  rr_skip : bool;
}.

(** What [responseHandler] resolves to. *)
Record HandledResponse : Type := mkHandledResponse {
  hr_response : Response;
  hr_responseJson : option json;
  hr_originalResponseJson : option json;
}.

(** The record the loop returns. *)
Record RequestProcessingResult : Type := mkRequestProcessingResult {
  mappedResponse : Response;
  retryCount : Z;
  createdAt : Z;
  originalResponseJson : option json;
}.

(** The collaborators of the loop: the retry engine, the provider's
    response handler, the after-request hooks and the log sink.  Each acts
    on the outside world [W]. *)
Record LoopServices (W : Type) : Type := mkLoopServices {
  retryRequest :
    RequestInit -> option Z -> option (list Z) -> option bool ->
    W -> Outcome RetryResult * W;
  responseHandler : Response -> W -> Outcome HandledResponse * W;
  afterRequestHookHandler :
    Response -> option json -> string -> Z -> W -> Outcome Response * W;
  log : RequestInit -> Response -> option json -> Z -> W -> W;
}.
Arguments retryRequest {W} _.
Arguments responseHandler {W} _.
Arguments afterRequestHookHandler {W} _.
Arguments log {W} _.

(** [codes?.includes(status)], read as a condition. *)
Definition includes_status (codes : option (list Z)) (st : Z) : bool :=
  match codes with
  | Some l => existsb (Z.eqb st) l
  | None => false
  end.

(** [(retry?.attempts || 0) - (retryCount || 0) - retryAttemptsMade]. *)
Definition remainingRetryCount (retry : RetrySettings) (attempt : option Z)
    (retryAttemptsMade : Z) : Z :=
  default 0 (attempts retry) - default 0 attempt - retryAttemptsMade.

(** The condition of the [if] that guards the recursive call. *)
Definition shouldRetryAgain (retry : RetrySettings) (attempt : option Z)
    (retrySkipped : bool) (arhStatus : Z) (retryAttemptsMade : Z) : bool :=
  (0 <? remainingRetryCount retry attempt retryAttemptsMade)
  && negb retrySkipped
  && includes_status (onStatusCodes retry) arhStatus.

(** The argument of the recursive call. *)
Definition nextAttemptsMade (attempt : option Z) (retryAttemptsMade : Z) : Z :=
  default 0 attempt + 1 + retryAttemptsMade.

(** The [retryCount] of the returned record. *)
Definition finalRetryCount (retry : RetrySettings) (attempt : option Z)
    (retrySkipped : bool) (arhStatus : Z) (retryAttemptsMade : Z) : Z :=
  let lastAttempt := default 0 attempt + retryAttemptsMade in
  if ((lastAttempt =? default 0 (attempts retry))
      && includes_status (onStatusCodes retry) arhStatus)
     || retrySkipped
  then -1
  else lastAttempt.

(** The recursion is on the retry budget, not on a structure: [fuel]
    bounds the number of rounds, and [None] means the bound was hit. *)
Fixpoint recursiveAfterRequestHookHandler {W : Type} (svc : LoopServices W)
    (fuel : nat) (retry : RetrySettings) (options : RequestInit)
    (retryAttemptsMade : Z) (hookSpanId : string) (w : W)
  : option (Outcome RequestProcessingResult * W) :=
  match fuel with
  | O => None
  | S fuel' =>
      match retryRequest svc options (attempts retry) (onStatusCodes retry)
              (useRetryAfterHeader retry) w with
      | (Throw e, w1) => Some (Throw e, w1)
      | (Ok rr, w1) =>
          match responseHandler svc (rr_response rr) w1 with
          | (Throw e, w2) => Some (Throw e, w2)
          | (Ok hr, w2) =>
              match afterRequestHookHandler svc (hr_response hr)
                      (hr_responseJson hr) hookSpanId retryAttemptsMade w2 with
              | (Throw e, w3) => Some (Throw e, w3)
              | (Ok arhResponse, w3) =>
                  if shouldRetryAgain retry (rr_attempt rr) (rr_skip rr)
                       (status arhResponse) retryAttemptsMade
                  then
                    let w4 := log svc options arhResponse
                                (hr_originalResponseJson hr)
                                (rr_createdAt rr) w3 in
                    recursiveAfterRequestHookHandler svc fuel' retry options
                      (nextAttemptsMade (rr_attempt rr) retryAttemptsMade)
                      hookSpanId w4
                  else
                    Some (Ok (mkRequestProcessingResult arhResponse
                                (finalRetryCount retry (rr_attempt rr)
                                   (rr_skip rr) (status arhResponse)
                                   retryAttemptsMade)
                                (rr_createdAt rr)
                                (hr_originalResponseJson hr)),
                          w3)
              end
          end
      end
  end.

(** ** Key casing *)

Definition upper_ascii (c : ascii) : ascii :=
  let n := nat_of_ascii c in
  if (Nat.leb 97 n && Nat.leb n 122)%bool then ascii_of_nat (n - 32) else c.

(** Modelled from the spec: [convertKeysToCamelCase] of [utils] is not
    among the sources.  The spec says keys are converted to camelCase: an
    underscore followed by a character becomes that character in upper
    case. *)
Fixpoint toCamelCase (s : string) : string :=
  match s with
  | EmptyString => EmptyString
  | String c rest =>
      match rest with
      | String c' rest' =>
          if Ascii.eqb c "_" then String (upper_ascii c') (toCamelCase rest')
          else String c (toCamelCase rest)
      | EmptyString => String c EmptyString
      end
  end.

Definition includes_key (l : list string) (k : string) : bool :=
  existsb (String.eqb k) l.

(** The number [n] in a template string, and as a property key. *)
Definition show_nat (n : nat) : string := pretty n.

(** The own enumerable properties of an array: its items under their
    indices. *)
Definition array_entries (items : list json) : list (string * json) :=
  imap (fun i item => (show_nat i, item)) items.

(** The object that results from assigning the properties of [entries], in
    order, to an empty object. *)
Definition obj_of_entries (entries : list (string * json)) : list (string * json) :=
  fold_left (fun acc kv => obj_set acc kv.1 kv.2) entries [].

(** Modelled from the spec: [convertKeysToCamelCase(obj, exclusions)] of
    [utils] is not among the sources.  The spec says: keys are converted
    to camelCase except for the pinned exclusion list, whose keys
    "preserve their original keys and inner-key casing".  The conversion
    descends into arrays and into the values of converted keys. *)
Fixpoint convertKeysToCamelCase (parentKeysToPreserve : list string)
    (obj : json) : json :=
  match obj with
  | JArr items => JArr (map (convertKeysToCamelCase parentKeysToPreserve) items)
  | JObj props =>
      JObj (obj_of_entries
              (map (fun kv =>
                      match kv with
                      | (key, value) =>
                          if includes_key parentKeysToPreserve key
                          then (key, value)
                          else (toCamelCase key,
                                convertKeysToCamelCase parentKeysToPreserve value)
                      end)
                   props))
  | _ => obj
  end.


(** Truthiness of a property read: [!obj.k] is [negb (truthy_json (obj_get
    props k))]. *)
Definition truthy_json (v : option json) : bool :=
  match v with
  | None | Some JUndefined | Some JNull => false
  | Some (JBool b) => b
  | Some (JNum q) => negb (Qeq_bool q 0)
  | Some (JStr s) => negb (String.eqb s "")
  | Some (JArr _) | Some (JObj _) => true
  end.

(** [{...a, ...b}] on property lists. *)
Definition obj_spread (a b : list (string * json)) : list (string * json) :=
  fold_left (fun acc kv => obj_set acc kv.1 kv.2) b a.

(** [s.replace(pat, rep)] for a string pattern: the first occurrence. *)
Fixpoint replace_first (pat rep s : string) : string :=
  if String.prefix pat s
  then rep ++ substring (String.length pat)
                (String.length s - String.length pat) s
  else match s with
       | EmptyString => EmptyString
       | String c rest => String c (replace_first pat rep rest)
       end.

(** A header read [headers[name]] as a JavaScript value. *)
Definition header_value (headers : gmap string string) (name : string) : json :=
  match headers !! name with
  | Some v => JStr v
  | None => JUndefined
  end.

(** [a || b] on values. *)
Definition js_or (a b : json) : json :=
  if truthy_json (Some a) then a else b.

(** ** Config builder ([services/providerConfigBuilder.ts]) *)

Module ProviderConfigBuilder.

Definition CAMEL_CASE_EXCLUSIONS : list string :=
  ["override_params"; "params"; "checks"; "vertex_service_account_json";
   "vertexServiceAccountJson"; "conditions"; "input_guardrails";
   "output_guardrails"; "default_input_guardrails";
   "default_output_guardrails"; "integrationModelDetails"; "cb_config"].

(** Modelled from the spec: the provider names of [globals] are not among
    the sources; the spec lists them in its table of header families. *)
Definition AZURE_OPEN_AI : string := "azure-openai".
Definition BEDROCK : string := "bedrock".
Definition SAGEMAKER : string := "sagemaker".
Definition WORKERS_AI : string := "workers-ai".
Definition GOOGLE_VERTEX_AI : string := "google-vertex-ai".
Definition AZURE_AI_INFERENCE : string := "azure-ai-inference".
Definition OPEN_AI : string := "openai".
Definition ANTHROPIC : string := "anthropic".
Definition HUGGING_FACE : string := "huggingface".
Definition STABILITY_AI : string := "stability-ai".
Definition FIREWORKS_AI : string := "fireworks-ai".
Definition CORTEX : string := "cortex".

Definition buildAzureConfig (headers : gmap string string) : list (string * json) :=
  let h := header_value headers in
  [("resourceName", (h "x-portkey-azure-resource-name"));
     ("deploymentId", (h "x-portkey-azure-deployment-id"));
     ("apiVersion", (h "x-portkey-azure-api-version"));
     ("azureAdToken", (h "x-portkey-azure-ad-token"));
     ("azureAuthMode", (h "x-portkey-azure-auth-mode"));
     ("azureManagedClientId", (h "x-portkey-azure-managed-client-id"));
     ("azureEntraClientId", (h "x-portkey-azure-entra-client-id"));
     ("azureEntraClientSecret", (h "x-portkey-azure-entra-client-secret"));
     ("azureEntraTenantId", (h "x-portkey-azure-entra-tenant-id"));
     ("azureModelName", (h "x-portkey-azure-model-name"));
     ("openaiBeta", js_or (h "x-portkey-openai-beta") (h "openai-beta"))].

Definition buildAwsConfig (headers : gmap string string) : list (string * json) :=
  let h := header_value headers in
  [("awsAccessKeyId", (h "x-portkey-aws-access-key-id"));
     ("awsSecretAccessKey", (h "x-portkey-aws-secret-access-key"));
     ("awsSessionToken", (h "x-portkey-aws-session-token"));
     ("awsRegion", (h "x-portkey-aws-region"));
     ("awsRoleArn", (h "x-portkey-aws-role-arn"));
     ("awsAuthType", (h "x-portkey-aws-auth-type"));
     ("awsExternalId", (h "x-portkey-aws-external-id"));
     ("awsS3Bucket", (h "x-portkey-aws-s3-bucket"));
     ("awsS3ObjectKey", js_or (h "x-portkey-aws-s3-object-key") (h "x-portkey-provider-file-name"));
     ("awsBedrockModel", js_or (h "x-portkey-aws-bedrock-model") (h "x-portkey-provider-model"));
     ("awsServerSideEncryption", (h "x-portkey-amz-server-side-encryption"));
     ("awsServerSideEncryptionKMSKeyId", (h "x-portkey-amz-server-side-encryption-aws-kms-key-id"))].

Definition buildSagemakerConfig (headers : gmap string string) : list (string * json) :=
  let h := header_value headers in
  [("amznSagemakerCustomAttributes", (h "x-portkey-amzn-sagemaker-custom-attributes"));
     ("amznSagemakerTargetModel", (h "x-portkey-amzn-sagemaker-target-model"));
     ("amznSagemakerTargetVariant", (h "x-portkey-amzn-sagemaker-target-variant"));
     ("amznSagemakerTargetContainerHostname", (h "x-portkey-amzn-sagemaker-target-container-hostname"));
     ("amznSagemakerInferenceId", (h "x-portkey-amzn-sagemaker-inference-id"));
     ("amznSagemakerEnableExplanations", (h "x-portkey-amzn-sagemaker-enable-explanations"));
     ("amznSagemakerInferenceComponent", (h "x-portkey-amzn-sagemaker-inference-component"));
     ("amznSagemakerSessionId", (h "x-portkey-amzn-sagemaker-session-id"));
     ("amznSagemakerModelName", (h "x-portkey-amzn-sagemaker-model-name"))].

Definition buildStabilityAiConfig (headers : gmap string string) : list (string * json) :=
  let h := header_value headers in
  [("stabilityClientId", (h "x-portkey-stability-client-id"));
     ("stabilityClientUserId", (h "x-portkey-stability-client-user-id"));
     ("stabilityClientVersion", (h "x-portkey-stability-client-version"))].

Definition buildAzureAiInferenceConfig (headers : gmap string string) : list (string * json) :=
  let h := header_value headers in
  [("azureApiVersion", (h "x-portkey-azure-api-version"));
     ("azureEndpointName", (h "x-portkey-azure-endpoint-name"));
     ("azureFoundryUrl", (h "x-portkey-azure-foundry-url"));
     ("azureExtraParams", (h "x-portkey-azure-extra-params"))].

Definition buildWorkersAiConfig (headers : gmap string string) : list (string * json) :=
  let h := header_value headers in
  [("workersAiAccountId", (h "x-portkey-workers-ai-account-id"))].

Definition buildOpenAiConfig (headers : gmap string string) : list (string * json) :=
  let h := header_value headers in
  [("openaiOrganization", (h "x-portkey-openai-organization"));
     ("openaiProject", (h "x-portkey-openai-project"));
     ("openaiBeta", js_or (h "x-portkey-openai-beta") (h "openai-beta"))].

Definition buildHuggingfaceConfig (headers : gmap string string) : list (string * json) :=
  let h := header_value headers in
  [("huggingfaceBaseUrl", (h "x-portkey-huggingface-base-url"))].

Definition buildFireworksConfig (headers : gmap string string) : list (string * json) :=
  let h := header_value headers in
  [("fireworksAccountId", (h "x-portkey-fireworks-account-id"));
     ("fireworksFileLength", (h "x-portkey-file-upload-size"))].

Definition buildAnthropicConfig (headers : gmap string string) : list (string * json) :=
  let h := header_value headers in
  [("anthropicBeta", (h "x-portkey-anthropic-beta"));
     ("anthropicVersion", (h "x-portkey-anthropic-version"))].

Definition buildCortexConfig (headers : gmap string string) : list (string * json) :=
  let h := header_value headers in
  [("snowflakeAccount", (h "x-portkey-snowflake-account"))].

Section Builder.

(** [JSON.parse] of the runtime: the parsed value, or a [SyntaxError]. *)
Variable JSON_parse : string -> Outcome json.

Definition buildVertexConfig (headers : gmap string string)
  : list (string * json) :=
  let h := header_value headers in
  let config :=
    [("vertexProjectId", (h "x-portkey-vertex-project-id"));
       ("vertexRegion", (h "x-portkey-vertex-region"));
       ("vertexStorageBucketName", (h "x-portkey-vertex-storage-bucket-name"));
       ("filename", (h "x-portkey-provider-file-name"));
       ("vertexModelName", (h "x-portkey-provider-model"));
       ("vertexBatchEndpoint", (h "x-portkey-provider-batch-endpoint"))] in
  match headers !! "x-portkey-vertex-service-account-json" with
  | Some vertexServiceAccountJson =>
      if truthy_string (Some vertexServiceAccountJson) then
        match JSON_parse vertexServiceAccountJson with
        | Ok v => obj_set config "vertexServiceAccountJson" v
        | Throw _ => obj_set config "vertexServiceAccountJson" JNull
        end
      else config
  | None => config
  end.

(** The table [providerConfigs], looked up by the provider's name; the
    properties an object inherits from its prototype are not modelled. *)
Definition providerConfigs (config : list (string * json))
    (requestHeaders : gmap string string)
  : list (string * list (string * json)) :=
  [(AZURE_OPEN_AI, obj_spread config (buildAzureConfig requestHeaders));
   (BEDROCK, obj_spread config (buildAwsConfig requestHeaders));
   (SAGEMAKER,
    obj_spread (obj_spread config (buildAwsConfig requestHeaders))
      (buildSagemakerConfig requestHeaders));
   (WORKERS_AI, obj_spread config (buildWorkersAiConfig requestHeaders));
   (GOOGLE_VERTEX_AI, obj_spread config (buildVertexConfig requestHeaders));
   (AZURE_AI_INFERENCE,
    obj_spread config (buildAzureAiInferenceConfig requestHeaders));
   (OPEN_AI, obj_spread config (buildOpenAiConfig requestHeaders));
   (ANTHROPIC, obj_spread config (buildAnthropicConfig requestHeaders));
   (HUGGING_FACE, obj_spread config (buildHuggingfaceConfig requestHeaders));
   (STABILITY_AI, obj_spread config (buildStabilityAiConfig requestHeaders));
   (FIREWORKS_AI, obj_spread config (buildFireworksConfig requestHeaders));
   (CORTEX, obj_spread config (buildCortexConfig requestHeaders))].

Definition addProviderSpecificConfig (config : list (string * json))
    (provider : option string) (requestHeaders : gmap string string)
  : list (string * json) :=
  let configBuilder :=
    match provider with
    | Some p =>
        snd <$> find (fun e => String.eqb e.1 p)
                     (providerConfigs config requestHeaders)
    | None => None
    end in
  match configBuilder with
  | Some built => built
  | None =>
      if truthy_string (requestHeaders !! "x-portkey-mistral-fim-completion")
      then obj_set config "mistralFimCompletion"
             (header_value requestHeaders "x-portkey-mistral-fim-completion")
      else config
  end.

(** [requestHeaders['authorization']?.replace('Bearer ', '')]. *)
Definition stripBearer (requestHeaders : gmap string string) : json :=
  match requestHeaders !! "authorization" with
  | Some a => JStr (replace_first "Bearer " "" a)
  | None => JUndefined
  end.

Definition enhanceConfigWithProviderSpecifics
    (parsedConfig : list (string * json))
    (requestHeaders : gmap string string) : list (string * json) :=
  let provider := requestHeaders !! "x-portkey-provider" in
  let parsedConfig :=
    obj_set parsedConfig "provider"
      (header_value requestHeaders "x-portkey-provider") in
  let parsedConfig := obj_set parsedConfig "api_key" (stripBearer requestHeaders) in
  addProviderSpecificConfig parsedConfig provider requestHeaders.

Record BaseConfig : Type := mkBaseConfig {
  input_guardrails : json;
  output_guardrails : json;
}.

Definition buildBaseConfig (requestHeaders : gmap string string)
  : Outcome BaseConfig :=
  let parse_or_empty (name : string) : Outcome json :=
    match requestHeaders !! name with
    | Some v => if truthy_string (Some v) then JSON_parse v else Ok (JArr [])
    | None => Ok (JArr [])
    end in
  match parse_or_empty "x-portkey-default-input-guardrails" with
  | Throw e => Throw e
  | Ok i =>
      match parse_or_empty "x-portkey-default-output-guardrails" with
      | Throw e => Throw e
      | Ok o => Ok (mkBaseConfig i o)
      end
  end.

(** The part of [buildFromConfigHeader] that follows the parse, for a
    header that parsed to an object. *)
Definition configFromParsedObject (requestHeaders : gmap string string)
    (baseConfig : BaseConfig) (parsedConfigJson : list (string * json))
  : list (string * json) :=
  let parsedConfigJson :=
    obj_set parsedConfigJson "default_input_guardrails"
      (input_guardrails baseConfig) in
  let parsedConfigJson :=
    obj_set parsedConfigJson "default_output_guardrails"
      (output_guardrails baseConfig) in
  if negb (truthy_json (obj_get parsedConfigJson "provider"))
     && negb (truthy_json (obj_get parsedConfigJson "targets"))
  then enhanceConfigWithProviderSpecifics parsedConfigJson requestHeaders
  else parsedConfigJson.

(** Whether the table [providerConfigs] has a builder for the
    provider. *)
Definition hasConfigBuilder (provider : option string) : bool :=
  match provider with
  | Some p =>
      existsb (fun e => String.eqb e.1 p)
        (providerConfigs [] (∅ : gmap string string))
  | None => false
  end.

(** A config header is a JSON object.  Creating a property on [null]
    throws a [TypeError]; so does, in a module (strict mode), creating one
    on a number, a string or a boolean.  On an array the properties are
    created beside the items, and an array has no [provider] or [targets]:
    a builder of [providerConfigs] spreads the items and these properties
    into an object; without a builder the array itself is converted, item
    by item, which leaves the properties created on it behind. *)
Definition buildFromConfigHeader (requestHeaders : gmap string string)
    (baseConfig : BaseConfig) : Outcome json :=
  match JSON_parse (default "" (requestHeaders !! "x-portkey-config")) with
  | Throw e => Throw e
  | Ok (JObj parsedConfigJson) =>
      Ok (convertKeysToCamelCase CAMEL_CASE_EXCLUSIONS
            (JObj (configFromParsedObject requestHeaders baseConfig
                     parsedConfigJson)))
  | Ok (JArr items) =>
      if hasConfigBuilder (requestHeaders !! "x-portkey-provider")
      then Ok (convertKeysToCamelCase CAMEL_CASE_EXCLUSIONS
                 (JObj (configFromParsedObject requestHeaders baseConfig
                          (array_entries items))))
      else Ok (convertKeysToCamelCase CAMEL_CASE_EXCLUSIONS (JArr items))
  | Ok JNull =>
      Throw (TypeError_
               "Cannot set properties of null (setting 'default_input_guardrails')")
  | Ok _ => Throw (TypeError_ "Cannot create property 'default_input_guardrails'")
  end.

Definition buildFromIndividualHeaders (requestHeaders : gmap string string)
    (baseConfig : BaseConfig) : json :=
  let provider := requestHeaders !! "x-portkey-provider" in
  let config :=
    [("provider", header_value requestHeaders "x-portkey-provider");
     ("apiKey", stripBearer requestHeaders);
     ("defaultInputGuardrails", input_guardrails baseConfig);
     ("defaultOutputGuardrails", output_guardrails baseConfig)] in
  JObj (addProviderSpecificConfig config provider requestHeaders).

Definition build (requestHeaders : gmap string string) : Outcome json :=
  match buildBaseConfig requestHeaders with
  | Throw e => Throw e
  | Ok baseConfig =>
      if truthy_string (requestHeaders !! "x-portkey-config")
      then buildFromConfigHeader requestHeaders baseConfig
      else Ok (buildFromIndividualHeaders requestHeaders baseConfig)
  end.

End Builder.

End ProviderConfigBuilder.

(** ** Targets and inherited configuration *)

Record Strategy : Type := mkStrategy {
  strategy_mode : option string;
  strategy_onStatusCodes : option (list Z);
}.

(** A node of the target tree ([Targets] / [Options]): a strategy node
    with children or a provider leaf.  Hooks and guardrails are objects of
    free shape.  A weight is a number, as [weight?: number] of [Options]
    says: a double; a weight that is absent or [null] is [None]. *)
Inductive Target : Type := mkTarget {
  t_strategy : option Strategy;
  t_targets : option (list Target);
  t_provider : option string;
  t_id : option string;
  t_cbConfig : option json;
  t_isOpen : option bool;
  t_originalIndex : option nat;
  t_index : option nat;
  t_weight : option float;
  t_overrideParams : option (gmap string json);
  t_retry : option (gmap string json);
  t_cache : option (gmap string json);
  t_requestTimeout : option Z;
  t_strictOpenAiCompliance : option bool;
  t_forwardHeaders : option (list string);
  t_customHost : option string;
  t_beforeRequestHooks : option (list json);
  t_afterRequestHooks : option (list json);
  t_inputGuardrails : option (list json);
  t_outputGuardrails : option (list json);
  t_inputMutators : option (list json);
  t_outputMutators : option (list json);
  t_defaultInputGuardrails : option (list json);
  t_defaultOutputGuardrails : option (list json);
}.

(** A provider leaf with no other property. *)
Definition emptyTarget : Target :=
  mkTarget None None None None None None None None None None None None
    None None None None None None None None None None None None.

(** [{...t, originalIndex: i}]. *)
Definition set_originalIndex (t : Target) (i : option nat) : Target :=
  mkTarget (t_strategy t) (t_targets t) (t_provider t) (t_id t) (t_cbConfig t)
    (t_isOpen t) i (t_index t) (t_weight t) (t_overrideParams t) (t_retry t)
    (t_cache t) (t_requestTimeout t) (t_strictOpenAiCompliance t)
    (t_forwardHeaders t) (t_customHost t) (t_beforeRequestHooks t)
    (t_afterRequestHooks t) (t_inputGuardrails t) (t_outputGuardrails t)
    (t_inputMutators t) (t_outputMutators t) (t_defaultInputGuardrails t)
    (t_defaultOutputGuardrails t).

(** [{...t, weight: w}]. *)
Definition set_weight (t : Target) (w : option float) : Target :=
  mkTarget (t_strategy t) (t_targets t) (t_provider t) (t_id t) (t_cbConfig t)
    (t_isOpen t) (t_originalIndex t) (t_index t) w (t_overrideParams t)
    (t_retry t) (t_cache t) (t_requestTimeout t) (t_strictOpenAiCompliance t)
    (t_forwardHeaders t) (t_customHost t) (t_beforeRequestHooks t)
    (t_afterRequestHooks t) (t_inputGuardrails t) (t_outputGuardrails t)
    (t_inputMutators t) (t_outputMutators t) (t_defaultInputGuardrails t)
    (t_defaultOutputGuardrails t).

(** [t.targets = ts]. *)
Definition set_targets (t : Target) (ts : option (list Target)) : Target :=
  mkTarget (t_strategy t) ts (t_provider t) (t_id t) (t_cbConfig t)
    (t_isOpen t) (t_originalIndex t) (t_index t) (t_weight t)
    (t_overrideParams t) (t_retry t) (t_cache t) (t_requestTimeout t)
    (t_strictOpenAiCompliance t) (t_forwardHeaders t) (t_customHost t)
    (t_beforeRequestHooks t) (t_afterRequestHooks t) (t_inputGuardrails t)
    (t_outputGuardrails t) (t_inputMutators t) (t_outputMutators t)
    (t_defaultInputGuardrails t) (t_defaultOutputGuardrails t).

(** [InheritedConfigData] ([types.ts]).  A property holding [undefined] is
    not told apart from a missing one; the records the resolver builds
    always define [overrideParams], [retry] and [cache]. *)
Record InheritedConfigData : Type := mkInherited {
  ic_id : option string;
  ic_overrideParams : option (gmap string json);
  ic_retry : option (gmap string json);
  ic_cache : option (gmap string json);
  ic_requestTimeout : option Z;
  ic_defaultInputGuardrails : option (list json);
  ic_defaultOutputGuardrails : option (list json);
  ic_strictOpenAiCompliance : option bool;
  ic_forwardHeaders : option (list string);
  ic_customHost : option string;
  ic_afterRequestHooks : option (list json);
  ic_beforeRequestHooks : option (list json);
}.

(** The default argument [{}]. *)
Definition emptyInherited : InheritedConfigData :=
  mkInherited None None None None None None None None None None None None.

(** [Object.keys(inheritedConfig).length === 0]. *)
Definition hasNoKeys (ic : InheritedConfigData) : bool :=
  negb (is_present (ic_id ic) || is_present (ic_overrideParams ic)
        || is_present (ic_retry ic) || is_present (ic_cache ic)
        || is_present (ic_requestTimeout ic)
        || is_present (ic_defaultInputGuardrails ic)
        || is_present (ic_defaultOutputGuardrails ic)
        || is_present (ic_strictOpenAiCompliance ic)
        || is_present (ic_forwardHeaders ic) || is_present (ic_customHost ic)
        || is_present (ic_afterRequestHooks ic)
        || is_present (ic_beforeRequestHooks ic)).

(** [StrategyContext] without the framework context, which is the
    [Gateway] below. *)
Record StrategyContext : Type := mkStrategyContext {
  sc_request : RequestBody;
  sc_requestHeaders : gmap string string;
  sc_fn : string;
  sc_method : string;
  sc_currentJsonPath : string;
}.

(** ** The collaborators of the resolver

    What the resolver reaches through the framework context [c] and the
    runtime: the request processor behind [tryPost], the circuit-breaker
    hook, the conditional router, [Math.random] and [JSON.parse].  Each
    effect acts on the outside world [W]. *)
Record Gateway (W : Type) : Type := mkGateway {
  Math_random : W -> float * W;
  toString36 : float -> string;
  JSON_parse : string -> Outcome json;
  tryPost_processor :
    Target -> RequestBody -> gmap string string -> string -> string ->
    string -> W -> Outcome Response * W;
  handleCircuitBreakerResponse :
    option (Response -> option string -> option json -> string ->
            W -> Outcome unit * W);
  ConditionalRouter_resolveTarget :
    list Target -> json -> json -> Outcome Target;
}.
Arguments Math_random {W} _.
Arguments toString36 {W} _.
Arguments JSON_parse {W} _.
Arguments tryPost_processor {W} _.
Arguments handleCircuitBreakerResponse {W} _.
Arguments ConditionalRouter_resolveTarget {W} _.

(** A computation over the world that returns, throws, or (for the
    recursion on the tree) runs out of [fuel]: [None]. *)
Definition M (W A : Type) : Type := W -> option (Outcome A * W).

Definition ret {W A} (a : A) : M W A := fun w => Some (Ok a, w).

Definition throw {W A} (e : JsError) : M W A := fun w => Some (Throw e, w).

Definition bind {W A B} (m : M W A) (k : A -> M W B) : M W B :=
  fun w =>
    match m w with
    | None => None
    | Some (Ok a, w') => k a w'
    | Some (Throw e, w') => Some (Throw e, w')
    end.

(** [try { m } catch (e) { h e }]. *)
Definition try_catch {W A} (m : M W A) (h : JsError -> M W A) : M W A :=
  fun w =>
    match m w with
    | Some (Throw e, w') => h e w'
    | r => r
    end.

(** A collaborator's call, which always terminates. *)
Definition call {W A} (f : W -> Outcome A * W) : M W A := fun w => Some (f w).

Notation "'let*' x ':=' m 'in' k" := (bind m (fun x => k))
  (at level 10, x pattern, m at level 100, k at level 200).

(** A computation over the world that returns or throws, and always
    ends: synchronous code without recursion on the tree. *)
Definition T (W A : Type) : Type := W -> Outcome A * W.

Definition tret {W A} (a : A) : T W A := fun w => (Ok a, w).

Definition tthrow {W A} (e : JsError) : T W A := fun w => (Throw e, w).

Definition tbind {W A B} (m : T W A) (k : A -> T W B) : T W B :=
  fun w =>
    match m w with
    | (Ok a, w') => k a w'
    | (Throw e, w') => (Throw e, w')
    end.

Arguments tret {W A} a w /.
Arguments tthrow {W A} e w /.

Notation "'let+' x ':=' m 'in' k" := (tbind m (fun x => k))
  (at level 10, x pattern, m at level 100, k at level 200).

(** ** Hook shorthand ([convertHooksShorthand]) *)

(** Modelled from the spec: the enumeration [HookType] of
    [middlewares/hooks/types] is not among the sources; the spec names its
    two values. *)
Module HookType.
Definition GUARDRAIL : string := "guardrail".
Definition MUTATOR : string := "mutator".
End HookType.

(** The property list of an object. *)
Definition props_of (hook : json) : list (string * json) :=
  match hook with
  | JObj props => props
  | _ => []
  end.

(** [v?.k]: [undefined] for [null] and [undefined], and for a value that
    has no property [k] (a string, a number, a boolean and an array have
    no property [is_enabled]). *)
Definition optional_prop (v : option json) (k : string) : json :=
  match v with
  | Some (JObj props) => default JUndefined (obj_get props k)
  | _ => JUndefined
  end.

(** [key.includes('.')]. *)
Fixpoint includes_dot (key : string) : bool :=
  match key with
  | EmptyString => false
  | String c rest => Ascii.eqb c "." || includes_dot rest
  end.

Definition is_digit (c : ascii) : bool :=
  let n := nat_of_ascii c in (Nat.leb 48 n && Nat.leb n 57)%bool.

(** A key made of decimal digits only: the array indices are among
    them. *)
Definition integer_like (key : string) : bool :=
  negb (String.eqb key "") && forallb is_digit (list_ascii_of_string key).

(** What evaluating [hook.hasOwnProperty(key)] throws, if it does:
    reading a property of [null] or [undefined] throws, and so does the
    call when the hook has an own property [hasOwnProperty], whose value
    (a JSON value) is not a function.  Every other value inherits the
    method. *)
Definition hasOwnProperty_error (hook : json) : option JsError :=
  match hook with
  | JNull =>
      Some (TypeError_
              "Cannot read properties of null (reading 'hasOwnProperty')")
  | JUndefined =>
      Some (TypeError_
              "Cannot read properties of undefined (reading 'hasOwnProperty')")
  | JObj props =>
      if includes_key (obj_keys props) "hasOwnProperty"
      then Some (TypeError_ "hook.hasOwnProperty is not a function")
      else None
  | _ => None
  end.

(** [Object.keys(v).map((key) => [key, v[key]])] for a value that is not
    [null] or [undefined]: the properties of an object, the items of an
    array and the characters of a string under their indices, nothing for
    a number or a boolean. *)
Definition own_entries (v : json) : list (string * json) :=
  match v with
  | JObj props =>
      map (fun key => (key, default JUndefined (obj_get props key)))
          (obj_keys props)
  | JArr items => array_entries items
  | JStr text =>
      imap (fun i c => (show_nat i, JStr (String c EmptyString)))
           (list_ascii_of_string text)
  | _ => []
  end.

(** The [forEach] over [EXTRACTABLE_KEYS]: moves the known properties of
    [hook] into [hooksObject] and deletes them from [hook]. *)
Definition extractKnownProperties (hooksObject hook : list (string * json))
  : list (string * json) * list (string * json) :=
  fold_left
    (fun acc key =>
       match obj_get acc.2 key with
       | Some v => (obj_set acc.1 key v, obj_delete acc.2 key)
       | None => acc
       end)
    HOOK_PROPERTIES.EXTRACTABLE_KEYS (hooksObject, hook).

(** One iteration of the [map]: the processed hook and the shorthand
    value as the iteration leaves it.  The object literal draws the
    random id first; the [forEach] then throws on a hook on which
    [hasOwnProperty] cannot be called.  A string, an array, a number and
    a boolean have none of the known properties as an own property, so
    nothing is extracted from them. *)
Definition convertHookShorthand {W} (G : Gateway W) (type hookType : string)
    (hook : json) : T W (json * json) :=
  fun w =>
    let (r, w1) := Math_random G w in
    let suffix :=
      substring 2 (List.length HOOK_PROPERTIES.EXTRACTABLE_KEYS - 2)
        (toString36 G r) in
    let hooksObject :=
      [("type", JStr hookType);
       ("id", JStr (type ++ "_guardrail_" ++ suffix))] in
    match hasOwnProperty_error hook with
    | Some error => (Throw error, w1)
    | None =>
        let (hooksObject, rest) :=
          match hook with
          | JObj props =>
              let (extracted, rest) :=
                extractKnownProperties hooksObject props in
              (extracted, JObj rest)
          | _ => (hooksObject, hook)
          end in
        let hooksObject :=
          props_of (convertKeysToCamelCase [] (JObj hooksObject)) in
        let checks :=
          map (fun kv =>
                 JObj [("id",
                        JStr (if includes_dot kv.1 then kv.1
                              else HOOK_PROPERTIES.DEFAULT_PLUGIN_PREFIX
                                   ++ kv.1));
                       ("parameters", kv.2);
                       ("is_enabled", optional_prop (Some kv.2) "is_enabled")])
              (own_entries rest) in
        (Ok (JObj (obj_set hooksObject "checks" (JArr checks)), rest), w1)
    end.

(** [convertHooksShorthand(hooksArr, type, hookType)]: the processed
    hooks, and [hooksArr] as the call leaves it.  The [map] stops at the
    first hook that throws. *)
Fixpoint convertHooksShorthand {W} (G : Gateway W) (hooksArr : list json)
    (type hookType : string) : T W (list json * list json) :=
  match hooksArr with
  | [] => tret ([], [])
  | hook :: rest =>
      let+ (h, hook') := convertHookShorthand G type hookType hook in
      let+ (hs, rest') := convertHooksShorthand G rest type hookType in
      tret (h :: hs, hook' :: rest')
  end.

(** ** Merge of the inherited configuration (first part of
    [tryTargetsRecursively]) *)

(** [a || b] on optional strings. *)
Definition or_string (a b : option string) : option string :=
  if truthy_string a then a else b.

(** [[...x]]: spreading [undefined] throws. *)
Definition spread_array {A} (what : string) (x : option (list A))
  : Outcome (list A) :=
  match x with
  | Some l => Ok l
  | None => Throw (TypeError_ (what ++ " is not iterable"))
  end.

(** The hook lists of the current node after its shorthand was expanded
    and appended (the four [if] blocks on [inputGuardrails],
    [outputGuardrails], [inputMutators], [outputMutators], in that
    order). *)
Record NormalizedHooks : Type := mkNormalizedHooks {
  nh_beforeRequestHooks : option (list json);
  nh_afterRequestHooks : option (list json);
  nh_inputGuardrails : option (list json);
  nh_outputGuardrails : option (list json);
  nh_inputMutators : option (list json);
  nh_outputMutators : option (list json);
}.

(** One of the four blocks: [if (short) hooks = [...(hooks || []),
    ...convertHooksShorthand(short, type, hookType)]]. *)
Definition appendShorthand {W} (G : Gateway W) (hooks short : option (list json))
    (type hookType : string)
  : T W (option (list json) * option (list json)) :=
  match short with
  | Some arr =>
      let+ (converted, arr') := convertHooksShorthand G arr type hookType in
      tret (Some (default [] hooks ++ converted)%list, Some arr')
  | None => tret (hooks, None)
  end.

Definition normalizeShorthand {W} (G : Gateway W) (currentTarget : Target)
  : T W NormalizedHooks :=
  let+ (before1, ig) :=
    appendShorthand G (t_beforeRequestHooks currentTarget)
      (t_inputGuardrails currentTarget) "input" HookType.GUARDRAIL in
  let+ (after1, og) :=
    appendShorthand G (t_afterRequestHooks currentTarget)
      (t_outputGuardrails currentTarget) "output" HookType.GUARDRAIL in
  let+ (before2, im) :=
    appendShorthand G before1
      (t_inputMutators currentTarget) "input" HookType.MUTATOR in
  let+ (after2, om) :=
    appendShorthand G after1
      (t_outputMutators currentTarget) "output" HookType.MUTATOR in
  tret (mkNormalizedHooks before2 after2 ig og im om).

(** [x ? x : y] for a property that is truthy whenever it is set (an
    array or an object). *)
Definition prefer {A} (current inherited : option A) : option A :=
  match current with
  | Some x => Some x
  | None => inherited
  end.

(** The default guardrails of the inherited record: those of
    [inheritedConfig], replaced in the base case (an inherited record with
    no key) by the expansion of the current node's own. *)
Definition expandDefaultGuardrails {W} (G : Gateway W)
    (inheritedConfig : InheritedConfigData) (currentTarget : Target)
  : T W (option (list json) * option (list json)) :=
  if hasNoKeys inheritedConfig then
    let+ (di, _) :=
      appendShorthand G None (t_defaultInputGuardrails currentTarget)
        "input" HookType.GUARDRAIL in
    let+ (do, _) :=
      appendShorthand G None (t_defaultOutputGuardrails currentTarget)
        "output" HookType.GUARDRAIL in
    tret (prefer di (ic_defaultInputGuardrails inheritedConfig),
          prefer do (ic_defaultOutputGuardrails inheritedConfig))
  else
    tret (ic_defaultInputGuardrails inheritedConfig,
          ic_defaultOutputGuardrails inheritedConfig).

(** Whether the default guardrails of the record passed down are
    defined: in the base case those of the current node, otherwise the
    inherited ones. *)
Definition defaultGuardrailsDefined (inheritedConfig : InheritedConfigData)
    (currentTarget : Target) : bool :=
  if hasNoKeys inheritedConfig
  then is_present (t_defaultInputGuardrails currentTarget)
       && is_present (t_defaultOutputGuardrails currentTarget)
  else is_present (ic_defaultInputGuardrails inheritedConfig)
       && is_present (ic_defaultOutputGuardrails inheritedConfig).

(** Whether [convertHooksShorthand] can read every hook of the list: none
    is [null] or [undefined], and none has an own property
    [hasOwnProperty]. *)
Definition expandable (hooks : option (list json)) : bool :=
  forallb (fun hook => negb (is_present (hasOwnProperty_error hook)))
          (default [] hooks).

(** Whether every shorthand list the merge expands at this node can be
    read: the default guardrails in the base case, and the four guardrail
    and mutator lists. *)
Definition shorthandExpandable (inheritedConfig : InheritedConfigData)
    (currentTarget : Target) : bool :=
  (if hasNoKeys inheritedConfig
   then expandable (t_defaultInputGuardrails currentTarget)
        && expandable (t_defaultOutputGuardrails currentTarget)
   else true)
  && expandable (t_inputGuardrails currentTarget)
  && expandable (t_outputGuardrails currentTarget)
  && expandable (t_inputMutators currentTarget)
  && expandable (t_outputMutators currentTarget).

(** The merge, from [const currentTarget = { ...targetGroup }] to the
    comment that ends it: the record passed down
    ([currentInheritedConfig]) and the current node as the merge leaves
    it.  The expansions of the shorthand throw on a hook they cannot
    read; the last two statements spread the default guardrails and throw
    when they are [undefined]. *)
Definition mergeInheritedConfig {W} (G : Gateway W)
    (inheritedConfig : InheritedConfigData) (targetGroup : Target)
  : T W (InheritedConfigData * Target) :=
  let currentTarget := targetGroup in
  let id := or_string (ic_id inheritedConfig) (t_id currentTarget) in
  let overrideParams :=
    default ∅ (t_overrideParams currentTarget)
    ∪ default ∅ (ic_overrideParams inheritedConfig) in
  let retry :=
    match t_retry currentTarget with
    | Some r => r
    | None => default ∅ (ic_retry inheritedConfig)
    end in
  let cache :=
    match t_cache currentTarget with
    | Some c => c
    | None => default ∅ (ic_cache inheritedConfig)
    end in
  let+ (defaultInputGuardrails, defaultOutputGuardrails) :=
    expandDefaultGuardrails G inheritedConfig currentTarget in
  let strictOpenAiCompliance :=
    prefer (t_strictOpenAiCompliance currentTarget)
      (ic_strictOpenAiCompliance inheritedConfig) in
  let forwardHeaders :=
    prefer (t_forwardHeaders currentTarget)
      (ic_forwardHeaders inheritedConfig) in
  let customHost :=
    if truthy_string (t_customHost currentTarget)
    then t_customHost currentTarget
    else if truthy_string (ic_customHost inheritedConfig)
         then ic_customHost inheritedConfig
         else None in
  let requestTimeout :=
    if truthy_Z (t_requestTimeout currentTarget)
    then t_requestTimeout currentTarget
    else if truthy_Z (ic_requestTimeout inheritedConfig)
         then ic_requestTimeout inheritedConfig
         else None in
  let+ nh := normalizeShorthand G currentTarget in
  let afterRequestHooks :=
    prefer (nh_afterRequestHooks nh) (ic_afterRequestHooks inheritedConfig) in
  let beforeRequestHooks :=
    prefer (nh_beforeRequestHooks nh) (ic_beforeRequestHooks inheritedConfig) in
  let currentInheritedConfig :=
    mkInherited id (Some overrideParams) (Some retry) (Some cache)
      requestTimeout defaultInputGuardrails defaultOutputGuardrails
      strictOpenAiCompliance forwardHeaders customHost
      afterRequestHooks beforeRequestHooks in
  match spread_array "currentInheritedConfig.defaultInputGuardrails"
          defaultInputGuardrails with
  | Throw e => tthrow e
  | Ok targetDefaultInput =>
      match spread_array "currentInheritedConfig.defaultOutputGuardrails"
              defaultOutputGuardrails with
      | Throw e => tthrow e
      | Ok targetDefaultOutput =>
          tret (currentInheritedConfig,
                mkTarget (t_strategy currentTarget) (t_targets currentTarget)
                  (t_provider currentTarget) (t_id currentTarget)
                  (t_cbConfig currentTarget) (t_isOpen currentTarget)
                  (t_originalIndex currentTarget) (t_index currentTarget)
                  (t_weight currentTarget)
                  (Some overrideParams) (Some retry) (Some cache)
                  (if truthy_Z (t_requestTimeout currentTarget)
                   then t_requestTimeout currentTarget
                   else if truthy_Z (ic_requestTimeout inheritedConfig)
                        then ic_requestTimeout inheritedConfig
                        else t_requestTimeout currentTarget)
                  (t_strictOpenAiCompliance currentTarget)
                  forwardHeaders
                  (if truthy_string (t_customHost currentTarget)
                   then t_customHost currentTarget
                   else if truthy_string (ic_customHost inheritedConfig)
                        then ic_customHost inheritedConfig
                        else t_customHost currentTarget)
                  beforeRequestHooks afterRequestHooks
                  (nh_inputGuardrails nh) (nh_outputGuardrails nh)
                  (nh_inputMutators nh) (nh_outputMutators nh)
                  (Some targetDefaultInput) (Some targetDefaultOutput))
      end
  end.

(** ** Circuit-breaker filtering *)

(** [!t.isOpen]. *)
Definition isHealthy (t : Target) : bool := negb (default false (t_isOpen t)).

(** [(currentTarget.targets || []).map((t, index) => ({...t,
    originalIndex: index})).filter((t) => !t.isOpen)]. *)
Definition healthyTargets (currentTarget : Target) : list Target :=
  List.filter isHealthy
    (imap (fun index t => set_originalIndex t (Some index))
          (default [] (t_targets currentTarget))).

(** The block guarded by [isHandlingCircuitBreaker]. *)
Definition filterOpenTargets (currentInheritedConfig : InheritedConfigData)
    (currentTarget : Target) : Target :=
  if truthy_string (ic_id currentInheritedConfig) then
    let healthy := healthyTargets currentTarget in
    if negb (Nat.eqb (List.length healthy) 0)
    then set_targets currentTarget (Some healthy)
    else currentTarget
  else currentTarget.

(** ** Strategies ([strategies/]) *)

(** [a || b] on indices: [0] and [undefined] are falsy. *)
Definition or_index (a : option nat) (b : option nat) : option nat :=
  match a with
  | Some (S n) => Some (S n)
  | _ => b
  end.

(** [`${currentJsonPath}.targets[${originalIndex}]`]. *)
Definition targetPath (currentJsonPath : string) (originalIndex : option nat)
  : string :=
  currentJsonPath ++ ".targets["
    ++ match originalIndex with
       | Some n => show_nat n
       | None => "undefined"
       end
    ++ "]".

(** The private [tryTarget] of every strategy calls back the resolver; the
    strategies take that call as [tryTarget]. *)
Definition TryTarget (W : Type) : Type :=
  Target -> InheritedConfigData -> string -> M W Response.

Module SingleStrategy.

Definition execute {W} (tryTarget : TryTarget W) (context : StrategyContext)
    (targets : list Target) (inheritedConfig : InheritedConfigData)
    (currentJsonPath : string) : M W Response :=
  match targets with
  | [] => throw (Error_ "No targets available for single strategy")
  | target :: _ =>
      let originalIndex :=
        or_index (t_originalIndex target)
          (Some STRATEGY_CONFIG.SINGLE_TARGET_INDEX) in
      tryTarget target inheritedConfig (targetPath currentJsonPath originalIndex)
  end.

End SingleStrategy.

Module FallbackStrategy.

Definition shouldStopFallback (response : Response) (strategy : option Strategy)
  : bool :=
  let codes := strategy ≫= strategy_onStatusCodes in
  let gatewayException :=
    bool_decide
      (headers_get response REQUEST_PROCESSING.GATEWAY_EXCEPTION_HEADER
       = Some "true") in
  match codes with
  | Some l => negb (existsb (Z.eqb (status response)) l)
  | None => false
  end
  || (negb (is_present codes) && ok response)
  || gatewayException.

(** The [for] loop, from child number [index] on; [response] is the
    variable of that name. *)
Fixpoint loop {W} (tryTarget : TryTarget W) (inheritedConfig : InheritedConfigData)
    (currentJsonPath : string) (index : nat) (targets : list Target)
    (response : option Response) : M W (option Response) :=
  match targets with
  | [] => ret response
  | target :: rest =>
      let originalIndex := or_index (t_originalIndex target) (Some index) in
      let targetJsonPath := targetPath currentJsonPath originalIndex in
      let* r := tryTarget target inheritedConfig targetJsonPath in
      if shouldStopFallback r (t_strategy target)
      then ret (Some r)
      else loop tryTarget inheritedConfig currentJsonPath (S index) rest (Some r)
  end.

(** The children [targets], numbered from [index], were tried one after
    the other from the world [w] and none of them made the loop stop:
    [response'] is the response variable after the last of them and [w']
    the world it left. *)
Inductive passed {W} (tryTarget : TryTarget W)
    (inheritedConfig : InheritedConfigData) (currentJsonPath : string)
  : nat -> list Target -> option Response -> W ->
    option Response -> W -> Prop :=
| passed_nil index response w :
    passed tryTarget inheritedConfig currentJsonPath index [] response w
      response w
| passed_cons index target rest response w r w1 response' w' :
    tryTarget target inheritedConfig
      (targetPath currentJsonPath
         (or_index (t_originalIndex target) (Some index))) w
    = Some (Ok r, w1) ->
    shouldStopFallback r (t_strategy target) = false ->
    passed tryTarget inheritedConfig currentJsonPath (S index) rest (Some r) w1
      response' w' ->
    passed tryTarget inheritedConfig currentJsonPath index (target :: rest)
      response w response' w'.

Definition execute {W} (tryTarget : TryTarget W) (context : StrategyContext)
    (targets : list Target) (inheritedConfig : InheritedConfigData)
    (currentJsonPath : string) : M W Response :=
  let* response := loop tryTarget inheritedConfig currentJsonPath 0 targets None in
  match response with
  | None => throw (Error_ "All fallback attempts failed")
  | Some response => ret response
  end.

End FallbackStrategy.

Module LoadBalanceStrategy.

Definition assignDefaultWeights (targets : list Target) : list Target :=
  map (fun target =>
         set_weight target
           (Some (default REQUEST_PROCESSING.DEFAULT_WEIGHT (t_weight target))))
      targets.

(** [target.weight] as the operand of [+], [<] and [-]: the weight, and
    [NaN] ([undefined] as a number) for a target without one; the targets
    that went through [assignDefaultWeights] all have one. *)
Definition weight_of (target : Target) : float :=
  default nan (t_weight target).

(** The [reduce]: the weights are added from the left, starting from
    0. *)
Definition totalWeight (targets : list Target) : float :=
  fold_left (fun sum target => (sum + weight_of target)%float) targets
    0%float.

(** The [for] loop of [selectTargetByWeight]; [None] when it ends without
    a choice. *)
Fixpoint pick (randomWeight : float) (index : nat) (targets : list Target)
  : option (Target * option nat) :=
  match targets with
  | [] => None
  | target :: rest =>
      if (randomWeight <? weight_of target)%float
      then Some (target, or_index (t_originalIndex target) (Some index))
      else pick (randomWeight - weight_of target)%float (S index) rest
  end.

(** The value of [randomWeight] once the loop has gone past the targets
    [passed] without a [return]: their weights are subtracted one after
    the other. *)
Definition randomWeightAfter (randomWeight : float) (passed : list Target)
  : float :=
  fold_left (fun remaining target => (remaining - weight_of target)%float)
    passed randomWeight.

Definition selectTargetByWeight {W} (G : Gateway W) (targets : list Target)
  : M W (Target * option nat) :=
  let totalWeight := totalWeight targets in
  if (totalWeight =? 0)%float
  then throw (Error_ "Total weight cannot be zero for load balancing")
  else
    let* r := call (fun w => let (r, w') := Math_random G w in (Ok r, w')) in
    let randomWeight := (r * totalWeight)%float in
    match pick randomWeight 0 targets with
    | Some sel => ret sel
    | None =>
        match last targets with
        | Some lastTarget =>
            ret (lastTarget,
                 or_index (t_originalIndex lastTarget)
                   (Some (List.length targets - 1)%nat))
        | None => throw (TypeError_ "lastTarget is undefined")
        end
    end.

Definition execute {W} (G : Gateway W) (tryTarget : TryTarget W)
    (context : StrategyContext) (targets : list Target)
    (inheritedConfig : InheritedConfigData) (currentJsonPath : string)
  : M W Response :=
  let weightedTargets := assignDefaultWeights targets in
  let* selectedTarget := selectTargetByWeight G weightedTargets in
  let targetJsonPath := targetPath currentJsonPath selectedTarget.2 in
  tryTarget selectedTarget.1 inheritedConfig targetJsonPath.

End LoadBalanceStrategy.

Module ConditionalStrategy.

Definition extractMetadata {W} (G : Gateway W)
    (requestHeaders : gmap string string) : json :=
  let h := requestHeaders !! GLOBALS.METADATA in
  if truthy_string h then
    match JSON_parse G (default "" h) with
    | Ok v => v
    | Throw _ => JObj []
    end
  else JObj [].

Definition extractParams (request : RequestBody) : json :=
  match request with
  | ParamsBody params => params
  | _ => JObj []
  end.

Definition resolveConditionalTarget {W} (G : Gateway W) (targets : list Target)
    (metadata params : json) : M W Target :=
  match ConditionalRouter_resolveTarget G targets metadata params with
  | Ok t => ret t
  | Throw error => throw (RouterError_ (err_message error))
  end.

Definition execute {W} (G : Gateway W) (tryTarget : TryTarget W)
    (context : StrategyContext) (targets : list Target)
    (inheritedConfig : InheritedConfigData) (currentJsonPath : string)
  : M W Response :=
  let metadata := extractMetadata G (sc_requestHeaders context) in
  let params := extractParams (sc_request context) in
  let* selectedTarget := resolveConditionalTarget G targets metadata params in
  let originalIndex :=
    or_index (t_originalIndex selectedTarget) (t_index selectedTarget) in
  let targetJsonPath := targetPath currentJsonPath originalIndex in
  tryTarget selectedTarget inheritedConfig targetJsonPath.

End ConditionalStrategy.

(** Modelled from the spec: the enumeration [StrategyModes] of
    [types/requestBody] is not among the sources; the spec names the four
    modes. *)
Module StrategyModes.
Definition FALLBACK : string := "fallback".
Definition LOADBALANCE : string := "loadbalance".
Definition CONDITIONAL : string := "conditional".
Definition SINGLE : string := "single".
End StrategyModes.

Module StrategyFactory.

(** [StrategyFactory.create(mode).execute]: the table lookup, then the
    strategy found. *)
Definition create {W} (G : Gateway W) (mode : string)
  : Outcome (TryTarget W -> StrategyContext -> list Target ->
             InheritedConfigData -> string -> M W Response) :=
  if String.eqb mode StrategyModes.FALLBACK then Ok FallbackStrategy.execute
  else if String.eqb mode StrategyModes.LOADBALANCE
  then Ok (LoadBalanceStrategy.execute G)
  else if String.eqb mode StrategyModes.CONDITIONAL
  then Ok (ConditionalStrategy.execute G)
  else if String.eqb mode StrategyModes.SINGLE then Ok SingleStrategy.execute
  else Throw (Error_ ("Unknown strategy mode: " ++ mode)).

End StrategyFactory.

(** ** The target resolver ([tryTargetsRecursively]) *)

(** [tryPost]: a new request processor, and its [process()]. *)
Definition tryPost {W} (G : Gateway W) (providerOption : Target)
    (requestBody : RequestBody) (requestHeaders : gmap string string)
    (fn currentIndex method : string) : M W Response :=
  call (tryPost_processor G providerOption requestBody requestHeaders fn
          currentIndex method).

(** [error.name === 'RouterError']. *)
Definition isRouterError (error : JsError) : bool :=
  String.eqb (err_name error) "RouterError".

(** The walk of the target tree.  The source keeps a [default:] label
    (and its [break]) from a former [switch] on the strategy mode in front
    of the leaf call; the leaf call is read as the branch taken when the
    strategy dispatch is not.  The recursion follows the tree through the
    strategies, which rebuild the child they select; [fuel] bounds the
    depth, and [None] means the bound was hit. *)
Fixpoint tryTargetsRecursively {W} (G : Gateway W) (fuel : nat)
    (targetGroup : Target) (request : RequestBody)
    (requestHeaders : gmap string string) (fn method jsonPath : string)
    (inheritedConfig : InheritedConfigData) : M W Response :=
  match fuel with
  | O => fun _ => None
  | S fuel' =>
      let currentJsonPath := jsonPath in
      let strategyMode := t_strategy targetGroup ≫= strategy_mode in
      let* merged := call (mergeInheritedConfig G inheritedConfig targetGroup) in
      let currentInheritedConfig := merged.1 in
      let isHandlingCircuitBreaker :=
        truthy_string (ic_id currentInheritedConfig) in
      let currentTarget := filterOpenTargets currentInheritedConfig merged.2 in
      if truthy_string strategyMode && is_present (t_targets currentTarget)
      then
        try_catch
          (match StrategyFactory.create G (default "" strategyMode) with
           | Throw e => throw e
           | Ok execute =>
               let context :=
                 mkStrategyContext request requestHeaders fn method
                   currentJsonPath in
               execute
                 (fun target inherited targetJsonPath =>
                    tryTargetsRecursively G fuel' target request
                      requestHeaders fn method targetJsonPath inherited)
                 context (default [] (t_targets currentTarget))
                 currentInheritedConfig currentJsonPath
           end)
          (fun error =>
             if isRouterError error then throw error
             else ret (RequestErrorHandler.handleTargetRecursionError error))
      else
        try_catch
          (let* response :=
             tryPost G currentTarget request requestHeaders fn
               currentJsonPath method in
           if isHandlingCircuitBreaker then
             match handleCircuitBreakerResponse G with
             | Some hook =>
                 let* _ :=
                   call (hook response (ic_id currentInheritedConfig)
                           (t_cbConfig currentTarget) currentJsonPath) in
                 ret response
             | None => ret response
             end
           else ret response)
          (fun error =>
             ret (RequestErrorHandler.handleTargetRecursionError error))
  end.

(** The longest chain of [targets] below a node: the fuel the walk of a
    tree needs when every strategy recurses on a child of its node. *)
Fixpoint depth (t : Target) : nat :=
  match t with
  | mkTarget _ ts _ _ _ _ _ _ _ _ _ _ _ _ _ _ _ _ _ _ _ _ _ _ =>
      S (match ts with
         | Some l => fold_right (fun c acc => Nat.max (depth c) acc) 0%nat l
         | None => 0%nat
         end)
  end.

(** The conditional router picks one of the targets it is given. *)
Definition routerPicksAChild {W} (G : Gateway W) : Prop :=
  forall targets metadata params selected,
    ConditionalRouter_resolveTarget G targets metadata params = Ok selected ->
    In selected targets.

(** ** Sample collaborators and inputs

    A small world in which the statements below are run: the world is the
    list of JSON paths at which a provider was called. *)

Module Demo.

Definition response (st : Z) : Response := mkResponse st ∅ (BodyText "").

(** A processor that answers 503 for the provider called "down" and 200
    for any other, and records the path of the call. *)
Definition gateway : Gateway (list string) :=
  mkGateway (list string)
    (fun w => (0.5%float, w))
    (fun _ => "0.k9x2mq7")
    (fun _ => Throw (mkError "SyntaxError" "Unexpected token" false))
    (fun target _ _ _ path _ w =>
       (Ok (response (if bool_decide (t_provider target = Some "down")
                      then 503 else 200)),
        (w ++ [path])%list))
    None
    (fun targets _ _ =>
       match targets with
       | t :: _ => Ok t
       | [] => Throw (Error_ "No conditions passed")
       end).

(** [{provider: p}]. *)
Definition provider (p : string) : Target :=
  mkTarget None None (Some p) None None None None None None None None None
    None None None None None None None None None None None None.

(** [{provider: p, weight: w}]. *)
Definition weighted (p : string) (w : float) : Target :=
  set_weight (provider p) (Some w).

(** [{strategy: {mode}, targets, defaultInputGuardrails: [],
    defaultOutputGuardrails: []}], as the config builder makes a root. *)
Definition root (mode : string) (children : list Target) : Target :=
  mkTarget (Some (mkStrategy (Some mode) None)) (Some children) None None None
    None None None None None None None None None None None None None None None
    None None (Some []) (Some []).

Definition run (fuel : nat) (t : Target) (inherited : InheritedConfigData)
  : option (Outcome Response * list string) :=
  tryTargetsRecursively gateway fuel t (ParamsBody (JObj [])) ∅
    "chatComplete" "POST" "config" inherited [].

(** The recursive call the strategies of the sample make. *)
Definition tryTarget : TryTarget (list string) :=
  fun target inherited path =>
    tryTargetsRecursively gateway 1 target (ParamsBody (JObj [])) ∅
      "chatComplete" "POST" path inherited.

(** The record a root with empty default guardrails passes down. *)
Definition passedDown : InheritedConfigData :=
  mkInherited None (Some ∅) (Some ∅) (Some ∅) None (Some []) (Some [])
    None None None None None.

(** An inherited record that carries a circuit-breaker id and one
    before-request hook. *)
Definition inheritedWithHook : InheritedConfigData :=
  mkInherited (Some "cb-1") (Some ∅) (Some ∅) (Some ∅) None (Some [])
    (Some []) None None None None (Some [JStr "inherited-hook"]).

(** [{provider: "openai", inputGuardrails: [{}]}]. *)
Definition shorthandOnly : Target :=
  mkTarget None None (Some "openai") None None None None None None None None
    None None None None None None None (Some [JObj []]) None None None None
    None.

(** [{provider: p, isOpen: true}]. *)
Definition opened (p : string) : Target :=
  mkTarget None None (Some p) None None (Some true) None None None None None
    None None None None None None None None None None None None None.

(** A fallback node whose first child is open. *)
Definition breakerNode : Target :=
  root "fallback" [opened "a"; provider "b"].

(** A load-balance node whose children weigh nothing. *)
Definition zeroWeights : Target :=
  root "loadbalance" [weighted "a" 0%float; weighted "b" 0%float].

(** A retry engine whose first round returns 200 without a retry and
    whose later rounds use their two retries and return 429; after-request
    hooks that turn a 200 into a 446.  The world counts the rounds. *)
Definition loopServices : LoopServices nat :=
  mkLoopServices nat
    (fun _ _ _ _ w =>
       (Ok (match w with
            | O => mkRetryResult (response 200) None 0 false
            | S _ => mkRetryResult (response 429) (Some 2) 0 false
            end), S w))
    (fun r w => (Ok (mkHandledResponse r None None), w))
    (fun r _ _ _ w =>
       (Ok (if status r =? 200 then response 446 else r), w))
    (fun _ _ _ _ w => w).

Definition retry : RetrySettings :=
  mkRetrySettings (Some 2) (Some [446; 429]) None.

Definition fetchOptions : RequestInit := mkRequestInit "POST" ∅ None None.

(** A GET request of a client that sent a JSON content type. *)
Definition getContext : RequestContext :=
  mkRequestContext "GET" "chatComplete"
    (<["content-type" := "application/json"]> ∅)
    (ParamsBody (JObj [])) (Some (ParamsBody (JObj []))) [] None.

(** A config header that parses to
    [{"retry": {"on_status_codes": [429]}, "override_params":
    {"max_tokens": 5}, "provider": "openai"}]. *)
Definition parsedConfig : list (string * json) :=
  [("retry", JObj [("on_status_codes", JArr [JNum 429%Q])]);
   ("override_params", JObj [("max_tokens", JNum 5%Q)]);
   ("provider", JStr "openai")].

Definition parse (text : string) : Outcome json := Ok (JObj parsedConfig).

Definition configHeaders : gmap string string :=
  <["x-portkey-config" := "{...}"]> ∅.

Definition baseConfig : ProviderConfigBuilder.BaseConfig :=
  ProviderConfigBuilder.mkBaseConfig (JArr []) (JArr []).

End Demo.

(** ** Weighted choice of a provider ([selectProviderByWeight]) *)

(** [{...t, index: i}]. *)
Definition set_index (t : Target) (i : option nat) : Target :=
  mkTarget (t_strategy t) (t_targets t) (t_provider t) (t_id t) (t_cbConfig t)
    (t_isOpen t) (t_originalIndex t) i (t_weight t) (t_overrideParams t)
    (t_retry t) (t_cache t) (t_requestTimeout t) (t_strictOpenAiCompliance t)
    (t_forwardHeaders t) (t_customHost t) (t_beforeRequestHooks t)
    (t_afterRequestHooks t) (t_inputGuardrails t) (t_outputGuardrails t)
    (t_inputMutators t) (t_outputMutators t) (t_defaultInputGuardrails t)
    (t_defaultOutputGuardrails t).

(** [x || 0] on a number: [0], [-0] and [NaN] are falsy. *)
Definition or_zero (x : float) : float :=
  if (x =? 0)%float || PrimFloat.is_nan x then 0%float else x.

(** [provider.weight || 0]. *)
Definition providerWeight (provider : Target) : float :=
  or_zero (LoadBalanceStrategy.weight_of provider).

(** The [for] loop of [selectProviderByWeight]; [None] when it ends
    without a [return]. *)
Fixpoint selectLoop (randomWeight : float) (index : nat)
    (weightedProviders : list Target) : option Target :=
  match weightedProviders with
  | [] => None
  | provider :: rest =>
      if (randomWeight <? providerWeight provider)%float
      then Some (set_index provider (Some index))
      else selectLoop (randomWeight - providerWeight provider)%float
             (S index) rest
  end.

(** The value of [randomWeight] once the loop of [selectProviderByWeight]
    has gone past the providers [passed] without a [return]. *)
Definition randomWeightAfter (randomWeight : float) (passed : list Target)
  : float :=
  fold_left
    (fun remaining provider => (remaining - providerWeight provider)%float)
    passed randomWeight.

Definition selectProviderByWeight {W} (G : Gateway W) (providers : list Target)
  : M W Target :=
  let weightedProviders :=
    map (fun provider =>
           set_weight provider
             (Some (default REQUEST_PROCESSING.DEFAULT_WEIGHT
                      (t_weight provider))))
        providers in
  let totalWeight :=
    fold_left (fun sum provider => (sum + providerWeight provider)%float)
              weightedProviders 0%float in
  if (totalWeight =? 0)%float
  then throw (Error_ ERROR_MESSAGES.NO_PROVIDER_SELECTED)
  else
    let* r := call (fun w => let (r, w') := Math_random G w in (Ok r, w')) in
    match selectLoop (r * totalWeight)%float 0 weightedProviders with
    | Some selected => ret selected
    | None => throw (Error_ ERROR_MESSAGES.NO_PROVIDER_SELECTED)
    end.

(** ** Before-request hooks ([beforeRequestHookHandler]) *)

(** What [hooksManager.executeHooks] resolves to. *)
Record HooksResult : Type := mkHooksResult {
  shouldDeny : bool;
  hooks_results : json;
}.

(** [span.getContext().request]. *)
Record SpanRequest : Type := mkSpanRequest {
  isTransformed : bool;
  span_json : json;
}.

(** The hooks manager of the framework context and the clock.
    [spanRequest id] is [hooksManager.getSpan(id).getContext().request]; it
    throws when there is no such span. *)
Record HooksManager (W : Type) : Type := mkHooksManager {
  now : W -> Z * W;
  executeHooks : string -> list string -> W -> Outcome HooksResult * W;
  spanRequest : string -> W -> Outcome SpanRequest * W;
}.
Arguments now {W} _.
Arguments executeHooks {W} _.
Arguments spanRequest {W} _.

(** The object [beforeRequestHookHandler] resolves to; a property it does
    not set is [None]. *)
Record BeforeHookOutcome : Type := mkBeforeHookOutcome {
  bh_response : option Response;
  bh_createdAt : option Z;
  bh_transformedBody : option json;
  bh_error : option JsError;
}.

Definition lift {W A} (o : Outcome A) : M W A := fun w => Some (o, w).

Definition modify {W} (f : W -> W) : M W unit := fun w => Some (Ok tt, f w).

(** [isTransformed ? span.getContext().request.json : null]. *)
Definition transformedBodyOf {W} (H : HooksManager W) (hookSpanId : string)
    (transformed : bool) : M W (option json) :=
  if transformed
  then let* request := call (spanRequest H hookSpanId) in
       ret (Some (span_json request))
  else ret None.

(** The [try] block either returns the denial (left) or falls through to
    the statement after it with the flag [isTransformed] (right); what it
    throws is returned as [{error}].  The last [return] is outside the
    [try]. *)
Definition beforeRequestHookHandler {W} (H : HooksManager W)
    (hookSpanId : string) : M W BeforeHookOutcome :=
  let* tried :=
    try_catch
      (let* start := call (fun w => let (d, w') := now H w in (Ok d, w')) in
       let* hooksResult :=
         call (executeHooks H hookSpanId ["syncBeforeRequestHook"]) in
       let* request := call (spanRequest H hookSpanId) in
       if shouldDeny hooksResult then
         let* transformedBody :=
           transformedBodyOf H hookSpanId (isTransformed request) in
         ret (inl (mkBeforeHookOutcome
                     (Some (RequestErrorHandler.createHooksFailureResponse
                              (hooks_results hooksResult)))
                     (Some start) transformedBody None))
       else ret (inr (isTransformed request)))
      (fun err => ret (inl (mkBeforeHookOutcome None None None (Some err)))) in
  match tried with
  | inl returned => ret returned
  | inr transformed =>
      let* transformedBody := transformedBodyOf H hookSpanId transformed in
      ret (mkBeforeHookOutcome None None transformedBody None)
  end.

(** A hooks manager that runs the hooks of [H] for their effects and
    reports that they pass and leave the request as it is. *)
Definition passingHooks {W} (H : HooksManager W) : HooksManager W :=
  mkHooksManager W (now H)
    (fun hookSpanId names w =>
       let (_, w') := executeHooks H hookSpanId names w in
       (Ok (mkHooksResult false JNull), w'))
    (fun _ w => (Ok (mkSpanRequest false JNull), w)).

(** ** Request processor ([services/requestProcessor.ts]) *)

Module RequestProcessor.

(** What the cache service resolves to. *)
Record CacheResponseObject : Type := mkCacheResponseObject {
  cacheResponse : option Response;
  cacheStatus : option string;
  cacheKey : option string;
  cache_createdAt : option Z;
}.

(** The argument of [responseService.create]. *)
Record CreateOptions : Type := mkCreateOptions {
  co_response : Response;
  co_responseTransformer : option string;
  co_isResponseAlreadyMapped : bool;
  co_isCacheHit : bool;
  co_cacheStatus : option string;
  co_cacheKey : option string;
  co_retryAttempt : Z;
  co_fetchOptions : option RequestInit;
  co_createdAt : option Z;
  co_executionTime : option Z;
  co_originalResponseJson : option json;
}.

(** The request context of the processor: the part the request
    construction reads, the resolved URL and the request parameters. *)
Record State : Type := mkState {
  requestContext : RequestContext;
  requestURL : option string;
  params : json;
}.

(** The services and objects the processor holds.  The log object is a
    mutable object: its builder methods act on the world. *)
Record Services (W : Type) : Type := mkServices {
  hooksManager : HooksManager W;
  hookSpanId : string;
  hookSpan_requestJson : W -> Outcome json * W;
  getFullURL : State -> W -> Outcome string * W;
  hasRequestHandler : State -> bool;
  transformToProviderRequestAndSave : State -> Outcome State;
  stringify : option RequestBody -> option string;
  getHeaders : RequestContext -> Outcome (list (string * option string));
  getCachedResponse :
    State -> gmap string (option string) -> W ->
    Outcome CacheResponseObject * W;
  preRequestValidator_getResponse : W -> Outcome (option Response) * W;
  responseService_create :
    CreateOptions -> W -> Outcome (Response * option json) * W;
  retryConfig : State -> RetrySettings;
  loopServices : State -> LoopServices W;
  log_addHookSpanId : string -> W -> W;
  log_updateRequestContext :
    State -> option (gmap string (option string)) -> W -> W;
  log_addResponse : Response -> option json -> W -> W;
  log_addCache : option string -> option string -> W -> W;
  log_log : W -> W;
}.
Arguments hooksManager {W} _.
Arguments hookSpanId {W} _.
Arguments hookSpan_requestJson {W} _.
Arguments getFullURL {W} _.
Arguments hasRequestHandler {W} _.
Arguments transformToProviderRequestAndSave {W} _.
Arguments stringify {W} _.
Arguments getHeaders {W} _.
Arguments getCachedResponse {W} _.
Arguments preRequestValidator_getResponse {W} _.
Arguments responseService_create {W} _.
Arguments retryConfig {W} _.
Arguments loopServices {W} _.
Arguments log_addHookSpanId {W} _.
Arguments log_updateRequestContext {W} _.
Arguments log_addResponse {W} _.
Arguments log_addCache {W} _.
Arguments log_log {W} _.

(** The four [return this.create...(...)] / [return
    this.executeMainRequest(...)] of [process], with their arguments. *)
Inductive Terminal : Type :=
| EarlyResponse (hookResult : BeforeHookOutcome)
| CachedResponse (cacheResult : CacheResponseObject) (fetchOptions : RequestInit)
| ValidationResponse (response : Response) (fetchOptions : RequestInit)
    (cacheResult : CacheResponseObject)
| MainRequest (fetchOptions : RequestInit) (cacheResult : CacheResponseObject).

(** [prepareRequest], and the first statement of [createEarlyResponse]. *)
Definition prepareRequest {W} (svc : Services W) (st : State) : M W State :=
  if negb (hasRequestHandler svc st)
  then lift (transformToProviderRequestAndSave svc st)
  else ret st.

Definition updateRequestContextFromHooks {W} (svc : Services W) (st : State)
    (hookResult : BeforeHookOutcome) : M W State :=
  if truthy_json (bh_transformedBody hookResult)
  then let* j := call (hookSpan_requestJson svc) in
       ret (mkState (requestContext st) (requestURL st) j)
  else ret st.

(** The statements of the [try] block of [process] up to the [return]
    that is taken: the awaited phases, and which of the four terminal
    calls is returned. *)
Definition selectTerminal {W} (svc : Services W) (st : State)
  : M W (State * Terminal) :=
  (* setupRequestContext *)
  let* url := call (getFullURL svc st) in
  let st := mkState (requestContext st) (Some url) (params st) in
  let* _ := modify (log_addHookSpanId svc (hookSpanId svc)) in
  (* handleBeforeRequestHooks *)
  let* beforeHookResult :=
    beforeRequestHookHandler (hooksManager svc) (hookSpanId svc) in
  if is_present (bh_response beforeHookResult)
  then ret (st, EarlyResponse beforeHookResult)
  else
    let* st := updateRequestContextFromHooks svc st beforeHookResult in
    let* st := prepareRequest svc st in
    (* buildFetchOptions *)
    let* fetchOptions :=
      lift (constructRequest (stringify svc) (getHeaders svc) (requestContext st)) in
    (* handleCaching *)
    let* cacheResult :=
      call (getCachedResponse svc st (ri_headers fetchOptions)) in
    let* _ :=
      modify (log_addCache svc (cacheStatus cacheResult) (cacheKey cacheResult)) in
    if is_present (cacheResponse cacheResult)
    then ret (st, CachedResponse cacheResult fetchOptions)
    else
      (* handlePreRequestValidation *)
      let* validation := call (preRequestValidator_getResponse svc) in
      match validation with
      | Some response =>
          ret (st, ValidationResponse response fetchOptions cacheResult)
      | None => ret (st, MainRequest fetchOptions cacheResult)
      end.

(** The log chain that ends a terminal call. *)
Definition logResponse {W} (svc : Services W) (st : State)
    (headers : option (gmap string (option string))) (addCache : bool)
    (response : Response) (originalResponseJson : option json) : M W unit :=
  let* _ := modify (log_updateRequestContext svc st headers) in
  let* _ := modify (log_addResponse svc response originalResponseJson) in
  let* _ := if addCache then modify (log_addCache svc None None) else ret tt in
  modify (log_log svc).

(** [createEarlyResponse], [createCachedResponse],
    [createValidationResponse] and [executeMainRequest].  The hook result
    of an early response and the cache result of a cached one carry a
    response; the non-null assertions of the source are the [match]es. *)
Definition runTerminal {W} (svc : Services W) (fuel : nat) (st : State)
    (t : Terminal) : M W Response :=
  match t with
  | EarlyResponse hookResult =>
      let* st := prepareRequest svc st in
      match bh_response hookResult with
      | None => throw (TypeError_ "response is undefined")
      | Some hookResponse =>
          let* created :=
            call (responseService_create svc
                    (mkCreateOptions hookResponse None false false None None 0
                       None (bh_createdAt hookResult) None None)) in
          let* _ := logResponse svc st None true created.1 created.2 in
          ret created.1
      end
  | CachedResponse cacheResult fetchOptions =>
      match cacheResponse cacheResult with
      | None => throw (TypeError_ "response is undefined")
      | Some cached =>
          let* created :=
            call (responseService_create svc
                    (mkCreateOptions cached
                       (Some (rc_endpoint (requestContext st))) false true
                       (cacheStatus cacheResult) (cacheKey cacheResult) 0
                       (Some fetchOptions) (cache_createdAt cacheResult)
                       (Some 0) None)) in
          let* _ :=
            logResponse svc st (Some (ri_headers fetchOptions)) false
              created.1 created.2 in
          ret created.1
      end
  | ValidationResponse response fetchOptions cacheResult =>
      let* date :=
        call (fun w => let (d, w') := now (hooksManager svc) w in (Ok d, w')) in
      let* created :=
        call (responseService_create svc
                (mkCreateOptions response None false false
                   (cacheStatus cacheResult) (cacheKey cacheResult) 0
                   (Some fetchOptions) (Some date) None None)) in
      let* _ :=
        logResponse svc st (Some (ri_headers fetchOptions)) false
          created.1 created.2 in
      ret created.1
  | MainRequest fetchOptions cacheResult =>
      let* result :=
        recursiveAfterRequestHookHandler (loopServices svc st) fuel
          (retryConfig svc st) fetchOptions 0 (hookSpanId svc) in
      let* created :=
        call (responseService_create svc
                (mkCreateOptions (mappedResponse result) None true false
                   (cacheStatus cacheResult) (cacheKey cacheResult)
                   (retryCount result) (Some fetchOptions)
                   (Some (createdAt result)) None
                   (originalResponseJson result))) in
      let* _ :=
        logResponse svc st (Some (ri_headers fetchOptions)) false
          created.1 created.2 in
      ret created.1
  end.

(** [process].  Each terminal call is returned without [await]: the
    promise it returns is handed back as it is, so an error it rejects
    with is not seen by the [catch] of [process], which covers the awaited
    phases only. *)
Definition process {W} (svc : Services W) (fuel : nat) (st : State)
  : M W Response :=
  let* step :=
    try_catch
      (let* selected := selectTerminal svc st in ret (inl selected))
      (fun error => ret (inr (RequestErrorHandler.handleTryPostError error))) in
  match step with
  | inl (st', t) => runTerminal svc fuel st' t
  | inr response => ret response
  end.

(** The services [svc] with the collaborators of the fetch path replaced:
    the provider's headers, the cache, the validator, the retry
    configuration and the retrying fetch. *)
Definition withFetchPath {W} (svc : Services W)
    (getHeaders' : RequestContext -> Outcome (list (string * option string)))
    (getCachedResponse' :
       State -> gmap string (option string) -> W ->
       Outcome CacheResponseObject * W)
    (validator' : W -> Outcome (option Response) * W)
    (retryConfig' : State -> RetrySettings)
    (loopServices' : State -> LoopServices W) : Services W :=
  mkServices W (hooksManager svc) (hookSpanId svc) (hookSpan_requestJson svc)
    (getFullURL svc) (hasRequestHandler svc) (transformToProviderRequestAndSave svc)
    (stringify svc) getHeaders' getCachedResponse' validator'
    (responseService_create svc) retryConfig' loopServices'
    (log_addHookSpanId svc) (log_updateRequestContext svc) (log_addResponse svc)
    (log_addCache svc) (log_log svc).

(** The services [svc] with another hooks manager. *)
Definition withHooksManager {W} (svc : Services W) (H' : HooksManager W)
  : Services W :=
  mkServices W H' (hookSpanId svc) (hookSpan_requestJson svc)
    (getFullURL svc) (hasRequestHandler svc) (transformToProviderRequestAndSave svc)
    (stringify svc) (getHeaders svc) (getCachedResponse svc)
    (preRequestValidator_getResponse svc) (responseService_create svc)
    (retryConfig svc) (loopServices svc)
    (log_addHookSpanId svc) (log_updateRequestContext svc) (log_addResponse svc)
    (log_addCache svc) (log_log svc).

End RequestProcessor.

(** The names an object literal inherits from [Object.prototype].  A
    lookup of one of them in the table [providerConfigs] finds the
    inherited property instead of a builder, and a lookup of one of them
    in the request headers finds it instead of a header; the table and
    the map of the model hold the own properties only. *)
Definition Object_prototype_names : list string :=
  ["constructor"; "__proto__"; "hasOwnProperty"; "isPrototypeOf";
   "propertyIsEnumerable"; "toLocaleString"; "toString"; "valueOf";
   "__defineGetter__"; "__defineSetter__"; "__lookupGetter__";
   "__lookupSetter__"].

(** A second sample world: the list of the collaborators that were
    called, in order. *)
Module Sample.

Definition hooks (deny failing : bool) : HooksManager (list string) :=
  mkHooksManager (list string)
    (fun w => (0, w))
    (fun _ _ w =>
       (if failing then Throw (Error_ "hooks manager is down")
        else Ok (mkHooksResult deny (JArr [JStr "verdict"])),
        (w ++ ["executeHooks"])%list))
    (fun _ w => (Ok (mkSpanRequest false JNull), w)).

Definition loop : LoopServices (list string) :=
  mkLoopServices (list string)
    (fun _ _ _ _ w =>
       (Ok (mkRetryResult (Demo.response 200) None 0 false),
        (w ++ ["fetch"])%list))
    (fun r w => (Ok (mkHandledResponse r None None), w))
    (fun r _ _ _ w => (Ok r, w))
    (fun _ _ _ _ w => (w ++ ["log"])%list).

Definition services (deny failing createFails : bool)
  : RequestProcessor.Services (list string) :=
  RequestProcessor.mkServices (list string)
    (hooks deny failing) "span-1"
    (fun w => (Ok JNull, w))
    (fun _ w => (Ok "https://provider.example/v1", (w ++ ["getFullURL"])%list))
    (fun _ => true)
    (fun st => Ok st)
    (fun _ => Some "{}")
    (fun _ => Ok [])
    (fun _ _ w =>
       (Ok (RequestProcessor.mkCacheResponseObject None (Some "miss") None None),
        (w ++ ["cache"])%list))
    (fun w => (Ok None, (w ++ ["validate"])%list))
    (fun opts w =>
       (if createFails then Throw (Error_ "response service failed")
        else Ok (RequestProcessor.co_response opts, None),
        (w ++ ["create"])%list))
    (fun _ => Demo.retry)
    (fun _ => loop)
    (fun _ w => w)
    (fun _ _ w => w)
    (fun _ _ w => w)
    (fun _ _ w => w)
    (fun w => (w ++ ["log"])%list).

(** A POST request of a client that sent a JSON content type. *)
Definition postContext : RequestContext :=
  mkRequestContext "POST" "chatComplete"
    (<["content-type" := "application/json"]> ∅)
    (ParamsBody (JObj [])) (Some (ParamsBody (JObj []))) [] None.

Definition state : RequestProcessor.State :=
  RequestProcessor.mkState postContext None (JObj []).

(** The sample gateway with a draw of [Math.random] just below 1:
    [1 - 2^-52]. *)
Definition lateDrawGateway : Gateway (list string) :=
  mkGateway (list string) (fun w => (0x1.ffffffffffffep-1%float, w))
    (toString36 Demo.gateway) (JSON_parse Demo.gateway)
    (tryPost_processor Demo.gateway) None
    (ConditionalRouter_resolveTarget Demo.gateway).

(** The recursive call the strategies make under that gateway. *)
Definition lateDrawTryTarget : TryTarget (list string) :=
  fun target inherited path =>
    tryTargetsRecursively lateDrawGateway 1 target (ParamsBody (JObj [])) ∅
      "chatComplete" "POST" path inherited.

(** [{provider: "openai", inputGuardrails: [{"deny": true}, null]}]. *)
Definition nullGuardrail : Target :=
  mkTarget None None (Some "openai") None None None None None None None None
    None None None None None None None
    (Some [JObj [("deny", JBool true)]; JNull]) None None None None None.

(** Children of weights 0.1, 0.2, 0.3 and 0. *)
Definition tenths : list Target :=
  [Demo.weighted "a" 0.1%float; Demo.weighted "b" 0.2%float;
   Demo.weighted "c" 0.3%float; Demo.weighted "d" 0%float].

(** The sample gateway with a circuit-breaker hook that fails. *)
Definition brokenHookGateway : Gateway (list string) :=
  mkGateway (list string) (Math_random Demo.gateway) (toString36 Demo.gateway)
    (JSON_parse Demo.gateway) (tryPost_processor Demo.gateway)
    (Some (fun _ _ _ _ w => (Throw (Error_ "breaker store is down"), w)))
    (ConditionalRouter_resolveTarget Demo.gateway).

(** A conditional node without targets, on which the sample router
    fails. *)
Definition unroutable : Target :=
  mkTarget (Some (mkStrategy (Some "conditional") None)) (Some []) None None
    None None None None None None None None None None None None None None None
    None None None None None.

(** A proxy request that carries the gateway's own key and framing
    headers. *)
Definition proxyContext : RequestContext :=
  mkRequestContext "POST" "proxy"
    (<["x-portkey-api-key" := "pk-1"]>
       (<["content-length" := "12"]>
          (<["accept" := "text/plain"]>
             (<["content-type" := "application/json"]> ∅))))
    (ParamsBody (JObj [])) (Some (ParamsBody (JObj []))) [] None.

(** A guardrail shorthand [{"deny": true, "regexMatch": {"rule": "x",
    "is_enabled": true}, "acme.check": {}}]. *)
Definition shorthand : json :=
  JObj [("deny", JBool true);
        ("regexMatch", JObj [("rule", JStr "x"); ("is_enabled", JBool true)]);
        ("acme.check", JObj [])].

(** Request headers with a bearer token and a provider. *)
Definition bearerHeaders : gmap string string :=
  <["authorization" := "Bearer sk-1"]>
    (<["x-portkey-provider" := "openai"]> ∅).

(** A parser that rejects the text [{oops] and reads any other text as
    the sample config. *)
Definition parse (text : string) : Outcome json :=
  if String.eqb text "{oops"
  then Throw (mkError "SyntaxError" "Unexpected token o in JSON" false)
  else Ok (JObj Demo.parsedConfig).

(** Request headers with a malformed default-guardrails header. *)
Definition malformedGuardrails : gmap string string :=
  <["x-portkey-default-input-guardrails" := "{oops"]> Demo.configHeaders.

(** Request headers of a Vertex request with a malformed service
    account. *)
Definition vertexHeaders : gmap string string :=
  <["x-portkey-vertex-service-account-json" := "{oops"]>
    (<["x-portkey-provider" := "google-vertex-ai"]> ∅).

(** The sample config header together with headers it makes
    irrelevant. *)
Definition configAndBearerHeaders : gmap string string :=
  <["x-portkey-config" := "{...}"]> bearerHeaders.

(** The sample services with a cache that fails. *)
Definition cacheDown : RequestProcessor.Services (list string) :=
  RequestProcessor.withFetchPath (services false false false)
    (fun _ => Ok [])
    (fun _ _ w => (Throw (Error_ "cache is down"), (w ++ ["cache"])%list))
    (fun w => (Ok None, (w ++ ["validate"])%list))
    (fun _ => Demo.retry)
    (fun _ => loop).

(** An inherited record with values for the merge to weigh against a
    node's own. *)
Definition busyInherited : InheritedConfigData :=
  mkInherited (Some "cb-1")
    (Some (<["temperature" := JNum 0%Q]> (<["max_tokens" := JNum 5%Q]> ∅)))
    (Some (<["attempts" := JNum 1%Q]> ∅)) (Some ∅) None (Some []) (Some [])
    None (Some ["x-parent"]) None None (Some [JStr "inherited-hook"]).

(** A provider that sets [overrideParams], [retry], [forwardHeaders] and
    a before-request hook of its own, and declares an input guardrail and
    an input mutator in shorthand. *)
Definition busyNode : Target :=
  mkTarget None None (Some "openai") None None None None None None
    (Some (<["temperature" := JNum 1%Q]> ∅))
    (Some (<["attempts" := JNum 3%Q]> ∅)) None None None (Some ["x-trace"])
    None (Some [JStr "own-hook"]) None (Some [shorthand]) None
    (Some [JObj [("rewrite", JObj [])]]) None None None.

(** An upload whose body is a stream. *)
Definition streamContext : RequestContext :=
  mkRequestContext "POST" "uploadFile"
    (<["content-type" := "application/octet-stream"]> ∅)
    ReadableStreamBody None [] None.

End Sample.


(** * Properties *)

(** ** Error shaper *)

Lemma shaped_500_has_marker (msg : string) :
  carries_gateway_exception
    (mkResponse HTTP_STATUS.INTERNAL_SERVER_ERROR
       (<[REQUEST_PROCESSING.GATEWAY_EXCEPTION_HEADER := "true"]>
          (<["content-type" := REQUEST_PROCESSING.DEFAULT_CONTENT_TYPE]> ∅))
       (RequestErrorHandler.failure_body msg)).
Proof. vm_compute. reflexivity. Qed.

(** C3, as stated, fails: the 446 response of [createHooksFailureResponse]
    has a content type and no gateway-exception header. *)
Lemma hooks_failure_has_no_marker :
  ~ carries_gateway_exception
      (RequestErrorHandler.createHooksFailureResponse (JArr [])).
Proof. vm_compute. discriminate. Qed.

(** C3 (amended): the two 500 responses of the error shaper
    ([handleTryPostError], [handleTargetRecursionError]) carry
    [x-portkey-gateway-exception: "true"]; the 400 response of
    [handleRouterError] and the 446 response of
    [createHooksFailureResponse] do not carry the header at all. *)
Theorem gateway_exception_header_on_shaped_errors :
  (forall error,
     carries_gateway_exception (RequestErrorHandler.handleTryPostError error)
     /\ status (RequestErrorHandler.handleTryPostError error) = 500)
  /\ (forall error,
        carries_gateway_exception
          (RequestErrorHandler.handleTargetRecursionError error)
        /\ status (RequestErrorHandler.handleTargetRecursionError error) = 500)
  /\ (forall error,
        headers_get (RequestErrorHandler.handleRouterError error)
          REQUEST_PROCESSING.GATEWAY_EXCEPTION_HEADER = None
        /\ status (RequestErrorHandler.handleRouterError error) = 400)
  /\ (forall hookResults,
        headers_get (RequestErrorHandler.createHooksFailureResponse hookResults)
          REQUEST_PROCESSING.GATEWAY_EXCEPTION_HEADER = None
        /\ status (RequestErrorHandler.createHooksFailureResponse hookResults)
           = 446).
Proof.
  repeat split; try apply shaped_500_has_marker; vm_compute; reflexivity.
Qed.

(** ** Header post-processing *)

Section PostProcessing.

Context (rc : RequestContext).

Lemma hget_delete_content_type (h : gmap string (option string)) :
  HeaderProcessor.hget (delete "content-type" h) "content-type" = None.
Proof. unfold HeaderProcessor.hget. by rewrite lookup_delete_eq. Qed.

Lemma hget_insert_other (h : gmap string (option string)) k v :
  k <> "content-type" ->
  HeaderProcessor.hget (<[k := v]> h) "content-type"
  = HeaderProcessor.hget h "content-type".
Proof. intros Hk. unfold HeaderProcessor.hget. by rewrite lookup_insert_ne. Qed.

(** Once the content type is gone, only a GET request is processed
    again. *)
Lemma postProcess_without_content_type (h : gmap string (option string)) :
  HeaderProcessor.hget h "content-type" = None ->
  String.eqb (rc_method rc) "GET" = false ->
  HeaderProcessor.postProcessHeaders rc h = h.
Proof.
  intros Hct Hget. unfold HeaderProcessor.postProcessHeaders.
  rewrite Hct, Hget. rewrite bool_decide_eq_false_2 by discriminate.
  reflexivity.
Qed.

Lemma hget_rewritten (h : gmap string (option string)) :
  HeaderProcessor.hget (HeaderProcessor.rewritten rc h) "content-type" = None.
Proof.
  unfold HeaderProcessor.rewritten.
  repeat case_match;
    rewrite ?hget_insert_other by discriminate;
    apply hget_delete_content_type.
Qed.

Lemma rewritten_idempotent (h : gmap string (option string)) :
  HeaderProcessor.rewritten rc (HeaderProcessor.rewritten rc h) = HeaderProcessor.rewritten rc h.
Proof.
  unfold HeaderProcessor.rewritten. apply map_eq. intros k.
  repeat case_match;
    repeat (rewrite lookup_insert || rewrite lookup_delete);
    repeat case_decide; subst; try done.
Qed.

(** C8: post-processing the headers twice gives the same map as
    post-processing them once, for every header map and every request
    (method, endpoint and client headers are those of the request
    context). *)
Theorem postProcessHeaders_idempotent (h : gmap string (option string)) :
  HeaderProcessor.postProcessHeaders rc
    (HeaderProcessor.postProcessHeaders rc h)
  = HeaderProcessor.postProcessHeaders rc h.
Proof.
  destruct (String.eqb (rc_method rc) "GET") eqn:Hget.
  - (* a GET request is rewritten by both passes *)
    assert (Hpp : forall m, HeaderProcessor.postProcessHeaders rc m = HeaderProcessor.rewritten rc m).
    { intros m. unfold HeaderProcessor.postProcessHeaders. rewrite Hget.
      reflexivity. }
    rewrite !Hpp. apply rewritten_idempotent.
  - destruct (bool_decide
                (split_first ";" <$> HeaderProcessor.hget h "content-type"
                 = Some GLOBALS.MULTIPART_FORM_DATA)) eqn:Hmp.
    + (* multipart: the first pass removes the content type *)
      assert (Hpp : HeaderProcessor.postProcessHeaders rc h = HeaderProcessor.rewritten rc h).
      { unfold HeaderProcessor.postProcessHeaders. rewrite Hget, Hmp.
        reflexivity. }
      rewrite Hpp.
      apply postProcess_without_content_type; [apply hget_rewritten | done].
    + (* nothing to do, twice *)
      assert (Hpp : HeaderProcessor.postProcessHeaders rc h = h).
      { unfold HeaderProcessor.postProcessHeaders. rewrite Hget, Hmp.
        reflexivity. }
      by rewrite !Hpp.
Qed.

End PostProcessing.

(** ** Request construction *)

Section RequestConstructionFacts.

Context (JSON_stringify : option RequestBody -> option string).
Context (getHeaders : RequestContext -> Outcome (list (string * option string))).

Lemma constructRequestBody_GET_DELETE rc providerHeaders :
  rc_method rc = "GET" \/ rc_method rc = "DELETE" ->
  constructRequestBody JSON_stringify rc providerHeaders = None.
Proof.
  intros [Hm | Hm]; unfold constructRequestBody; rewrite Hm; reflexivity.
Qed.

(** C10: for a GET or DELETE request, whatever its content type and the
    body-shape decision, the constructed body is null and the fetch
    options built from the provider's headers have no body. *)
Theorem no_body_for_GET_and_DELETE rc providerMappedHeaders :
  rc_method rc = "GET" \/ rc_method rc = "DELETE" ->
  getHeaders rc = Ok providerMappedHeaders ->
  constructRequestBody JSON_stringify rc providerMappedHeaders = None
  /\ exists fetchOptions,
       constructRequest JSON_stringify getHeaders rc = Ok fetchOptions
       /\ ri_body fetchOptions = None
       /\ ri_method fetchOptions = rc_method rc.
Proof.
  intros Hm Hh. split; [by apply constructRequestBody_GET_DELETE |].
  unfold constructRequest. rewrite Hh.
  rewrite constructRequestBody_GET_DELETE by done.
  eexists. split; [reflexivity |]. split; reflexivity.
Qed.

End RequestConstructionFacts.

Lemma no_body_for_GET_and_DELETE_witness :
  constructRequestBody (fun _ => Some "{}") Demo.getContext [] = None
  /\ exists fetchOptions,
       constructRequest (fun _ => Some "{}") (fun _ => Ok []) Demo.getContext
       = Ok fetchOptions
       /\ ri_body fetchOptions = None
       /\ ri_method fetchOptions = rc_method Demo.getContext.
Proof.
  apply (no_body_for_GET_and_DELETE (fun _ => Some "{}") (fun _ => Ok [])
           Demo.getContext []).
  - left. reflexivity.
  - reflexivity.
Defined.

(** ** After-request hook loop *)

Section LoopFacts.

Context {W : Type} (svc : LoopServices W).

(** The guard of the recursive call, spelled out. *)
Lemma shouldRetryAgain_iff retry attempt skipped st made :
  shouldRetryAgain retry attempt skipped st made = true
  <-> 0 < default 0 (attempts retry) - default 0 attempt - made
      /\ skipped = false
      /\ includes_status (onStatusCodes retry) st = true.
Proof.
  unfold shouldRetryAgain, remainingRetryCount.
  rewrite !andb_true_iff, negb_true_iff, Z.ltb_lt. tauto.
Qed.

(** One round of the loop whose three calls return: the loop calls itself
    with [attempt + 1 + attemptsAlreadyMade] after logging when the guard
    holds, and returns otherwise. *)
Lemma loop_round fuel retry options made span w rr w1 hr w2 arh w3 :
  retryRequest svc options (attempts retry) (onStatusCodes retry)
    (useRetryAfterHeader retry) w = (Ok rr, w1) ->
  responseHandler svc (rr_response rr) w1 = (Ok hr, w2) ->
  afterRequestHookHandler svc (hr_response hr) (hr_responseJson hr) span made w2
  = (Ok arh, w3) ->
  recursiveAfterRequestHookHandler svc (S fuel) retry options made span w
  = if shouldRetryAgain retry (rr_attempt rr) (rr_skip rr) (status arh) made
    then recursiveAfterRequestHookHandler svc fuel retry options
           (default 0 (rr_attempt rr) + 1 + made) span
           (log svc options arh (hr_originalResponseJson hr) (rr_createdAt rr) w3)
    else Some (Ok (mkRequestProcessingResult arh
                     (finalRetryCount retry (rr_attempt rr) (rr_skip rr)
                        (status arh) made)
                     (rr_createdAt rr) (hr_originalResponseJson hr)), w3).
Proof. intros H1 H2 H3. simpl. rewrite H1, H2, H3. reflexivity. Qed.

(** X1: The count the loop returns, when the attempts made stay within the
    budget [retry.attempts]: -1 if the last status was retriable or the
    retry was skipped, the sum of the attempts otherwise. *)
Lemma finalRetryCount_within_budget retry attempt skipped st made :
  shouldRetryAgain retry attempt skipped st made = false ->
  default 0 attempt + made <= default 0 (attempts retry) ->
  finalRetryCount retry attempt skipped st made
  = if includes_status (onStatusCodes retry) st || skipped
    then -1
    else default 0 attempt + made.
Proof.
  unfold shouldRetryAgain, remainingRetryCount, finalRetryCount.
  intros Hstop Hle.
  destruct skipped, (includes_status (onStatusCodes retry) st);
    rewrite ?andb_true_r, ?andb_false_r, ?orb_true_r, ?orb_false_r in *;
    simpl in *; try reflexivity.
  apply Z.ltb_ge in Hstop.
  replace (default 0 attempt + made =? default 0 (attempts retry)) with true
    by (symmetry; apply Z.eqb_eq; lia).
  reflexivity.
Qed.

(** Past the budget, the count is the sum even though the last status is
    retriable. *)
Lemma finalRetryCount_past_budget retry attempt st made :
  default 0 (attempts retry) < default 0 attempt + made ->
  finalRetryCount retry attempt false st made = default 0 attempt + made.
Proof.
  unfold finalRetryCount. intros Hlt.
  replace (default 0 attempt + made =? default 0 (attempts retry)) with false
    by (symmetry; apply Z.eqb_neq; lia).
  reflexivity.
Qed.

(** X2: The loop returns: when no collaborator throws and the retry engine
    reports a count of attempts that is not negative, one round more than
    the budget left ([retry.attempts - attemptsAlreadyMade]) is enough. *)
Lemma loop_terminates retry options span :
  (forall w, exists rr w1,
      retryRequest svc options (attempts retry) (onStatusCodes retry)
        (useRetryAfterHeader retry) w = (Ok rr, w1)
      /\ 0 <= default 0 (rr_attempt rr)) ->
  (forall r w, exists hr w2, responseHandler svc r w = (Ok hr, w2)) ->
  (forall r j m w, exists arh w3,
      afterRequestHookHandler svc r j span m w = (Ok arh, w3)) ->
  forall fuel made w,
    Z.max 0 (default 0 (attempts retry) - made) < Z.of_nat fuel ->
    exists result w',
      recursiveAfterRequestHookHandler svc fuel retry options made span w
      = Some (Ok result, w').
Proof.
  intros Hengine Hhandler Hhooks.
  induction fuel as [| fuel IH]; intros made w Hfuel; [lia |].
  destruct (Hengine w) as (rr & w1 & H1 & Hnn).
  destruct (Hhandler (rr_response rr) w1) as (hr & w2 & H2).
  destruct (Hhooks (hr_response hr) (hr_responseJson hr) made w2)
    as (arh & w3 & H3).
  rewrite (loop_round fuel retry options made span w rr w1 hr w2 arh w3)
    by assumption.
  destruct (shouldRetryAgain retry (rr_attempt rr) (rr_skip rr) (status arh)
              made) eqn:Hgo.
  - apply IH. apply shouldRetryAgain_iff in Hgo. lia.
  - eauto.
Qed.

End LoopFacts.

(** C4, at an input the loop receives: with [retry = {attempts: 2,
    onStatusCodes: [446, 429]}], a first round whose 200 the after-request
    hooks turn into a 446 (no retry made by the engine), and a second round
    in which the engine uses its two retries and ends on a 429, the loop
    recurses once with [attemptsMade = 1] and then returns.  The last
    status (429) is retriable and the retry was not skipped, yet the
    returned [retryCount] is the sum 3, not -1. *)
Theorem retry_count_past_budget_is_not_sentinel :
  shouldRetryAgain Demo.retry None false 446 0 = true
  /\ nextAttemptsMade None 0 = 1
  /\ shouldRetryAgain Demo.retry (Some 2) false 429 1 = false
  /\ includes_status (onStatusCodes Demo.retry) 429 = true
  /\ recursiveAfterRequestHookHandler Demo.loopServices 2 Demo.retry
       Demo.fetchOptions 0 "span" 0%nat
     = Some (Ok (mkRequestProcessingResult (Demo.response 429) 3 0 None),
             2%nat).
Proof. repeat split; vm_compute; reflexivity. Qed.

(** ** Config builder *)

Lemma obj_get_set props k v k' :
  obj_get (obj_set props k v) k'
  = if String.eqb k k' then Some v else obj_get props k'.
Proof.
  induction props as [| [k0 v0] rest IH]; simpl.
  - reflexivity.
  - destruct (String.eqb_spec k0 k) as [-> | Hne]; simpl.
    + destruct (String.eqb_spec k k'); reflexivity.
    + rewrite IH. destruct (String.eqb_spec k0 k') as [-> | Hne'].
      * destruct (String.eqb_spec k k'); [congruence | reflexivity].
      * reflexivity.
Qed.







Section BuilderFacts.

Context (JSON_parse : string -> Outcome json).


End BuilderFacts.


(** ** Merge of the inherited configuration *)

Lemma tbind_Ok_inv {W A B} (m : T W A) (k : A -> T W B) w b w' :
  tbind m k w = (Ok b, w') ->
  exists a w1, m w = (Ok a, w1) /\ k a w1 = (Ok b, w').
Proof.
  unfold tbind. destruct (m w) as [[a | e] w1]; [eauto | discriminate].
Qed.

Lemma tbind_Throw_inv {W A B} (m : T W A) (k : A -> T W B) w e w' :
  tbind m k w = (Throw e, w') ->
  m w = (Throw e, w')
  \/ exists a w1, m w = (Ok a, w1) /\ k a w1 = (Throw e, w').
Proof.
  unfold tbind. destruct (m w) as [[a | e0] w1].
  - intros Hk. right. by exists a, w1.
  - intros [= <- <-]. by left.
Qed.

Lemma hasOwnProperty_error_name hook e :
  hasOwnProperty_error hook = Some e -> err_name e = "TypeError".
Proof.
  destruct hook as [| | | | | | props]; simpl; try discriminate;
    try (intros [= <-]; reflexivity).
  destruct (includes_key (obj_keys props) "hasOwnProperty");
    [intros [= <-]; reflexivity | discriminate].
Qed.

Section MergeFacts.

Context {W : Type} (G : Gateway W).

(** One hook: the expansion throws exactly the error of the call of
    [hasOwnProperty], after the random id was drawn. *)
Lemma convertHookShorthand_cases type hookType hook w :
  match hasOwnProperty_error hook with
  | Some e =>
      convertHookShorthand G type hookType hook w
      = (Throw e, (Math_random G w).2)
  | None =>
      exists h hook',
        convertHookShorthand G type hookType hook w
        = (Ok (h, hook'), (Math_random G w).2)
  end.
Proof.
  unfold convertHookShorthand. destruct (Math_random G w) as [r w1]. simpl.
  destruct (hasOwnProperty_error hook); [reflexivity |].
  destruct hook as [| | | | | | props]; try (eexists _, _; reflexivity).
  destruct (extractKnownProperties _ props). eexists _, _. reflexivity.
Qed.

Lemma convertHooksShorthand_error hooksArr type hookType w e w' :
  convertHooksShorthand G hooksArr type hookType w = (Throw e, w') ->
  err_name e = "TypeError".
Proof.
  revert w w'. induction hooksArr as [| hook rest IH]; intros w w'; simpl.
  - discriminate.
  - intros Hc. apply tbind_Throw_inv in Hc as [Hc | ([h hook'] & w1 & _ & Hc)].
    + pose proof (convertHookShorthand_cases type hookType hook w) as Hcase.
      destruct (hasOwnProperty_error hook) as [e0 |] eqn:He.
      * rewrite Hcase in Hc. injection Hc as <- _.
        by eapply hasOwnProperty_error_name.
      * destruct Hcase as (h & hook' & Hcase). congruence.
    + apply tbind_Throw_inv in Hc as [Hc | ([hs rest'] & w2 & _ & Hc)];
        [by eapply IH | discriminate].
Qed.

Lemma convertHooksShorthand_ok hooksArr type hookType w :
  expandable (Some hooksArr) = true ->
  exists hs arr' w',
    convertHooksShorthand G hooksArr type hookType w = (Ok (hs, arr'), w').
Proof.
  unfold expandable. simpl.
  revert w. induction hooksArr as [| hook rest IH]; intros w; simpl.
  - eexists _, _, _. reflexivity.
  - intros Hall. apply andb_true_iff in Hall as [Hhook Hrest].
    pose proof (convertHookShorthand_cases type hookType hook w) as Hcase.
    destruct (hasOwnProperty_error hook); [discriminate |].
    destruct Hcase as (h & hook' & Hcase).
    destruct (IH (Math_random G w).2 Hrest) as (hs & arr' & w' & Hr).
    unfold tbind. rewrite Hcase, Hr. eexists _, _, _. reflexivity.
Qed.

Lemma convertHooksShorthand_length hooksArr type hookType w hs arr' w' :
  convertHooksShorthand G hooksArr type hookType w = (Ok (hs, arr'), w') ->
  length hs = length hooksArr.
Proof.
  revert w hs arr' w'. induction hooksArr as [| hook rest IH];
    intros w hs arr' w'; simpl.
  - intros [= <- _ _]. reflexivity.
  - intros Hc. apply tbind_Ok_inv in Hc as ([h hook'] & w1 & _ & Hc).
    apply tbind_Ok_inv in Hc as ([hs0 rest'] & w2 & Hrest & Hc).
    injection Hc as <- _ _. simpl. f_equal. by eapply IH.
Qed.

(** What one of the four shorthand blocks leaves in the hook list: the
    expansion of the shorthand behind the hooks, when there is one. *)
Lemma appendShorthand_inv hooks short type hookType w hooks' short' w' :
  appendShorthand G hooks short type hookType w = (Ok (hooks', short'), w') ->
  exists converted left,
    convertHooksShorthand G (default [] short) type hookType w
    = (Ok (converted, left), w')
    /\ hooks'
       = (if is_present short
          then Some (default [] hooks ++ converted)%list
          else hooks).
Proof.
  unfold appendShorthand. destruct short as [arr |]; simpl.
  - intros Hc. apply tbind_Ok_inv in Hc as ([converted arr'] & w1 & Hconv & Hc).
    injection Hc as <- _ <-. eauto.
  - intros [= <- _ <-]. eexists _, _. split; reflexivity.
Qed.

Lemma appendShorthand_error hooks short type hookType w e w' :
  appendShorthand G hooks short type hookType w = (Throw e, w') ->
  err_name e = "TypeError".
Proof.
  unfold appendShorthand. destruct short as [arr |]; [| discriminate].
  intros Hc. apply tbind_Throw_inv in Hc as [Hc | ([c a] & w1 & _ & Hc)];
    [by eapply convertHooksShorthand_error | discriminate].
Qed.

Lemma appendShorthand_ok hooks short type hookType w :
  expandable short = true ->
  exists r w', appendShorthand G hooks short type hookType w = (Ok r, w').
Proof.
  unfold appendShorthand. destruct short as [arr |]; intros Hok.
  - destruct (convertHooksShorthand_ok arr type hookType w Hok)
      as (hs & arr' & w' & Hc).
    unfold tbind. rewrite Hc. eexists _, _. reflexivity.
  - eexists _, _. reflexivity.
Qed.

(** The hook lists of a node after its shorthand was appended: the four
    lists are expanded one after the other (input guardrails, output
    guardrails, input mutators, output mutators); a side that declares no
    shorthand keeps the node's own list, and otherwise holds the node's
    own hooks followed by the expanded guardrails and then the expanded
    mutators. *)
Lemma normalizeShorthand_inv t w nh w' :
  normalizeShorthand G t w = (Ok nh, w') ->
  exists ig l1 w1 og l2 w2 im l3 w3 om l4,
    convertHooksShorthand G (default [] (t_inputGuardrails t)) "input"
      HookType.GUARDRAIL w = (Ok (ig, l1), w1)
    /\ convertHooksShorthand G (default [] (t_outputGuardrails t)) "output"
         HookType.GUARDRAIL w1 = (Ok (og, l2), w2)
    /\ convertHooksShorthand G (default [] (t_inputMutators t)) "input"
         HookType.MUTATOR w2 = (Ok (im, l3), w3)
    /\ convertHooksShorthand G (default [] (t_outputMutators t)) "output"
         HookType.MUTATOR w3 = (Ok (om, l4), w')
    /\ nh_beforeRequestHooks nh
       = (if is_present (t_inputGuardrails t) || is_present (t_inputMutators t)
          then Some (default [] (t_beforeRequestHooks t) ++ ig ++ im)%list
          else t_beforeRequestHooks t)
    /\ nh_afterRequestHooks nh
       = (if is_present (t_outputGuardrails t)
             || is_present (t_outputMutators t)
          then Some (default [] (t_afterRequestHooks t) ++ og ++ om)%list
          else t_afterRequestHooks t).
Proof.
  unfold normalizeShorthand. intros Hn.
  apply tbind_Ok_inv in Hn as ([before1 s1] & w1 & H1 & Hn).
  apply tbind_Ok_inv in Hn as ([after1 s2] & w2 & H2 & Hn).
  apply tbind_Ok_inv in Hn as ([before2 s3] & w3 & H3 & Hn).
  apply tbind_Ok_inv in Hn as ([after2 s4] & w4 & H4 & Hn).
  injection Hn as <- <-. simpl.
  apply appendShorthand_inv in H1 as (ig & l1 & Hig & ->).
  apply appendShorthand_inv in H2 as (og & l2 & Hog & ->).
  apply appendShorthand_inv in H3 as (im & l3 & Him & ->).
  apply appendShorthand_inv in H4 as (om & l4 & Hom & ->).
  exists ig, l1, w1, og, l2, w2, im, l3, w3, om, l4.
  repeat split; try assumption.
  - destruct (t_inputGuardrails t) as [gs |], (t_inputMutators t) as [ms |];
      simpl in *.
    + by rewrite <- app_assoc.
    + injection Him as <- _ _. by rewrite app_nil_r.
    + injection Hig as <- _ _. reflexivity.
    + reflexivity.
  - destruct (t_outputGuardrails t) as [gs |], (t_outputMutators t) as [ms |];
      simpl in *.
    + by rewrite <- app_assoc.
    + injection Hom as <- _ _. by rewrite app_nil_r.
    + injection Hog as <- _ _. reflexivity.
    + reflexivity.
Qed.

Lemma normalizeShorthand_error t w e w' :
  normalizeShorthand G t w = (Throw e, w') -> err_name e = "TypeError".
Proof.
  unfold normalizeShorthand. intros Hn.
  apply tbind_Throw_inv in Hn as [Hn | ([b1 s1] & w1 & _ & Hn)];
    [by eapply appendShorthand_error |].
  apply tbind_Throw_inv in Hn as [Hn | ([a1 s2] & w2 & _ & Hn)];
    [by eapply appendShorthand_error |].
  apply tbind_Throw_inv in Hn as [Hn | ([b2 s3] & w3 & _ & Hn)];
    [by eapply appendShorthand_error |].
  apply tbind_Throw_inv in Hn as [Hn | ([a2 s4] & w4 & _ & Hn)];
    [by eapply appendShorthand_error | discriminate].
Qed.

Lemma normalizeShorthand_ok t w :
  expandable (t_inputGuardrails t) = true ->
  expandable (t_outputGuardrails t) = true ->
  expandable (t_inputMutators t) = true ->
  expandable (t_outputMutators t) = true ->
  exists nh w', normalizeShorthand G t w = (Ok nh, w').
Proof.
  intros H1 H2 H3 H4. unfold normalizeShorthand, tbind.
  destruct (appendShorthand_ok (t_beforeRequestHooks t) _ "input"
              HookType.GUARDRAIL w H1) as ([b1 s1] & w1 & ->).
  destruct (appendShorthand_ok (t_afterRequestHooks t) _ "output"
              HookType.GUARDRAIL w1 H2) as ([a1 s2] & w2 & ->).
  destruct (appendShorthand_ok b1 _ "input" HookType.MUTATOR w2 H3)
    as ([b2 s3] & w3 & ->).
  destruct (appendShorthand_ok a1 _ "output" HookType.MUTATOR w3 H4)
    as ([a2 s4] & w4 & ->).
  eexists _, _. reflexivity.
Qed.

Lemma expandDefaultGuardrails_error inh t w e w' :
  expandDefaultGuardrails G inh t w = (Throw e, w') ->
  err_name e = "TypeError".
Proof.
  unfold expandDefaultGuardrails. destruct (hasNoKeys inh); [| discriminate].
  intros Hn.
  apply tbind_Throw_inv in Hn as [Hn | ([di s1] & w1 & _ & Hn)];
    [by eapply appendShorthand_error |].
  apply tbind_Throw_inv in Hn as [Hn | ([do s2] & w2 & _ & Hn)];
    [by eapply appendShorthand_error | discriminate].
Qed.

(** The fields of the record passed down and of the node, when the merge
    completes. *)
Lemma merge_inv inh t w ci cur w' :
  mergeInheritedConfig G inh t w = (Ok (ci, cur), w') ->
  exists w1 nh,
    ic_id ci = or_string (ic_id inh) (t_id t)
    /\ ic_overrideParams ci
       = Some (default ∅ (t_overrideParams t) ∪ default ∅ (ic_overrideParams inh))
    /\ ic_retry ci
       = Some (match t_retry t with
               | Some r => r
               | None => default ∅ (ic_retry inh)
               end)
    /\ ic_cache ci
       = Some (match t_cache t with
               | Some c => c
               | None => default ∅ (ic_cache inh)
               end)
    /\ ic_forwardHeaders ci
       = prefer (t_forwardHeaders t) (ic_forwardHeaders inh)
    /\ ic_beforeRequestHooks ci
       = prefer (nh_beforeRequestHooks nh) (ic_beforeRequestHooks inh)
    /\ ic_afterRequestHooks ci
       = prefer (nh_afterRequestHooks nh) (ic_afterRequestHooks inh)
    /\ t_targets cur = t_targets t
    /\ t_strategy cur = t_strategy t
    /\ normalizeShorthand G t w1 = (Ok nh, w').
Proof.
  unfold mergeInheritedConfig. intros Hm.
  apply tbind_Ok_inv in Hm as ([di do] & w1 & _ & Hm).
  apply tbind_Ok_inv in Hm as (nh & w2 & Hnh & Hm).
  destruct di, do; simpl in Hm; try discriminate.
  injection Hm as <- <- <-. exists w1, nh. simpl.
  repeat split; try reflexivity. exact Hnh.
Qed.

(** The merge completes when the default guardrails of the record passed
    down are defined and every shorthand list of the node can be read. *)
Lemma merge_completes inh t w :
  defaultGuardrailsDefined inh t = true ->
  shorthandExpandable inh t = true ->
  exists ci cur w', mergeInheritedConfig G inh t w = (Ok (ci, cur), w').
Proof.
  unfold defaultGuardrailsDefined, shorthandExpandable.
  intros Hdefined Hexp.
  repeat (apply andb_true_iff in Hexp as [Hexp ?]).
  assert (Hdef : exists di do w1,
             expandDefaultGuardrails G inh t w = (Ok (Some di, Some do), w1)).
  { unfold expandDefaultGuardrails. destruct (hasNoKeys inh).
    - apply andb_true_iff in Hexp as [Hi Ho].
      destruct (t_defaultInputGuardrails t) as [di |]; [| done].
      destruct (t_defaultOutputGuardrails t) as [do |]; [| done].
      destruct (appendShorthand_ok None (Some di) "input" HookType.GUARDRAIL
                  w Hi) as ([r1 s1] & w1 & Ha1).
      destruct (appendShorthand_inv _ _ _ _ _ _ _ _ Ha1) as (c1 & l1 & _ & ->).
      destruct (appendShorthand_ok None (Some do) "output" HookType.GUARDRAIL
                  w1 Ho) as ([r2 s2] & w2 & Ha2).
      destruct (appendShorthand_inv _ _ _ _ _ _ _ _ Ha2) as (c2 & l2 & _ & ->).
      unfold tbind. rewrite Ha1. cbv beta iota. rewrite Ha2.
      eexists _, _, _. reflexivity.
    - destruct (ic_defaultInputGuardrails inh) as [di |]; [| done].
      destruct (ic_defaultOutputGuardrails inh) as [do |]; [| done].
      eexists _, _, _. reflexivity. }
  destruct Hdef as (di & do & w1 & Hdef).
  destruct (normalizeShorthand_ok t w1) as (nh & w2 & Hnh); try assumption.
  unfold mergeInheritedConfig, tbind. rewrite Hdef, Hnh. simpl.
  eexists _, _, _. reflexivity.
Qed.

(** Without an inherited record and without default input guardrails on
    the node, the merge throws a TypeError: that of the spread at its
    end, unless a shorthand list of the node cannot be read, which throws
    before. *)
Lemma merge_throws inh t w :
  hasNoKeys inh = true ->
  t_defaultInputGuardrails t = None ->
  exists e w',
    mergeInheritedConfig G inh t w = (Throw e, w')
    /\ err_name e = "TypeError"
    /\ (shorthandExpandable inh t = true ->
        e = TypeError_
              "currentInheritedConfig.defaultInputGuardrails is not iterable").
Proof.
  intros Hempty Hnone.
  assert (Hic : ic_defaultInputGuardrails inh = None).
  { unfold hasNoKeys in Hempty. apply negb_true_iff in Hempty.
    destruct (ic_defaultInputGuardrails inh); [| done].
    simpl in Hempty. by rewrite !orb_true_r in Hempty. }
  unfold mergeInheritedConfig, tbind.
  destruct (expandDefaultGuardrails G inh t w) as [[[di do] | e] w1] eqn:Hdef.
  - assert (Hdi : di = None).
    { revert Hdef. unfold expandDefaultGuardrails.
      rewrite Hempty, Hnone, Hic. unfold tbind. simpl.
      destruct (appendShorthand G None (t_defaultOutputGuardrails t) "output"
                  HookType.GUARDRAIL w) as [[[do' s] | e] w2];
        simpl; [| discriminate].
      by intros [= <- _ _]. }
    subst di.
    destruct (normalizeShorthand G t w1) as [[nh | e] w2] eqn:Hnh.
    + simpl. eexists _, _. split; [reflexivity |].
      split; [reflexivity | reflexivity].
    + eexists _, _. split; [reflexivity |].
      split; [by eapply normalizeShorthand_error |].
      unfold shorthandExpandable. intros Hexp.
      repeat (apply andb_true_iff in Hexp as [Hexp ?]).
      destruct (normalizeShorthand_ok t w1) as (nh & w3 & Hok);
        try assumption.
      congruence.
  - eexists _, _. split; [reflexivity |].
    split; [by eapply expandDefaultGuardrails_error |].
    unfold shorthandExpandable. rewrite Hempty. intros Hexp.
    repeat (apply andb_true_iff in Hexp as [Hexp ?]).
    revert Hdef. unfold expandDefaultGuardrails.
    rewrite Hempty, Hnone. unfold tbind. simpl.
    destruct (appendShorthand_ok None (t_defaultOutputGuardrails t) "output"
                HookType.GUARDRAIL w ltac:(assumption)) as ([do s] & w2 & ->).
    discriminate.
Qed.

End MergeFacts.

(** ** The resolver past the merge *)

Section ResolverSteps.

Context {W : Type} (G : Gateway W).
Context (request : RequestBody) (requestHeaders : gmap string string).
Context (fn method : string).

(** The merge comes first, and what it throws leaves the resolver. *)
Lemma resolver_merge_throws fuel t jsonPath inh w e w1 :
  mergeInheritedConfig G inh t w = (Throw e, w1) ->
  tryTargetsRecursively G (S fuel) t request requestHeaders fn method jsonPath
    inh w
  = Some (Throw e, w1).
Proof. intros Hm. simpl. unfold bind, call. rewrite Hm. reflexivity. Qed.

(** The resolver past the merge, for a node whose strategy is
    dispatched. *)
Lemma resolver_strategy_branch fuel t jsonPath inh w ci cur w1 mode targets :
  mergeInheritedConfig G inh t w = (Ok (ci, cur), w1) ->
  t_strategy t ≫= strategy_mode = Some mode ->
  truthy_string (Some mode) = true ->
  t_targets (filterOpenTargets ci cur) = Some targets ->
  tryTargetsRecursively G (S fuel) t request requestHeaders fn method jsonPath
    inh w
  = try_catch
      (match StrategyFactory.create G mode with
       | Throw e => throw e
       | Ok execute =>
           execute
             (fun target inherited targetJsonPath =>
                tryTargetsRecursively G fuel target request requestHeaders fn
                  method targetJsonPath inherited)
             (mkStrategyContext request requestHeaders fn method jsonPath)
             targets ci jsonPath
       end)
      (fun error =>
         if isRouterError error then throw error
         else ret (RequestErrorHandler.handleTargetRecursionError error))
      w1.
Proof.
  intros Hm Hmode Htruthy Hts. simpl. unfold bind at 1, call.
  rewrite Hm. simpl. rewrite Hmode, Htruthy, Hts. reflexivity.
Qed.

(** The resolver past the merge, for a node that is called as a
    provider. *)
Lemma resolver_leaf_branch fuel t jsonPath inh w ci cur w1 :
  mergeInheritedConfig G inh t w = (Ok (ci, cur), w1) ->
  truthy_string (t_strategy t ≫= strategy_mode)
  && is_present (t_targets (filterOpenTargets ci cur)) = false ->
  tryTargetsRecursively G (S fuel) t request requestHeaders fn method jsonPath
    inh w
  = try_catch
      (let* response :=
         tryPost G (filterOpenTargets ci cur) request requestHeaders fn
           jsonPath method in
       if truthy_string (ic_id ci) then
         match handleCircuitBreakerResponse G with
         | Some hook =>
             let* _ :=
               call (hook response (ic_id ci)
                       (t_cbConfig (filterOpenTargets ci cur)) jsonPath) in
             ret response
         | None => ret response
         end
       else ret response)
      (fun error =>
         ret (RequestErrorHandler.handleTargetRecursionError error))
      w1.
Proof.
  intros Hm Hleaf. simpl. unfold bind at 1, call.
  rewrite Hm. simpl. rewrite Hleaf. reflexivity.
Qed.

End ResolverSteps.

(** The healthy children come in the order of the node's children: their
    stamped positions increase. *)
Lemma healthy_sorted_from (l : list Target) (k : nat) :
  StronglySorted
    (fun a b =>
       exists i j, t_originalIndex a = Some i /\ t_originalIndex b = Some j
                   /\ (i < j)%nat)
    (List.filter isHealthy
       (imap (fun i t => set_originalIndex t (Some (k + i)%nat)) l)).
Proof.
  revert k. induction l as [| x l IH]; intros k; simpl.
  - constructor.
  - assert (Hrest :
              imap ((fun i t => set_originalIndex t (Some (k + i)%nat)) ∘ S) l
              = imap (fun i t => set_originalIndex t (Some (S k + i)%nat)) l).
    { apply imap_ext. intros i t _. simpl. do 2 f_equal. lia. }
    rewrite Hrest.
    destruct (isHealthy (set_originalIndex x (Some (k + 0)%nat)));
      [| apply IH].
    constructor; [apply IH |].
    apply List.Forall_forall. intros y Hy.
    apply filter_In in Hy as [Hy _].
    apply list_elem_of_In, elem_of_lookup_imap in Hy as (i & c & -> & _).
    exists (k + 0)%nat, (S k + i)%nat. simpl. repeat split. lia.
Qed.

Section InheritanceFacts.

Context {W : Type} (G : Gateway W).
Context (request : RequestBody) (requestHeaders : gmap string string).
Context (fn method : string).

(** C6 (amended): when the merge completes, the record passed down
    prefers the current node.  [overrideParams] is the union of the
    inherited map and the node's map, the node's keys winning; [retry] and
    [cache] are the node's own record when it sets one and the inherited
    record otherwise, never a mix of the two; [forwardHeaders] is the
    node's list when it has one and the inherited list otherwise.
    [beforeRequestHooks] ([afterRequestHooks]) follow the same rule for a
    node without [inputGuardrails] and [inputMutators] ([outputGuardrails]
    and [outputMutators]); for a node that declares such shorthand the
    list is the node's own hooks followed by what [convertHooksShorthand]
    makes of its guardrails and then of its mutators (the four lists are
    expanded in the order input guardrails, output guardrails, input
    mutators, output mutators), and the inherited list is dropped. *)
Theorem merge_prefers_current_node inh t w ci cur w' :
  mergeInheritedConfig G inh t w = (Ok (ci, cur), w') ->
  (exists merged,
     ic_overrideParams ci = Some merged
     /\ forall k,
          merged !! k
          = match default ∅ (t_overrideParams t) !! k with
            | Some v => Some v
            | None => default ∅ (ic_overrideParams inh) !! k
            end)
  /\ ic_retry ci
     = Some (match t_retry t with
             | Some r => r
             | None => default ∅ (ic_retry inh)
             end)
  /\ ic_cache ci
     = Some (match t_cache t with
             | Some c => c
             | None => default ∅ (ic_cache inh)
             end)
  /\ ic_forwardHeaders ci
     = match t_forwardHeaders t with
       | Some l => Some l
       | None => ic_forwardHeaders inh
       end
  /\ exists w1 g l1 w2 g' l2 w3 m l3 w4 m' l4,
       convertHooksShorthand G (default [] (t_inputGuardrails t)) "input"
         HookType.GUARDRAIL w1 = (Ok (g, l1), w2)
       /\ convertHooksShorthand G (default [] (t_outputGuardrails t)) "output"
            HookType.GUARDRAIL w2 = (Ok (g', l2), w3)
       /\ convertHooksShorthand G (default [] (t_inputMutators t)) "input"
            HookType.MUTATOR w3 = (Ok (m, l3), w4)
       /\ convertHooksShorthand G (default [] (t_outputMutators t)) "output"
            HookType.MUTATOR w4 = (Ok (m', l4), w')
       /\ ic_beforeRequestHooks ci
          = (if is_present (t_inputGuardrails t)
                || is_present (t_inputMutators t)
             then Some (default [] (t_beforeRequestHooks t) ++ g ++ m)%list
             else match t_beforeRequestHooks t with
                  | Some l => Some l
                  | None => ic_beforeRequestHooks inh
                  end)
       /\ length g = length (default [] (t_inputGuardrails t))
       /\ length m = length (default [] (t_inputMutators t))
       /\ ic_afterRequestHooks ci
          = (if is_present (t_outputGuardrails t)
                || is_present (t_outputMutators t)
             then Some (default [] (t_afterRequestHooks t) ++ g' ++ m')%list
             else match t_afterRequestHooks t with
                  | Some l => Some l
                  | None => ic_afterRequestHooks inh
                  end)
       /\ length g' = length (default [] (t_outputGuardrails t))
       /\ length m' = length (default [] (t_outputMutators t)).
Proof.
  intros Hmerge.
  destruct (merge_inv G inh t w ci cur w' Hmerge)
    as (w1 & nh & _ & Hop & Hretry & Hcache & Hfh & Hbefore & Hafter & _ & _
        & Hnh).
  destruct (normalizeShorthand_inv G t w1 nh w' Hnh)
    as (g & l1 & w2 & g' & l2 & w3 & m & l3 & w4 & m' & l4
        & Hg & Hg' & Hm & Hm' & Hb & Ha).
  split; [| split; [exact Hretry | split; [exact Hcache | split]]].
  - eexists. split; [exact Hop |]. intros k.
    rewrite lookup_union.
    destruct (default ∅ (t_overrideParams t) !! k),
      (default ∅ (ic_overrideParams inh) !! k); reflexivity.
  - exact Hfh.
  - exists w1, g, l1, w2, g', l2, w3, m, l3, w4, m', l4.
    split; [exact Hg |]. split; [exact Hg' |]. split; [exact Hm |].
    split; [exact Hm' |].
    split; [| split; [by eapply convertHooksShorthand_length |
                      split; [by eapply convertHooksShorthand_length |
                              split; [| split;
                                        by eapply convertHooksShorthand_length]]]].
    + rewrite Hbefore, Hb.
      destruct (is_present (t_inputGuardrails t)
                || is_present (t_inputMutators t)); reflexivity.
    + rewrite Hafter, Ha.
      destruct (is_present (t_outputGuardrails t)
                || is_present (t_outputMutators t)); reflexivity.
Qed.

(** C7: at a node with children, reached with an inherited
    circuit-breaker id, the resolver hands to the strategy (and, for a
    node without a strategy mode, to the request processor) the healthy
    children, when there is one, and the children as they were when every
    child is open.  The healthy children are those whose [isOpen] is not
    true, each stamped with its position as [originalIndex], in the order
    of the children. *)
Theorem circuit_breaker_keeps_healthy_children
    fuel inh t jsonPath w ci cur w' children :
  mergeInheritedConfig G inh t w = (Ok (ci, cur), w') ->
  truthy_string (ic_id inh) = true ->
  t_targets t = Some children ->
  let kept := healthyTargets t in
  let handed := if existsb isHealthy children then kept else children in
  (forall mode,
     t_strategy t ≫= strategy_mode = Some mode ->
     truthy_string (Some mode) = true ->
     tryTargetsRecursively G (S fuel) t request requestHeaders fn method
       jsonPath inh w
     = try_catch
         (match StrategyFactory.create G mode with
          | Throw e => throw e
          | Ok execute =>
              execute
                (fun target inherited targetJsonPath =>
                   tryTargetsRecursively G fuel target request requestHeaders
                     fn method targetJsonPath inherited)
                (mkStrategyContext request requestHeaders fn method jsonPath)
                handed ci jsonPath
          end)
         (fun error =>
            if isRouterError error then throw error
            else ret (RequestErrorHandler.handleTargetRecursionError error))
         w')
  /\ (truthy_string (t_strategy t ≫= strategy_mode) = false ->
      let node :=
        if existsb isHealthy children then set_targets cur (Some kept)
        else cur in
      tryTargetsRecursively G (S fuel) t request requestHeaders fn method
        jsonPath inh w
      = try_catch
          (let* response :=
             tryPost G node request requestHeaders fn jsonPath method in
           match handleCircuitBreakerResponse G with
           | Some hook =>
               let* _ :=
                 call (hook response (ic_id ci) (t_cbConfig node) jsonPath) in
               ret response
           | None => ret response
           end)
          (fun error =>
             ret (RequestErrorHandler.handleTargetRecursionError error))
          w')
  /\ t_targets (filterOpenTargets ci cur) = Some handed
  /\ (forall c', In c' kept
                 <-> exists i c,
                       children !! i = Some c
                       /\ t_isOpen c <> Some true
                       /\ c' = set_originalIndex c (Some i))
  /\ StronglySorted
       (fun a b =>
          exists i j, t_originalIndex a = Some i /\ t_originalIndex b = Some j
                      /\ (i < j)%nat)
       kept
  /\ ((exists c, In c children /\ t_isOpen c <> Some true) -> handed = kept)
  /\ ((forall c, In c children -> t_isOpen c = Some true) ->
      handed = children).
Proof.
  intros Hmerge Hid Hts kept handed.
  destruct (merge_inv G inh t w ci cur w' Hmerge)
    as (w1 & nh & Hci & _ & _ & _ & _ & _ & _ & Htargets & _).
  assert (Hhealthy : forall c, isHealthy c = true <-> t_isOpen c <> Some true).
  { intros c. unfold isHealthy. destruct (t_isOpen c) as [[] |]; simpl;
      split; intros; congruence. }
  assert (Hkept : forall c', In c' kept
                             <-> exists i c,
                                   children !! i = Some c
                                   /\ t_isOpen c <> Some true
                                   /\ c' = set_originalIndex c (Some i)).
  { intros c'. unfold kept, healthyTargets. rewrite Hts. simpl.
    rewrite filter_In.
    rewrite <- list_elem_of_In, elem_of_lookup_imap, Hhealthy.
    split.
    - intros [(i & c & -> & Hi) Hopen]. exists i, c. auto.
    - intros (i & c & Hi & Hopen & ->). split; [eauto | exact Hopen]. }
  assert (Hsome : existsb isHealthy children = true
                  <-> exists c, In c children /\ t_isOpen c <> Some true).
  { rewrite existsb_exists. split; intros (c & Hin & Hc); exists c;
      (split; [exact Hin | by apply Hhealthy]). }
  assert (Hlen : negb (length (healthyTargets cur) =? 0)%nat
                 = existsb isHealthy children).
  { assert (Hsame : healthyTargets cur = kept).
    { unfold kept, healthyTargets. by rewrite Htargets. }
    rewrite Hsame.
    destruct (existsb isHealthy children) eqn:He.
    - destruct (proj1 Hsome eq_refl) as (c & Hin & Hopen).
      apply list_elem_of_In, list_elem_of_lookup in Hin as [i Hi].
      assert (Hk : In (set_originalIndex c (Some i)) kept)
        by (apply Hkept; eauto).
      destruct kept; [destruct Hk | reflexivity].
    - destruct kept as [| c' rest] eqn:Hk; [reflexivity |].
      assert (Hin : In c' (c' :: rest)) by (by left).
      apply Hkept in Hin as (i & c & Hi & Hopen & _).
      assert (Hex : false = true).
      { apply Hsome. exists c. split; [| exact Hopen].
        apply list_elem_of_In, list_elem_of_lookup. eauto. }
      discriminate. }
  assert (Htruthy : truthy_string (ic_id ci) = true).
  { rewrite Hci. unfold or_string. by rewrite Hid. }
  assert (Hfiltered :
            filterOpenTargets ci cur
            = if existsb isHealthy children then set_targets cur (Some kept)
              else cur).
  { unfold filterOpenTargets. rewrite Htruthy, Hlen.
    destruct (existsb isHealthy children); [| reflexivity].
    unfold kept, healthyTargets. by rewrite Htargets. }
  assert (Hhanded : t_targets (filterOpenTargets ci cur) = Some handed).
  { rewrite Hfiltered. unfold handed.
    destruct (existsb isHealthy children); [reflexivity |].
    by rewrite Htargets. }
  split; [| split; [| split; [exact Hhanded | split; [exact Hkept | split;
                                                     [| split]]]]].
  - intros mode Hmode Hmt.
    by apply resolver_strategy_branch with (cur := cur).
  - intros Hleaf node.
    rewrite (resolver_leaf_branch G request requestHeaders fn method fuel t
               jsonPath inh w ci cur w' Hmerge)
      by (rewrite Hleaf; reflexivity).
    rewrite Htruthy, Hfiltered. reflexivity.
  - unfold kept, healthyTargets. rewrite Hts. simpl.
    apply (healthy_sorted_from children 0).
  - intros Hex. unfold handed. apply Hsome in Hex. by rewrite Hex.
  - intros Hall. unfold handed.
    destruct (existsb isHealthy children) eqn:He; [| reflexivity].
    destruct (proj1 Hsome eq_refl) as (c & Hin & Hopen).
    exfalso. by apply Hopen, Hall.
Qed.

End InheritanceFacts.

(** C6, as stated, fails for the hook lists: a node that declares no
    [beforeRequestHooks] but an [inputGuardrails] shorthand does not
    inherit the before-request hooks of its parent; the record passed down
    holds the expanded shorthand instead. *)
Lemma inherited_hooks_dropped_for_shorthand_node :
  t_beforeRequestHooks Demo.shorthandOnly = None
  /\ ic_beforeRequestHooks Demo.inheritedWithHook
     = Some [JStr "inherited-hook"]
  /\ exists ci cur w',
       mergeInheritedConfig Demo.gateway Demo.inheritedWithHook
         Demo.shorthandOnly [] = (Ok (ci, cur), w')
       /\ ic_beforeRequestHooks ci
          = Some [JObj [("type", JStr "guardrail");
                        ("id", JStr "input_guardrail_k9x2m");
                        ("checks", JArr [])]]
       /\ ic_beforeRequestHooks ci
          <> ic_beforeRequestHooks Demo.inheritedWithHook.
Proof.
  split; [reflexivity |]. split; [reflexivity |].
  eexists _, _, _. split; [vm_compute; reflexivity |].
  split; [reflexivity | discriminate].
Qed.

Lemma merge_prefers_current_node_witness :
  exists ci cur w',
    mergeInheritedConfig Demo.gateway Sample.busyInherited Sample.busyNode []
    = (Ok (ci, cur), w')
    /\ (exists merged,
          ic_overrideParams ci = Some merged
          /\ merged !! "temperature" = Some (JNum 1%Q)
          /\ merged !! "max_tokens" = Some (JNum 5%Q))
    /\ ic_retry ci = Some (<["attempts" := JNum 3%Q]> ∅)
    /\ ic_forwardHeaders ci = Some ["x-trace"]
    /\ ic_beforeRequestHooks ci
       = Some [JStr "own-hook";
               JObj [("type", JStr "guardrail");
                     ("id", JStr "input_guardrail_k9x2m");
                     ("deny", JBool true);
                     ("checks",
                      JArr [JObj [("id", JStr "default.regexMatch");
                                  ("parameters",
                                   JObj [("rule", JStr "x");
                                         ("is_enabled", JBool true)]);
                                  ("is_enabled", JBool true)];
                            JObj [("id", JStr "acme.check");
                                  ("parameters", JObj []);
                                  ("is_enabled", JUndefined)]])];
               JObj [("type", JStr "mutator");
                     ("id", JStr "input_guardrail_k9x2m");
                     ("checks",
                      JArr [JObj [("id", JStr "default.rewrite");
                                  ("parameters", JObj []);
                                  ("is_enabled", JUndefined)]])]].
Proof.
  destruct (merge_completes Demo.gateway Sample.busyInherited Sample.busyNode
              [] eq_refl eq_refl) as (ci & cur & w' & Hmerge).
  exists ci, cur, w'. split; [exact Hmerge |].
  destruct (merge_prefers_current_node Demo.gateway _ _ _ _ _ _ Hmerge)
    as ((merged & Hop & Hkeys) & Hretry & _ & Hfh
        & (w1 & g & l1 & w2 & g' & l2 & w3 & m & l3 & w4 & m' & l4
           & Hg & _ & Hm & _ & Hbefore & _)).
  split; [| split; [exact Hretry | split; [exact Hfh |]]].
  - exists merged. split; [exact Hop |].
    split; rewrite Hkeys; reflexivity.
  - vm_compute in Hg. injection Hg as <- _ _.
    vm_compute in Hm. injection Hm as <- _ _.
    exact Hbefore.
Defined.

Lemma circuit_breaker_keeps_healthy_children_witness :
  Demo.run 2 Demo.breakerNode Demo.inheritedWithHook
  = Some (Ok (Demo.response 200), ["config.targets[1]"]).
Proof.
  destruct (mergeInheritedConfig Demo.gateway Demo.inheritedWithHook
              Demo.breakerNode []) as [[[ci cur] | e] w'] eqn:Hmerge;
    [| vm_compute in Hmerge; discriminate].
  pose proof Hmerge as Hvalue. vm_compute in Hvalue.
  injection Hvalue as <- <- <-.
  unfold Demo.run.
  rewrite (proj1 (circuit_breaker_keeps_healthy_children Demo.gateway
                    (ParamsBody (JObj [])) ∅ "chatComplete" "POST" 1
                    Demo.inheritedWithHook Demo.breakerNode "config" []
                    _ _ _ [Demo.opened "a"; Demo.provider "b"]
                    Hmerge eq_refl eq_refl)
             "fallback" eq_refl eq_refl).
  vm_compute. reflexivity.
Defined.

(** ** Fallback strategy *)

Section FallbackFacts.

Context {W : Type} (tryTarget : TryTarget W).
Context (context : StrategyContext) (inheritedConfig : InheritedConfigData).
Context (currentJsonPath : string).

(** Children that did not stop the loop are behind it. *)
Lemma loop_passed index pre rest response w response' w' :
  FallbackStrategy.passed tryTarget inheritedConfig currentJsonPath index pre
    response w response' w' ->
  FallbackStrategy.loop tryTarget inheritedConfig currentJsonPath index
    (pre ++ rest) response w
  = FallbackStrategy.loop tryTarget inheritedConfig currentJsonPath
      (index + length pre) rest response' w'.
Proof.
  induction 1 as [index response w
                 | index target pre' response w r w1 response' w' Htry Hgo _ IH];
    simpl.
  - by rewrite Nat.add_0_r.
  - unfold bind at 1. rewrite Htry, Hgo, IH. f_equal. lia.
Qed.

Lemma shouldStopFallback_iff response strategy :
  FallbackStrategy.shouldStopFallback response strategy = true
  <-> (exists codes,
         strategy ≫= strategy_onStatusCodes = Some codes
         /\ ~ In (status response) codes)
      \/ (strategy ≫= strategy_onStatusCodes = None /\ ok response = true)
      \/ headers_get response REQUEST_PROCESSING.GATEWAY_EXCEPTION_HEADER
         = Some "true".
Proof.
  unfold FallbackStrategy.shouldStopFallback.
  assert (Hin : forall codes,
             existsb (Z.eqb (status response)) codes = true
             <-> In (status response) codes).
  { intros codes. rewrite existsb_exists. split.
    - intros (x & Hx & Heq). apply Z.eqb_eq in Heq. by subst.
    - intros Hx. exists (status response). split; [done | apply Z.eqb_refl]. }
  destruct (strategy ≫= strategy_onStatusCodes) as [codes |]; simpl.
  - rewrite !orb_true_iff, negb_true_iff, bool_decide_eq_true,
      <- not_true_iff_false, Hin.
    split.
    + intros [[Hn | Hf] | Hex];
        [left; exists codes; split; [reflexivity | exact Hn]
        | discriminate Hf
        | right; right; exact Hex].
    + intros [(c & Hc & Hn) | [[Hd _] | Hex]];
        [injection Hc as <-; left; left; exact Hn
        | discriminate Hd
        | right; exact Hex].
  - rewrite orb_true_iff, bool_decide_eq_true.
    split.
    + intros [Hok | Hex];
        [right; left; split; [reflexivity | exact Hok]
        | right; right; exact Hex].
    + intros [(c & Hc & _) | [[_ Hok] | Hex]];
        [discriminate Hc | left; exact Hok | right; exact Hex].
Qed.

(** C5: the fallback strategy tries the children in order, each from the
    world the previous one left, and stops at the first child whose
    response makes [shouldStopFallback] true, that is ([onStatusCodes] of
    the child's strategy is an array and the status is not in it) or (the
    child has no [onStatusCodes] and the response is ok) or (the response
    has the header [x-portkey-gateway-exception: true]); it returns the
    response of the last child tried, and throws "All fallback attempts
    failed" when there was no child to try. *)
Theorem fallback_tries_in_order_and_stops_at_first :
  (forall w,
     FallbackStrategy.execute tryTarget context [] inheritedConfig
       currentJsonPath w
     = Some (Throw (Error_ "All fallback attempts failed"), w))
  /\ (forall pre c post w last w1 r w2,
        FallbackStrategy.passed tryTarget inheritedConfig currentJsonPath 0
          pre None w last w1 ->
        tryTarget c inheritedConfig
          (targetPath currentJsonPath
             (or_index (t_originalIndex c) (Some (length pre)))) w1
        = Some (Ok r, w2) ->
        FallbackStrategy.shouldStopFallback r (t_strategy c) = true ->
        FallbackStrategy.execute tryTarget context (pre ++ c :: post)
          inheritedConfig currentJsonPath w
        = Some (Ok r, w2))
  /\ (forall pre c w last w1 r w2,
        FallbackStrategy.passed tryTarget inheritedConfig currentJsonPath 0
          pre None w last w1 ->
        tryTarget c inheritedConfig
          (targetPath currentJsonPath
             (or_index (t_originalIndex c) (Some (length pre)))) w1
        = Some (Ok r, w2) ->
        FallbackStrategy.shouldStopFallback r (t_strategy c) = false ->
        FallbackStrategy.execute tryTarget context (pre ++ [c])
          inheritedConfig currentJsonPath w
        = Some (Ok r, w2))
  /\ (forall response strategy,
        FallbackStrategy.shouldStopFallback response strategy = true
        <-> (exists codes,
               strategy ≫= strategy_onStatusCodes = Some codes
               /\ ~ In (status response) codes)
            \/ (strategy ≫= strategy_onStatusCodes = None
                /\ ok response = true)
            \/ headers_get response
                 REQUEST_PROCESSING.GATEWAY_EXCEPTION_HEADER = Some "true").
Proof.
  split; [reflexivity |]. split; [| split; [| apply shouldStopFallback_iff]].
  - intros pre c post w last w1 r w2 Hpassed Htry Hstop.
    unfold FallbackStrategy.execute, bind.
    rewrite (loop_passed 0 pre (c :: post) None w last w1 Hpassed). simpl.
    unfold bind. rewrite Htry, Hstop. reflexivity.
  - intros pre c w last w1 r w2 Hpassed Htry Hgo.
    unfold FallbackStrategy.execute, bind.
    rewrite (loop_passed 0 pre [c] None w last w1 Hpassed). simpl.
    unfold bind. rewrite Htry, Hgo. reflexivity.
Qed.

End FallbackFacts.

Lemma fallback_tries_in_order_and_stops_at_first_witness :
  FallbackStrategy.execute Demo.tryTarget
    (mkStrategyContext (ParamsBody (JObj [])) ∅ "chatComplete" "POST" "config")
    ([Demo.provider "down"] ++ Demo.provider "openai" :: [Demo.provider "x"])
    Demo.passedDown "config" []
  = Some (Ok (Demo.response 200), ["config.targets[0]"; "config.targets[1]"]).
Proof.
  apply (proj1 (proj2 (fallback_tries_in_order_and_stops_at_first
                         Demo.tryTarget _ Demo.passedDown "config"))
           [Demo.provider "down"] (Demo.provider "openai") [Demo.provider "x"]
           [] (Some (Demo.response 503)) ["config.targets[0]"]).
  - eapply FallbackStrategy.passed_cons.
    + vm_compute. reflexivity.
    + reflexivity.
    + apply FallbackStrategy.passed_nil.
  - vm_compute. reflexivity.
  - reflexivity.
Defined.

(** ** Target resolver *)

Section ResolverFacts.

Context {W : Type} (G : Gateway W).
Context (request : RequestBody) (requestHeaders : gmap string string).
Context (fn method : string).

(** X3: Past the merge, only an error named RouterError leaves the resolver:
    every other error of the strategy or of the leaf call comes back as a
    response. *)
Lemma resolver_converts_errors fuel t jsonPath inh w e w' :
  tryTargetsRecursively G fuel t request requestHeaders fn method jsonPath
    inh w
  = Some (Throw e, w') ->
  isRouterError e = true
  \/ mergeInheritedConfig G inh t w = (Throw e, w').
Proof.
  destruct fuel as [| fuel]; [discriminate |]. simpl. unfold bind at 1, call.
  destruct (mergeInheritedConfig G inh t w) as [[[ci cur] | e0] w1]; simpl;
    [| intros [= <- <-]; by right].
  destruct (truthy_string (t_strategy t ≫= strategy_mode)
            && is_present (t_targets (filterOpenTargets ci cur))).
  - unfold try_catch.
    match goal with
    | |- context [match ?m w1 with _ => _ end] =>
        destruct (m w1) as [[[r | e1] w2] |]
    end; try discriminate.
    destruct (isRouterError e1) eqn:Hr; [| discriminate].
    intros [= <- <-]. by left.
  - unfold try_catch.
    match goal with
    | |- context [match ?m w1 with _ => _ end] =>
        destruct (m w1) as [[[r | e1] w2] |]
    end; discriminate.
Qed.

(** C1, at an input the resolver receives: called without an inherited
    record (the default [{}]) on a node that has no
    [defaultInputGuardrails], the resolver throws a TypeError; the error
    is not turned into a 500 response.  It is the TypeError of the spread
    that ends the merge phase, unless a shorthand list of the node cannot
    be read, which throws a TypeError before. *)
Theorem resolver_throws_on_missing_default_guardrails
    fuel t jsonPath inh w :
  hasNoKeys inh = true ->
  t_defaultInputGuardrails t = None ->
  exists e w',
    tryTargetsRecursively G (S fuel) t request requestHeaders fn method
      jsonPath inh w
    = Some (Throw e, w')
    /\ err_name e = "TypeError"
    /\ (shorthandExpandable inh t = true ->
        e = TypeError_
              "currentInheritedConfig.defaultInputGuardrails is not iterable").
Proof.
  intros Hempty Hnone.
  destruct (merge_throws G inh t w Hempty Hnone) as (e & w' & Hm & Hname & He).
  exists e, w'. split; [| split; [exact Hname | exact He]].
  by apply resolver_merge_throws.
Qed.

(** Children that weigh nothing add up to nothing. *)
Lemma totalWeight_zero (targets : list Target) :
  (forall c, In c targets ->
             t_weight c = Some 0%float \/ t_weight c = Some (-0)%float) ->
  LoadBalanceStrategy.totalWeight
    (LoadBalanceStrategy.assignDefaultWeights targets)
  = 0%float.
Proof.
  unfold LoadBalanceStrategy.totalWeight.
  induction targets as [| c rest IH]; intros Hzero; [reflexivity |].
  simpl. unfold LoadBalanceStrategy.weight_of at 2. simpl.
  destruct (Hzero c (or_introl eq_refl)) as [-> | ->]; simpl.
  - change (0 + 0)%float with 0%float. apply IH. intros c' Hc'.
    apply Hzero. by right.
  - change (0 + -0)%float with 0%float. apply IH. intros c' Hc'.
    apply Hzero. by right.
Qed.

(** The circuit-breaker filter leaves a node with children whose weights
    are weights of the node's children. *)
Lemma filterOpenTargets_weights ci cur children :
  t_targets cur = Some children ->
  exists kept,
    t_targets (filterOpenTargets ci cur) = Some kept
    /\ forall c', In c' kept ->
                  exists c, In c children /\ t_weight c' = t_weight c.
Proof.
  intros Hts. unfold filterOpenTargets.
  destruct (truthy_string (ic_id ci)); [| by eauto].
  destruct (negb (length (healthyTargets cur) =? 0)%nat); [| by eauto].
  exists (healthyTargets cur). split; [reflexivity |].
  intros c' Hc'. unfold healthyTargets in Hc'. rewrite Hts in Hc'. simpl in Hc'.
  apply filter_In in Hc' as [Hc' _].
  apply list_elem_of_In, elem_of_lookup_imap in Hc' as (i & c & -> & Hi).
  exists c. split; [| reflexivity].
  apply list_elem_of_In, list_elem_of_lookup. eauto.
Qed.

(** C2 (amended): at a load-balance node all of whose children have
    weight 0, when the merge phase completes (it does not throw), the
    resolver returns a 500 response whose JSON body is [{status:
    "failure", message: "Something went wrong"}] and which carries the
    gateway-exception header: the error of the strategy is not a gateway
    error, so its message is not shown.  No provider is called: the world
    is the one the merge left. *)
Theorem zero_weight_loadbalance_replies_500
    fuel node children jsonPath inh w ci cur w1 :
  mergeInheritedConfig G inh node w = (Ok (ci, cur), w1) ->
  t_strategy node ≫= strategy_mode = Some StrategyModes.LOADBALANCE ->
  t_targets node = Some children ->
  (forall c, In c children ->
             t_weight c = Some 0%float \/ t_weight c = Some (-0)%float) ->
  exists r,
    tryTargetsRecursively G (S fuel) node request requestHeaders fn method
      jsonPath inh w
    = Some (Ok r, w1)
    /\ status r = 500
    /\ body r
       = BodyJson (JObj [("status", JStr "failure");
                         ("message", JStr "Something went wrong")])
    /\ carries_gateway_exception r.
Proof.
  intros Hm Hmode Hts Hzero.
  destruct (merge_inv G inh node w ci cur w1 Hm)
    as (w0 & nh & _ & _ & _ & _ & _ & _ & _ & Hcur & _).
  rewrite Hts in Hcur.
  destruct (filterOpenTargets_weights ci cur children Hcur)
    as (kept & Hkept & Hweights).
  assert (Htotal :
            LoadBalanceStrategy.totalWeight
              (LoadBalanceStrategy.assignDefaultWeights kept) = 0%float).
  { apply totalWeight_zero. intros c' Hc'.
    destruct (Hweights c' Hc') as (c & Hc & ->). by apply Hzero. }
  exists (RequestErrorHandler.handleTargetRecursionError
            (Error_ "Total weight cannot be zero for load balancing")).
  split; [| split; [reflexivity | split; [reflexivity |]]].
  - rewrite (resolver_strategy_branch G request requestHeaders fn method fuel
               node jsonPath inh w ci cur w1 StrategyModes.LOADBALANCE kept
               Hm Hmode eq_refl Hkept).
    unfold try_catch. simpl.
    unfold LoadBalanceStrategy.execute,
      LoadBalanceStrategy.selectTargetByWeight, bind.
    rewrite Htotal. reflexivity.
  - apply shaped_500_has_marker.
Qed.

End ResolverFacts.

Lemma resolver_throws_on_missing_default_guardrails_witness :
  exists w',
    Demo.run 1 (Demo.provider "openai") emptyInherited
    = Some (Throw (TypeError_
                     "currentInheritedConfig.defaultInputGuardrails is not iterable"),
            w').
Proof.
  destruct (resolver_throws_on_missing_default_guardrails Demo.gateway
              (ParamsBody (JObj [])) ∅ "chatComplete" "POST" 0
              (Demo.provider "openai") "config" emptyInherited []
              eq_refl eq_refl) as (e & w' & Hrun & _ & He).
  exists w'. rewrite <- (He eq_refl). exact Hrun.
Defined.

(** C2, as stated, fails: for the load-balance root with two children of
    weight 0 the body of the 500 response says "Something went wrong",
    not "No provider selected, please check the weights". *)
Lemma zero_weight_message_is_generic :
  exists r w',
    Demo.run 2 Demo.zeroWeights emptyInherited = Some (Ok r, w')
    /\ status r = 500
    /\ body r = RequestErrorHandler.failure_body "Something went wrong"
    /\ body r
       <> RequestErrorHandler.failure_body ERROR_MESSAGES.NO_PROVIDER_SELECTED.
Proof.
  eexists _, _. split; [vm_compute; reflexivity |].
  split; [reflexivity |]. split; [reflexivity | discriminate].
Qed.

Lemma zero_weight_loadbalance_replies_500_witness :
  exists r,
    Demo.run 1 Demo.zeroWeights emptyInherited = Some (Ok r, [])
    /\ status r = 500
    /\ body r
       = BodyJson (JObj [("status", JStr "failure");
                         ("message", JStr "Something went wrong")])
    /\ carries_gateway_exception r.
Proof.
  destruct (mergeInheritedConfig Demo.gateway emptyInherited Demo.zeroWeights
              []) as [[[ci cur] | e] w'] eqn:Hmerge;
    [| vm_compute in Hmerge; discriminate].
  pose proof Hmerge as Hvalue. vm_compute in Hvalue.
  injection Hvalue as <- <- <-.
  apply (zero_weight_loadbalance_replies_500 Demo.gateway
           (ParamsBody (JObj [])) ∅ "chatComplete" "POST" 0
           Demo.zeroWeights
           [Demo.weighted "a" 0%float; Demo.weighted "b" 0%float]
           "config" emptyInherited [] _ _ [] Hmerge).
  - reflexivity.
  - reflexivity.
  - intros c [<- | [<- | []]]; left; reflexivity.
Defined.

(** ** The walk terminates *)

Section Termination.

Context {W : Type} (G : Gateway W).
Context (request : RequestBody) (requestHeaders : gmap string string).
Context (fn method : string).

Lemma depth_eq t :
  depth t
  = S (fold_right (fun c acc => Nat.max (depth c) acc) 0%nat
         (default [] (t_targets t))).
Proof. destruct t as [? [ts |]]; reflexivity. Qed.

Lemma depth_set_originalIndex t i : depth (set_originalIndex t i) = depth t.
Proof. by rewrite !depth_eq. Qed.

Lemma depth_set_weight t q : depth (set_weight t q) = depth t.
Proof. by rewrite !depth_eq. Qed.

Lemma children_below t n :
  (depth t <= S n)%nat ->
  Forall (fun c => (depth c <= n)%nat) (default [] (t_targets t)).
Proof.
  rewrite depth_eq. intros Hd. apply le_S_n in Hd. revert Hd.
  induction (default [] (t_targets t)) as [| c rest IH]; simpl; intros Hd.
  - constructor.
  - constructor; [lia | apply IH; lia].
Qed.

Lemma healthy_below cur n :
  Forall (fun c => (depth c <= n)%nat) (default [] (t_targets cur)) ->
  Forall (fun c => (depth c <= n)%nat) (healthyTargets cur).
Proof.
  intros Hall. unfold healthyTargets. apply Forall_forall. intros c' Hc'.
  apply list_elem_of_In, filter_In in Hc' as [Hc' _].
  apply list_elem_of_In, elem_of_lookup_imap in Hc' as (i & c & -> & Hi).
  rewrite depth_set_originalIndex.
  rewrite Forall_forall in Hall. apply Hall. by eapply list_elem_of_lookup_2.
Qed.

Lemma filtered_below ci cur n :
  Forall (fun c => (depth c <= n)%nat) (default [] (t_targets cur)) ->
  Forall (fun c => (depth c <= n)%nat)
    (default [] (t_targets (filterOpenTargets ci cur))).
Proof.
  intros Hall. unfold filterOpenTargets.
  destruct (truthy_string (ic_id ci)); [| done].
  destruct (negb (length (healthyTargets cur) =? 0)%nat); [| done].
  simpl. by apply healthy_below.
Qed.

Lemma weighted_below targets n :
  Forall (fun c => (depth c <= n)%nat) targets ->
  Forall (fun c => (depth c <= n)%nat)
    (LoadBalanceStrategy.assignDefaultWeights targets).
Proof.
  unfold LoadBalanceStrategy.assignDefaultWeights.
  induction 1 as [| c rest Hc _ IH]; simpl; constructor;
    [by rewrite depth_set_weight | exact IH].
Qed.

Lemma pick_In randomWeight index targets selected :
  LoadBalanceStrategy.pick randomWeight index targets = Some selected ->
  In selected.1 targets.
Proof.
  revert randomWeight index.
  induction targets as [| c rest IH]; intros r i; simpl; [discriminate |].
  destruct (r <? LoadBalanceStrategy.weight_of c)%float.
  - intros [= <-]. by left.
  - intros Hp. right. by eapply IH.
Qed.

(** Each strategy returns when the recursive call returns on the targets
    it is given. *)
Lemma strategy_returns n (tryTarget : TryTarget W) :
  routerPicksAChild G ->
  (forall c inh path w, (depth c <= n)%nat -> is_Some (tryTarget c inh path w)) ->
  forall mode execute context targets inh path w,
    StrategyFactory.create G mode = Ok execute ->
    Forall (fun c => (depth c <= n)%nat) targets ->
    is_Some (execute tryTarget context targets inh path w).
Proof.
  intros Hrouter Htry mode execute context targets inh path w Hcreate Hall.
  rewrite Forall_forall in Hall.
  unfold StrategyFactory.create in Hcreate.
  repeat case_match; simplify_eq.
  - (* fallback *)
    unfold FallbackStrategy.execute, bind.
    assert (Hloop : forall index response w0,
               exists o w1,
                 FallbackStrategy.loop tryTarget inh path index targets
                   response w0 = Some (o, w1)).
    { induction targets as [| c rest IH]; intros index response w0; simpl.
      - unfold ret. eauto.
      - unfold bind.
        destruct (Htry c inh
                    (targetPath path
                       (or_index (t_originalIndex c) (Some index))) w0)
          as [[[r | e] w1] Hr]; [apply Hall; by left | |];
          rewrite Hr; [| eauto].
        destruct (FallbackStrategy.shouldStopFallback r (t_strategy c));
          [unfold ret; eauto |].
        apply IH. intros c' Hc'. apply Hall. by right. }
    destruct (Hloop 0%nat None w) as ([[r |] | e] & w1 & ->); done.
  - (* load balance *)
    unfold LoadBalanceStrategy.execute, LoadBalanceStrategy.selectTargetByWeight.
    pose proof (weighted_below targets n (proj2 (Forall_forall _ _) Hall))
      as Hweighted.
    rewrite Forall_forall in Hweighted.
    destruct (PrimFloat.eqb _ 0); [done |].
    unfold bind at 1 2, call.
    destruct (Math_random G w) as [r w1].
    destruct (LoadBalanceStrategy.pick _ _ _) as [selected |] eqn:Hpick.
    + simpl. apply Htry, Hweighted, list_elem_of_In. by eapply pick_In.
    + destruct (last _) as [lastTarget |] eqn:Hlast; [| done].
      simpl. apply Htry, Hweighted.
      apply last_Some in Hlast as [l' ->]. set_solver.
  - (* conditional *)
    unfold ConditionalStrategy.execute, ConditionalStrategy.resolveConditionalTarget,
      bind.
    destruct (ConditionalRouter_resolveTarget G targets _ _) as [t' | e] eqn:Hr;
      [| done].
    simpl. apply Htry, Hall, list_elem_of_In, (Hrouter _ _ _ _ Hr).
  - (* single *)
    unfold SingleStrategy.execute. destruct targets as [| c rest]; [done |].
    apply Htry, Hall. by left.
Qed.

(** X4: With fuel for the depth of the tree the resolver returns: it yields a
    response or throws, and never hits the bound. *)
Theorem resolver_returns fuel :
  routerPicksAChild G ->
  forall t jsonPath inh w,
    (depth t <= fuel)%nat ->
    is_Some (tryTargetsRecursively G fuel t request requestHeaders fn method
               jsonPath inh w).
Proof.
  intros Hrouter. induction fuel as [| n IH]; intros t jsonPath inh w Hd.
  - rewrite depth_eq in Hd. lia.
  - simpl. unfold bind at 1, call.
    destruct (mergeInheritedConfig G inh t w) as [[[ci cur] | e] w1] eqn:Hm;
      [| done]. simpl.
    destruct (merge_inv G inh t w ci cur w1 Hm)
      as (_ & _ & _ & _ & _ & _ & _ & _ & _ & Hts & _).
    pose proof (children_below t n Hd) as Hall. rewrite <- Hts in Hall.
    apply (filtered_below ci) in Hall.
    destruct (truthy_string (t_strategy t ≫= strategy_mode)
              && is_present (t_targets (filterOpenTargets ci cur))).
    + unfold try_catch.
      destruct (StrategyFactory.create G (default "" (t_strategy t ≫= strategy_mode)))
        as [execute | e] eqn:Hcreate.
      * match goal with
        | |- context [execute ?tt ?ctx ?ts ?i ?p w1] =>
            destruct (strategy_returns n tt Hrouter
                        (fun c inh' path' w' Hc => IH c path' inh' w' Hc)
                        _ execute ctx ts i p w1 Hcreate Hall)
              as [[[r | e] w2] ->]
        end; [done |].
        destruct (isRouterError e); done.
      * simpl. destruct (isRouterError e); done.
    + unfold try_catch, tryPost, bind, call.
      destruct (tryPost_processor G _ _ _ _ _ _ w1) as [[r | e] w2]; [| done].
      destruct (truthy_string (ic_id ci)); [| done].
      destruct (handleCircuitBreakerResponse G) as [hook |]; [| done].
      destruct (hook r _ _ _ w2) as [[[] | e] w3]; done.
Qed.

End Termination.

(** The router of the sample picks the first of its targets. *)
Lemma sample_router_picks_a_child : routerPicksAChild Demo.gateway.
Proof.
  intros [| t rest] metadata params selected; simpl; [discriminate |].
  intros [= <-]. by left.
Qed.

Lemma resolver_returns_witness :
  is_Some (Demo.run 2 Demo.breakerNode emptyInherited).
Proof.
  apply (resolver_returns Demo.gateway (ParamsBody (JObj [])) ∅
           "chatComplete" "POST" 2 sample_router_picks_a_child).
  vm_compute. lia.
Defined.

(** Fallback on a failing provider, through the resolver: the first child
    answers 503, the second 200, and the third is not called. *)
Example fallback_reaches_second_child :
  Demo.run 2
    (Demo.root "fallback"
       [Demo.provider "down"; Demo.provider "openai"; Demo.provider "spare"])
    emptyInherited
  = Some (Ok (Demo.response 200), ["config.targets[0]"; "config.targets[1]"]).
Proof. vm_compute. reflexivity. Qed.

(** With a circuit-breaker id, the open child is skipped and the path of
    the healthy one keeps its original position. *)
Example open_child_is_skipped :
  Demo.run 2 Demo.breakerNode Demo.inheritedWithHook
  = Some (Ok (Demo.response 200), ["config.targets[1]"]).
Proof. vm_compute. reflexivity. Qed.

(** ** More on the resolver and the strategies *)

Lemma resolver_converts_errors_witness :
  isRouterError (RouterError_ "No conditions passed") = true
  \/ mergeInheritedConfig Demo.gateway Demo.passedDown Sample.unroutable []
     = (Throw (RouterError_ "No conditions passed"), []).
Proof.
  apply (resolver_converts_errors Demo.gateway (ParamsBody (JObj [])) ∅
           "chatComplete" "POST" 1 Sample.unroutable "config" Demo.passedDown
           [] _ []).
  vm_compute. reflexivity.
Defined.

Lemma loop_terminates_witness :
  exists result w',
    recursiveAfterRequestHookHandler Demo.loopServices 3 Demo.retry
      Demo.fetchOptions 0 "span" 0%nat
    = Some (Ok result, w').
Proof.
  apply (loop_terminates Demo.loopServices Demo.retry Demo.fetchOptions "span").
  - intros [| n]; eexists _, _; (split; [reflexivity | simpl; lia]).
  - intros r w. eexists _, _. reflexivity.
  - intros r j m w. eexists _, _. reflexivity.
  - simpl. lia.
Defined.

Lemma finalRetryCount_within_budget_witness :
  finalRetryCount Demo.retry (Some 2) false 429 0
  = if includes_status (onStatusCodes Demo.retry) 429 || false
    then -1
    else default 0 (Some 2) + 0.
Proof.
  apply (finalRetryCount_within_budget Demo.retry (Some 2) false 429 0).
  - reflexivity.
  - simpl. lia.
Defined.

Section FallbackErrors.

Context {W : Type} (tryTarget : TryTarget W).
Context (context : StrategyContext) (inheritedConfig : InheritedConfigData).
Context (currentJsonPath : string).

(** X5: A child that throws ends the fallback: the error leaves the strategy
    from the world that child left, and the children after it are not
    tried. *)
Theorem fallback_rethrows_child_error pre c post w last w1 e w2 :
  FallbackStrategy.passed tryTarget inheritedConfig currentJsonPath 0 pre None
    w last w1 ->
  tryTarget c inheritedConfig
    (targetPath currentJsonPath
       (or_index (t_originalIndex c) (Some (length pre)))) w1
  = Some (Throw e, w2) ->
  FallbackStrategy.execute tryTarget context (pre ++ c :: post)
    inheritedConfig currentJsonPath w
  = Some (Throw e, w2).
Proof.
  intros Hpassed Htry.
  unfold FallbackStrategy.execute, bind.
  rewrite (loop_passed tryTarget inheritedConfig currentJsonPath 0 pre
             (c :: post) None w last w1 Hpassed).
  simpl. unfold bind. rewrite Htry. reflexivity.
Qed.

End FallbackErrors.

Lemma fallback_rethrows_child_error_witness :
  FallbackStrategy.execute Demo.tryTarget
    (mkStrategyContext (ParamsBody (JObj [])) ∅ "chatComplete" "POST" "config")
    ([Demo.provider "down"] ++ Sample.unroutable :: [Demo.provider "openai"])
    Demo.passedDown "config" []
  = Some (Throw (RouterError_ "No conditions passed"), ["config.targets[0]"]).
Proof.
  apply (fallback_rethrows_child_error Demo.tryTarget _ Demo.passedDown
           "config" [Demo.provider "down"] Sample.unroutable
           [Demo.provider "openai"] [] (Some (Demo.response 503))
           ["config.targets[0]"]).
  - eapply FallbackStrategy.passed_cons.
    + vm_compute. reflexivity.
    + reflexivity.
    + apply FallbackStrategy.passed_nil.
  - vm_compute. reflexivity.
Defined.

Section ResolverBranches.

Context {W : Type} (G : Gateway W).
Context (request : RequestBody) (requestHeaders : gmap string string).
Context (fn method : string).

(** The children the strategy of a node is given exist when the node has
    children. *)
Lemma filtered_targets_present inh t w ci cur w1 children :
  mergeInheritedConfig G inh t w = (Ok (ci, cur), w1) ->
  t_targets t = Some children ->
  exists targets, t_targets (filterOpenTargets ci cur) = Some targets.
Proof.
  intros Hm Hts.
  destruct (merge_inv G inh t w ci cur w1 Hm)
    as (_ & _ & _ & _ & _ & _ & _ & _ & _ & Hcur & _).
  rewrite Hts in Hcur.
  destruct (filterOpenTargets_weights ci cur children Hcur) as (kept & Hk & _).
  eauto.
Qed.

(** X6: On a conditional node with children whose merge completes, a
    failure of the conditional router on the children handed to the
    strategy (with the metadata of the request headers and the parameters
    of the request) leaves the resolver as a RouterError that carries the
    router's message: it is not turned into a 500 response, and the world
    is the one the merge left. *)
Theorem conditional_router_failure_is_rethrown
    fuel node children jsonPath inh w ci cur w1 e :
  mergeInheritedConfig G inh node w = (Ok (ci, cur), w1) ->
  t_strategy node ≫= strategy_mode = Some StrategyModes.CONDITIONAL ->
  t_targets node = Some children ->
  ConditionalRouter_resolveTarget G
    (default [] (t_targets (filterOpenTargets ci cur)))
    (ConditionalStrategy.extractMetadata G requestHeaders)
    (ConditionalStrategy.extractParams request)
  = Throw e ->
  tryTargetsRecursively G (S fuel) node request requestHeaders fn method
    jsonPath inh w
  = Some (Throw (RouterError_ (err_message e)), w1).
Proof.
  intros Hm Hmode Hts Hrouter.
  destruct (filtered_targets_present inh node w ci cur w1 children Hm Hts)
    as (targets & Hk).
  rewrite Hk in Hrouter. simpl in Hrouter.
  rewrite (resolver_strategy_branch G request requestHeaders fn method fuel
             node jsonPath inh w ci cur w1
             StrategyModes.CONDITIONAL targets Hm Hmode eq_refl Hk).
  unfold try_catch. simpl.
  unfold ConditionalStrategy.execute, ConditionalStrategy.resolveConditionalTarget,
    bind.
  simpl. rewrite Hrouter. reflexivity.
Qed.

(** X7: When the merge completes: an unknown strategy mode on a node with
    children is answered by a 500 response with the generic message; so
    is a single strategy without a child, and a fallback strategy without
    a child.  The provider is not called: the world is the one the merge
    left. *)
Theorem strategy_setup_errors_reply_500
    fuel node children mode jsonPath inh w ci cur w1 :
  mergeInheritedConfig G inh node w = (Ok (ci, cur), w1) ->
  t_strategy node ≫= strategy_mode = Some mode ->
  t_targets node = Some children ->
  (truthy_string (Some mode) = true
   /\ ~ In mode [StrategyModes.FALLBACK; StrategyModes.LOADBALANCE;
                 StrategyModes.CONDITIONAL; StrategyModes.SINGLE])
  \/ (children = []
      /\ (mode = StrategyModes.SINGLE \/ mode = StrategyModes.FALLBACK)) ->
  exists r,
    tryTargetsRecursively G (S fuel) node request requestHeaders fn method
      jsonPath inh w
    = Some (Ok r, w1)
    /\ status r = 500
    /\ body r
       = BodyJson (JObj [("status", JStr "failure");
                         ("message", JStr "Something went wrong")])
    /\ carries_gateway_exception r.
Proof.
  intros Hm Hmode Hts Hcase.
  destruct (filtered_targets_present inh node w ci cur w1 children Hm Hts)
    as (targets & Hk).
  assert (Htruthy : truthy_string (Some mode) = true).
  { destruct Hcase as [[Ht _] | [_ [-> | ->]]]; [exact Ht | reflexivity..]. }
  rewrite (resolver_strategy_branch G request requestHeaders fn method fuel
             node jsonPath inh w ci cur w1 mode targets Hm Hmode Htruthy Hk).
  destruct Hcase as [[_ Hunknown] | [-> Hsome]].
  - assert (Hcreate : StrategyFactory.create G mode
                      = Throw (Error_ ("Unknown strategy mode: " ++ mode))).
    { unfold StrategyFactory.create.
      destruct (String.eqb_spec mode StrategyModes.FALLBACK) as [Heq | _];
        [exfalso; apply Hunknown; rewrite Heq; simpl; tauto |].
      destruct (String.eqb_spec mode StrategyModes.LOADBALANCE) as [Heq | _];
        [exfalso; apply Hunknown; rewrite Heq; simpl; tauto |].
      destruct (String.eqb_spec mode StrategyModes.CONDITIONAL) as [Heq | _];
        [exfalso; apply Hunknown; rewrite Heq; simpl; tauto |].
      destruct (String.eqb_spec mode StrategyModes.SINGLE) as [Heq | _];
        [exfalso; apply Hunknown; rewrite Heq; simpl; tauto |].
      reflexivity. }
    rewrite Hcreate. eexists. split; [reflexivity |].
    split; [reflexivity |]. split; [reflexivity | apply shaped_500_has_marker].
  - assert (Hempty : targets = []).
    { destruct (merge_inv G inh node w ci cur w1 Hm)
        as (_ & _ & _ & _ & _ & _ & _ & _ & _ & Hcur & _).
      rewrite Hts in Hcur. revert Hk. unfold filterOpenTargets, healthyTargets.
      rewrite Hcur. simpl. destruct (truthy_string (ic_id ci)); simpl;
        rewrite ?Hcur; congruence. }
    subst targets.
    destruct Hsome as [-> | ->]; eexists; (split; [reflexivity |]);
      (split; [reflexivity |]); (split; [reflexivity |]);
      apply shaped_500_has_marker.
Qed.

(** X8: A provider leaf (a node without a strategy mode, or without
    children) at which the merge completes.  Without a circuit-breaker
    id, or without a hook in the context, the response of the request
    processor is returned as it is and an error it throws is shaped into
    a 500 response.  With an id and a hook, the hook is called on the
    response, and when the hook throws, the response of the provider is
    replaced by a 500 response. *)
Theorem leaf_returns_processor_response
    fuel t jsonPath inh w ci cur w1 :
  mergeInheritedConfig G inh t w = (Ok (ci, cur), w1) ->
  truthy_string (t_strategy t ≫= strategy_mode) = false
  \/ t_targets t = None ->
  let leaf := filterOpenTargets ci cur in
  let run :=
    tryTargetsRecursively G (S fuel) t request requestHeaders fn method
      jsonPath inh w in
  (forall e w2,
     tryPost_processor G leaf request requestHeaders fn jsonPath method w1
     = (Throw e, w2) ->
     run = Some (Ok (RequestErrorHandler.handleTargetRecursionError e), w2))
  /\ (forall r w2,
        tryPost_processor G leaf request requestHeaders fn jsonPath method w1
        = (Ok r, w2) ->
        truthy_string (ic_id ci) = false
        \/ handleCircuitBreakerResponse G = None ->
        run = Some (Ok r, w2))
  /\ (forall r w2 hook,
        tryPost_processor G leaf request requestHeaders fn jsonPath method w1
        = (Ok r, w2) ->
        truthy_string (ic_id ci) = true ->
        handleCircuitBreakerResponse G = Some hook ->
        run
        = match hook r (ic_id ci) (t_cbConfig leaf) jsonPath w2 with
          | (Ok _, w3) => Some (Ok r, w3)
          | (Throw e, w3) =>
              Some (Ok (RequestErrorHandler.handleTargetRecursionError e), w3)
          end).
Proof.
  intros Hm Hleaf leaf run.
  assert (Hbranch :
            truthy_string (t_strategy t ≫= strategy_mode)
            && is_present (t_targets leaf) = false).
  { destruct Hleaf as [-> | Hnone]; [reflexivity |].
    destruct (merge_inv G inh t w ci cur w1 Hm)
      as (_ & _ & _ & _ & _ & _ & _ & _ & _ & Hcur & _).
    rewrite Hnone in Hcur. unfold leaf, filterOpenTargets, healthyTargets.
    rewrite Hcur. simpl. destruct (truthy_string (ic_id ci)); simpl;
      rewrite ?Hcur; apply andb_false_r. }
  assert (Hrun :
            run
            = try_catch
                (let* response :=
                   tryPost G leaf request requestHeaders fn jsonPath method in
                 if truthy_string (ic_id ci) then
                   match handleCircuitBreakerResponse G with
                   | Some hook =>
                       let* _ :=
                         call (hook response (ic_id ci) (t_cbConfig leaf)
                                 jsonPath) in
                       ret response
                   | None => ret response
                   end
                 else ret response)
                (fun error =>
                   ret (RequestErrorHandler.handleTargetRecursionError error))
                w1).
  { unfold run. simpl. unfold bind at 1, call. rewrite Hm. simpl.
    fold leaf. rewrite Hbranch. reflexivity. }
  rewrite Hrun. unfold try_catch, tryPost, bind, call.
  split; [| split].
  - intros e w2 ->. reflexivity.
  - intros r w2 -> [Hid | Hhook].
    + rewrite Hid. reflexivity.
    + rewrite Hhook. destruct (truthy_string (ic_id ci)); reflexivity.
  - intros r w2 hook -> Hid Hhook. rewrite Hid, Hhook.
    destruct (hook r (ic_id ci) (t_cbConfig leaf) jsonPath w2) as [[[] | e] w3];
      reflexivity.
Qed.

End ResolverBranches.

Lemma conditional_router_failure_is_rethrown_witness :
  tryTargetsRecursively Demo.gateway 1 Sample.unroutable
    (ParamsBody (JObj [])) ∅ "chatComplete" "POST" "config" Demo.passedDown []
  = Some (Throw (RouterError_ "No conditions passed"), []).
Proof.
  destruct (mergeInheritedConfig Demo.gateway Demo.passedDown Sample.unroutable
              []) as [[[ci cur] | e] w'] eqn:Hmerge;
    [| vm_compute in Hmerge; discriminate].
  pose proof Hmerge as Hvalue. vm_compute in Hvalue.
  injection Hvalue as <- <- <-.
  apply (conditional_router_failure_is_rethrown Demo.gateway
           (ParamsBody (JObj [])) ∅ "chatComplete" "POST" 0 Sample.unroutable
           [] "config" Demo.passedDown [] _ _ [] (Error_ "No conditions passed")
           Hmerge);
    reflexivity.
Defined.

Lemma strategy_setup_errors_reply_500_witness :
  exists r,
    Demo.run 1 (Demo.root "roundrobin" [Demo.provider "a"]) emptyInherited
    = Some (Ok r, [])
    /\ status r = 500
    /\ body r
       = BodyJson (JObj [("status", JStr "failure");
                         ("message", JStr "Something went wrong")])
    /\ carries_gateway_exception r.
Proof.
  eapply (strategy_setup_errors_reply_500 Demo.gateway (ParamsBody (JObj []))
            ∅ "chatComplete" "POST" 0
            (Demo.root "roundrobin" [Demo.provider "a"]) [Demo.provider "a"]
            "roundrobin" "config" emptyInherited []).
  - vm_compute. reflexivity.
  - reflexivity.
  - reflexivity.
  - left. split; [reflexivity |]. simpl. intuition discriminate.
Defined.

Lemma leaf_returns_processor_response_witness :
  tryTargetsRecursively Sample.brokenHookGateway 1 (Demo.provider "openai")
    (ParamsBody (JObj [])) ∅ "chatComplete" "POST" "config"
    Demo.inheritedWithHook []
  = Some (Ok (RequestErrorHandler.handleTargetRecursionError
                (Error_ "breaker store is down")), ["config"]).
Proof.
  destruct (merge_completes Sample.brokenHookGateway Demo.inheritedWithHook
              (Demo.provider "openai") [] eq_refl eq_refl)
    as (ci & cur & w1 & Hm).
  destruct (leaf_returns_processor_response Sample.brokenHookGateway
              (ParamsBody (JObj [])) ∅ "chatComplete" "POST" 0
              (Demo.provider "openai") "config" Demo.inheritedWithHook []
              ci cur w1 Hm (or_introl eq_refl)) as (_ & _ & Hhook).
  revert Hm Hhook. vm_compute. intros [= <- <- <-] Hhook.
  exact (Hhook _ _ _ eq_refl eq_refl eq_refl).
Defined.

Section MergeInvariants.

Context {W : Type} (G : Gateway W).

(** X9: When the merge completes, the node handed on and the record passed
    down agree on [overrideParams], [retry], [cache], [forwardHeaders],
    the two hook lists and the two default guardrail lists; the first
    three and the default guardrails are always defined.  The node keeps
    its own [strictOpenAiCompliance]: the inherited flag is passed down
    but not written on the node. *)
Theorem merge_keeps_node_and_record_in_step inh t w ci cur w' :
  mergeInheritedConfig G inh t w = (Ok (ci, cur), w') ->
  (t_overrideParams cur = ic_overrideParams ci
   /\ t_retry cur = ic_retry ci
   /\ t_cache cur = ic_cache ci
   /\ t_forwardHeaders cur = ic_forwardHeaders ci
   /\ t_beforeRequestHooks cur = ic_beforeRequestHooks ci
   /\ t_afterRequestHooks cur = ic_afterRequestHooks ci
   /\ t_defaultInputGuardrails cur = ic_defaultInputGuardrails ci
   /\ t_defaultOutputGuardrails cur = ic_defaultOutputGuardrails ci)
  /\ (is_Some (t_overrideParams cur) /\ is_Some (t_retry cur)
      /\ is_Some (t_cache cur) /\ is_Some (t_defaultInputGuardrails cur)
      /\ is_Some (t_defaultOutputGuardrails cur))
  /\ t_strictOpenAiCompliance cur = t_strictOpenAiCompliance t
  /\ ic_strictOpenAiCompliance ci
     = match t_strictOpenAiCompliance t with
       | Some b => Some b
       | None => ic_strictOpenAiCompliance inh
       end.
Proof.
  unfold mergeInheritedConfig. intros Hm.
  apply tbind_Ok_inv in Hm as ([di do] & w1 & _ & Hm).
  apply tbind_Ok_inv in Hm as (nh & w2 & _ & Hm).
  destruct di, do; simpl in Hm; try discriminate.
  injection Hm as <- <- <-. simpl.
  repeat split; eauto.
Qed.

(** X10: Two merges in a row, from a parent to its child.  For
    [overrideParams] the nearest node that sets a key wins; [retry] and
    [forwardHeaders] are those of the nearest node that sets them; the
    circuit-breaker id is the other way round: the outermost id wins. *)
Theorem merge_composes inh parent w ci1 cur1 w1 child w2 ci2 cur2 w3 :
  mergeInheritedConfig G inh parent w = (Ok (ci1, cur1), w1) ->
  mergeInheritedConfig G ci1 child w2 = (Ok (ci2, cur2), w3) ->
  (exists merged,
     ic_overrideParams ci2 = Some merged
     /\ forall k,
          merged !! k
          = match default ∅ (t_overrideParams child) !! k with
            | Some v => Some v
            | None =>
                match default ∅ (t_overrideParams parent) !! k with
                | Some v => Some v
                | None => default ∅ (ic_overrideParams inh) !! k
                end
            end)
  /\ ic_retry ci2
     = Some (match t_retry child, t_retry parent with
             | Some r, _ => r
             | None, Some r => r
             | None, None => default ∅ (ic_retry inh)
             end)
  /\ ic_forwardHeaders ci2
     = match t_forwardHeaders child, t_forwardHeaders parent with
       | Some l, _ => Some l
       | None, Some l => Some l
       | None, None => ic_forwardHeaders inh
       end
  /\ ic_id ci2
     = (if truthy_string (ic_id inh) then ic_id inh
        else if truthy_string (t_id parent) then t_id parent
             else t_id child).
Proof.
  intros Hm1 Hm2.
  destruct (merge_inv G inh parent w ci1 cur1 w1 Hm1)
    as (_ & _ & Hid1 & Hop1 & Hretry1 & _ & Hfh1 & _).
  destruct (merge_inv G ci1 child w2 ci2 cur2 w3 Hm2)
    as (_ & _ & Hid2 & Hop2 & Hretry2 & _ & Hfh2 & _).
  split; [| split; [| split]].
  - eexists. split; [exact Hop2 |]. intros k.
    rewrite Hop1. simpl. rewrite !lookup_union.
    destruct (default ∅ (t_overrideParams child) !! k),
      (default ∅ (t_overrideParams parent) !! k),
      (default ∅ (ic_overrideParams inh) !! k); reflexivity.
  - rewrite Hretry2, Hretry1. simpl.
    destruct (t_retry child), (t_retry parent); reflexivity.
  - rewrite Hfh2, Hfh1. unfold prefer.
    destruct (t_forwardHeaders child), (t_forwardHeaders parent); reflexivity.
  - rewrite Hid2, Hid1. unfold or_string.
    destruct (truthy_string (ic_id inh)) eqn:Hi; simpl; rewrite ?Hi;
      [reflexivity |].
    destruct (truthy_string (t_id parent)) eqn:Hp; simpl; rewrite ?Hp;
      reflexivity.
Qed.

End MergeInvariants.

Lemma merge_keeps_node_and_record_in_step_witness :
  exists ci cur w',
    mergeInheritedConfig Demo.gateway Demo.inheritedWithHook
      Demo.shorthandOnly [] = (Ok (ci, cur), w')
    /\ t_beforeRequestHooks cur = ic_beforeRequestHooks ci
    /\ is_Some (t_retry cur)
    /\ t_strictOpenAiCompliance cur = None.
Proof.
  destruct (merge_completes Demo.gateway Demo.inheritedWithHook
              Demo.shorthandOnly [] eq_refl eq_refl) as (ci & cur & w' & Hm).
  exists ci, cur, w'. split; [exact Hm |].
  destruct (merge_keeps_node_and_record_in_step Demo.gateway _ _ _ _ _ _ Hm)
    as ((_ & _ & _ & _ & Hb & _) & (_ & Hr & _) & Hs & _).
  split; [exact Hb |]. split; [exact Hr | exact Hs].
Defined.

Lemma merge_composes_witness :
  exists ci1 cur1 w1 ci2 cur2 w3,
    mergeInheritedConfig Demo.gateway Demo.inheritedWithHook Demo.breakerNode []
    = (Ok (ci1, cur1), w1)
    /\ mergeInheritedConfig Demo.gateway ci1 Demo.shorthandOnly w1
       = (Ok (ci2, cur2), w3)
    /\ ic_id ci2 = Some "cb-1"
    /\ ic_forwardHeaders ci2 = None.
Proof.
  destruct (merge_completes Demo.gateway Demo.inheritedWithHook
              Demo.breakerNode [] eq_refl eq_refl) as (ci1 & cur1 & w1 & Hm1).
  assert (Hdefined : defaultGuardrailsDefined ci1 Demo.shorthandOnly = true
                     /\ shorthandExpandable ci1 Demo.shorthandOnly = true).
  { revert Hm1. vm_compute. intros [= <- _ _]. split; reflexivity. }
  destruct (merge_completes Demo.gateway ci1 Demo.shorthandOnly w1
              (proj1 Hdefined) (proj2 Hdefined))
    as (ci2 & cur2 & w3 & Hm2).
  exists ci1, cur1, w1, ci2, cur2, w3. split; [exact Hm1 |].
  split; [exact Hm2 |].
  destruct (merge_composes Demo.gateway _ _ _ _ _ _ _ _ _ _ _ Hm1 Hm2)
    as (_ & _ & Hfh & Hid).
  split; [exact Hid | exact Hfh].
Defined.

(** ** Weighted choice *)

Section WeightedChoice.

Context {W : Type} (G : Gateway W).

(** The loop of [selectTargetByWeight] that returns: the target returned
    is the first at which the test [randomWeight < target.weight]
    holds. *)
Lemma pick_Some l : forall r i sel,
  LoadBalanceStrategy.pick r i l = Some sel ->
  exists pre c post,
    l = (pre ++ c :: post)%list
    /\ sel = (c, or_index (t_originalIndex c) (Some (i + length pre)%nat))
    /\ (forall pre1 d pre2,
          pre = (pre1 ++ d :: pre2)%list ->
          (LoadBalanceStrategy.randomWeightAfter r pre1
           <? LoadBalanceStrategy.weight_of d)%float = false)
    /\ (LoadBalanceStrategy.randomWeightAfter r pre
        <? LoadBalanceStrategy.weight_of c)%float = true.
Proof.
  induction l as [| c rest IH]; intros r i sel; simpl; [discriminate |].
  destruct (r <? LoadBalanceStrategy.weight_of c)%float eqn:Hlt.
  - intros [= <-]. exists [], c, rest. simpl. rewrite Nat.add_0_r.
    repeat split; [| exact Hlt].
    intros pre1 d pre2 Heq. by destruct pre1.
  - intros Hpick.
    destruct (IH _ _ _ Hpick) as (pre & c' & post & -> & -> & Hpre & Hc).
    exists (c :: pre), c', post. simpl.
    replace (i + S (length pre))%nat with (S i + length pre)%nat by lia.
    repeat split; [| exact Hc].
    intros [| d' pre1] d pre2 Heq; simplify_eq/=; [exact Hlt | by eapply Hpre].
Qed.

(** The loop that ends without a [return]: the test failed at every
    target. *)
Lemma pick_None l : forall r i,
  LoadBalanceStrategy.pick r i l = None ->
  forall pre1 d pre2,
    l = (pre1 ++ d :: pre2)%list ->
    (LoadBalanceStrategy.randomWeightAfter r pre1
     <? LoadBalanceStrategy.weight_of d)%float = false.
Proof.
  induction l as [| c rest IH]; intros r i; simpl.
  - intros _ pre1 d pre2 Heq. by destruct pre1.
  - destruct (r <? LoadBalanceStrategy.weight_of c)%float eqn:Hlt;
      [discriminate |].
    intros Hpick [| d' pre1] d pre2 Heq; simplify_eq/=;
      [exact Hlt | by eapply IH].
Qed.

Lemma totalWeight_nil_zero :
  (LoadBalanceStrategy.totalWeight [] =? 0)%float = true.
Proof. reflexivity. Qed.

End WeightedChoice.

Section WeightedStrategies.

Context {W : Type} (G : Gateway W).

(** X11: The load-balance strategy, when the sum of the weights (1 for a
    child without one), added from the left in doubles, is not 0.  One
    number is drawn and scaled by the sum; the children are gone through
    in order, the weight of every child passed being subtracted from the
    scaled draw; the child tried is the first whose weight exceeds what
    remains, and when there is none, the last child, whatever its weight.
    It is tried under its original index (or its position), once, and no
    other child is. *)
Theorem loadbalance_tries_child_by_cumulative_weight
    (tryTarget : TryTarget W) context children inh path w r0 w1 :
  Math_random G w = (r0, w1) ->
  let weigh := LoadBalanceStrategy.assignDefaultWeights in
  let total := LoadBalanceStrategy.totalWeight (weigh children) in
  let remaining passed :=
    LoadBalanceStrategy.randomWeightAfter (r0 * total)%float (weigh passed) in
  (total =? 0)%float = false ->
  exists pre c post,
    children = (pre ++ c :: post)%list
    /\ LoadBalanceStrategy.execute G tryTarget context children inh path w
       = tryTarget
           (set_weight c
              (Some (default REQUEST_PROCESSING.DEFAULT_WEIGHT (t_weight c))))
           inh
           (targetPath path
              (or_index (t_originalIndex c) (Some (length pre)))) w1
    /\ (forall pre1 d pre2,
          pre = (pre1 ++ d :: pre2)%list ->
          (remaining pre1
           <? default REQUEST_PROCESSING.DEFAULT_WEIGHT (t_weight d))%float
          = false)
    /\ ((remaining pre
         <? default REQUEST_PROCESSING.DEFAULT_WEIGHT (t_weight c))%float
        = true
        \/ (post = []
            /\ (remaining pre
                <? default REQUEST_PROCESSING.DEFAULT_WEIGHT (t_weight c))%float
               = false)).
Proof.
  intros Hrand weigh total remaining Htotal.
  assert (Hexec :
            LoadBalanceStrategy.execute G tryTarget context children inh path w
            = match LoadBalanceStrategy.pick (r0 * total)%float 0
                      (weigh children) with
              | Some sel => tryTarget sel.1 inh (targetPath path sel.2) w1
              | None =>
                  match last (weigh children) with
                  | Some lastTarget =>
                      tryTarget lastTarget inh
                        (targetPath path
                           (or_index (t_originalIndex lastTarget)
                              (Some (length (weigh children) - 1)%nat))) w1
                  | None => Some (Throw (TypeError_ "lastTarget is undefined"),
                                  w1)
                  end
              end).
  { unfold LoadBalanceStrategy.execute,
      LoadBalanceStrategy.selectTargetByWeight, bind, call.
    fold weigh. fold total. rewrite Htotal, Hrand.
    destruct (LoadBalanceStrategy.pick _ _ _) as [sel |]; [reflexivity |].
    destruct (last _); reflexivity. }
  rewrite Hexec.
  destruct (LoadBalanceStrategy.pick (r0 * total)%float 0 (weigh children))
    as [sel |] eqn:Hpick.
  - destruct (pick_Some _ _ _ _ Hpick)
      as (pre' & c' & post' & Hl & -> & Hpre & Hc).
    unfold weigh, LoadBalanceStrategy.assignDefaultWeights in Hl.
    apply map_eq_app in Hl as (pre & rest & -> & <- & Hrest).
    apply map_eq_cons in Hrest as (c & post & -> & <- & <-).
    exists pre, c, post. rewrite length_map. simpl.
    split; [reflexivity |]. split; [reflexivity |].
    split; [| left; exact Hc].
    intros pre1 d pre2 ->.
    apply (Hpre (weigh pre1)
              (set_weight d
                 (Some (default REQUEST_PROCESSING.DEFAULT_WEIGHT (t_weight d))))
              (weigh pre2)).
    unfold weigh, LoadBalanceStrategy.assignDefaultWeights.
    by rewrite map_app.
  - destruct (exists_last (l := children)) as (pre & c & ->).
    { intros ->. unfold total in Htotal.
      change (weigh []) with (@nil Target) in Htotal.
      rewrite totalWeight_nil_zero in Htotal. discriminate. }
    assert (Hweigh : weigh (pre ++ [c])%list
                     = (weigh pre
                          ++ [set_weight c
                                (Some (default REQUEST_PROCESSING.DEFAULT_WEIGHT
                                         (t_weight c)))])%list).
    { unfold weigh, LoadBalanceStrategy.assignDefaultWeights.
      by rewrite map_app. }
    exists pre, c, []. rewrite Hweigh, last_snoc, length_app.
    unfold weigh at 1, LoadBalanceStrategy.assignDefaultWeights at 1.
    rewrite length_map. simpl. replace (length pre + 1 - 1)%nat with (length pre) by lia.
    split; [reflexivity |]. split; [reflexivity |].
    pose proof (pick_None _ _ _ Hpick) as Hnone. rewrite Hweigh in Hnone.
    split.
    + intros pre1 d pre2 ->.
      apply (Hnone (weigh pre1)
               (set_weight d
                 (Some (default REQUEST_PROCESSING.DEFAULT_WEIGHT (t_weight d))))
               (weigh pre2
                  ++ [set_weight c
                        (Some (default REQUEST_PROCESSING.DEFAULT_WEIGHT
                                 (t_weight c)))])%list).
      unfold weigh, LoadBalanceStrategy.assignDefaultWeights.
      rewrite map_app. simpl. by rewrite <- app_assoc.
    + right. split; [reflexivity |]. by apply (Hnone (weigh pre)
                  (set_weight c
                     (Some (default REQUEST_PROCESSING.DEFAULT_WEIGHT
                              (t_weight c))))
                  []).
Qed.

(** The loop of [selectProviderByWeight] that returns. *)
Lemma selectLoop_Some l : forall r i selected,
  selectLoop r i l = Some selected ->
  exists pre c post,
    l = (pre ++ c :: post)%list
    /\ selected = set_index c (Some (i + length pre)%nat)
    /\ (forall pre1 d pre2,
          pre = (pre1 ++ d :: pre2)%list ->
          (randomWeightAfter r pre1 <? providerWeight d)%float = false)
    /\ (randomWeightAfter r pre <? providerWeight c)%float = true.
Proof.
  induction l as [| c rest IH]; intros r i selected; simpl; [discriminate |].
  destruct (r <? providerWeight c)%float eqn:Hlt.
  - intros [= <-]. exists [], c, rest. simpl. rewrite Nat.add_0_r.
    repeat split; [| exact Hlt].
    intros pre1 d pre2 Heq. by destruct pre1.
  - intros Hpick.
    destruct (IH _ _ _ Hpick) as (pre & c' & post & -> & -> & Hpre & Hc).
    exists (c :: pre), c', post. simpl.
    replace (i + S (length pre))%nat with (S i + length pre)%nat by lia.
    repeat split; [| exact Hc].
    intros [| d' pre1] d pre2 Heq; simplify_eq/=; [exact Hlt | by eapply Hpre].
Qed.

(** The loop that ends without a [return]. *)
Lemma selectLoop_None l : forall r i,
  selectLoop r i l = None ->
  forall pre1 d pre2,
    l = (pre1 ++ d :: pre2)%list ->
    (randomWeightAfter r pre1 <? providerWeight d)%float = false.
Proof.
  induction l as [| c rest IH]; intros r i; simpl.
  - intros _ pre1 d pre2 Heq. by destruct pre1.
  - destruct (r <? providerWeight c)%float eqn:Hlt; [discriminate |].
    intros Hpick [| d' pre1] d pre2 Heq; simplify_eq/=;
      [exact Hlt | by eapply IH].
Qed.

(** X12: [selectProviderByWeight].  A provider without a weight counts
    for 1, and a weight that is 0 or NaN for 0.  When the weights, added
    from the left in doubles, give 0, it throws "No provider selected,
    please check the weights" without drawing a number.  Otherwise one
    number is drawn and scaled by the sum, and the providers are gone
    through in order, the weight of every provider passed being
    subtracted from the scaled draw: the first provider whose weight
    exceeds what remains is returned, with its weight filled in and
    [index] set to its position; when there is none, the same error is
    thrown after the draw. *)
Theorem selectProviderByWeight_spec (providers : list Target) w :
  let weigh := LoadBalanceStrategy.assignDefaultWeights in
  let total :=
    fold_left (fun sum provider => (sum + providerWeight provider)%float)
      (weigh providers) 0%float in
  let weight provider :=
    or_zero (default REQUEST_PROCESSING.DEFAULT_WEIGHT (t_weight provider)) in
  ((total =? 0)%float = true ->
   selectProviderByWeight G providers w
   = Some (Throw (Error_ "No provider selected, please check the weights"), w))
  /\ (forall r0 w1,
        Math_random G w = (r0, w1) ->
        (total =? 0)%float = false ->
        let remaining passed :=
          randomWeightAfter (r0 * total)%float (weigh passed) in
        (exists pre c post,
           providers = (pre ++ c :: post)%list
           /\ selectProviderByWeight G providers w
              = Some (Ok (set_index
                            (set_weight c
                               (Some (default REQUEST_PROCESSING.DEFAULT_WEIGHT
                                        (t_weight c))))
                            (Some (length pre))), w1)
           /\ (forall pre1 d pre2,
                 pre = (pre1 ++ d :: pre2)%list ->
                 (remaining pre1 <? weight d)%float = false)
           /\ (remaining pre <? weight c)%float = true)
        \/ (selectProviderByWeight G providers w
            = Some (Throw (Error_ "No provider selected, please check the weights"),
                    w1)
            /\ forall pre1 d pre2,
                 providers = (pre1 ++ d :: pre2)%list ->
                 (remaining pre1 <? weight d)%float = false)).
Proof.
  intros weigh total weight.
  assert (Hunfold :
            selectProviderByWeight G providers
            = if (total =? 0)%float
              then throw (Error_ ERROR_MESSAGES.NO_PROVIDER_SELECTED)
              else
                let* r :=
                  call (fun w => let (r, w') := Math_random G w in (Ok r, w')) in
                match selectLoop (r * total)%float 0 (weigh providers) with
                | Some selected => ret selected
                | None => throw (Error_ ERROR_MESSAGES.NO_PROVIDER_SELECTED)
                end) by reflexivity.
  rewrite Hunfold. split.
  - intros ->. reflexivity.
  - intros r0 w1 Hrand -> remaining. unfold bind, call. rewrite Hrand.
    destruct (selectLoop (r0 * total)%float 0 (weigh providers))
      as [selected |] eqn:Hpick.
    + left.
      destruct (selectLoop_Some _ _ _ _ Hpick)
        as (pre' & c' & post' & Hl & -> & Hpre & Hc).
      unfold weigh, LoadBalanceStrategy.assignDefaultWeights in Hl.
      apply map_eq_app in Hl as (pre & rest & -> & <- & Hrest).
      apply map_eq_cons in Hrest as (c & post & -> & <- & <-).
      exists pre, c, post. rewrite length_map. simpl.
      split; [reflexivity |]. split; [reflexivity |].
      split; [| exact Hc].
      intros pre1 d pre2 ->.
      apply (Hpre (weigh pre1)
              (set_weight d
                 (Some (default REQUEST_PROCESSING.DEFAULT_WEIGHT (t_weight d))))
              (weigh pre2)).
      unfold weigh, LoadBalanceStrategy.assignDefaultWeights.
      by rewrite map_app.
    + right. split; [reflexivity |].
      intros pre1 d pre2 ->.
      apply (selectLoop_None _ _ _ Hpick (weigh pre1)
              (set_weight d
                 (Some (default REQUEST_PROCESSING.DEFAULT_WEIGHT (t_weight d))))
              (weigh pre2)).
      unfold weigh, LoadBalanceStrategy.assignDefaultWeights.
      by rewrite map_app.
Qed.

End WeightedStrategies.

Lemma loadbalance_tries_child_by_cumulative_weight_witness :
  let remaining passed :=
    LoadBalanceStrategy.randomWeightAfter
      (0x1.ffffffffffffep-1
       * LoadBalanceStrategy.totalWeight
           (LoadBalanceStrategy.assignDefaultWeights Sample.tenths))%float
      (LoadBalanceStrategy.assignDefaultWeights passed) in
  exists pre c post,
    Sample.tenths = (pre ++ c :: post)%list
    /\ LoadBalanceStrategy.execute Sample.lateDrawGateway
         Sample.lateDrawTryTarget
         (mkStrategyContext (ParamsBody (JObj [])) ∅ "chatComplete" "POST"
            "config")
         Sample.tenths Demo.passedDown "config" []
       = Sample.lateDrawTryTarget
           (set_weight c
              (Some (default REQUEST_PROCESSING.DEFAULT_WEIGHT (t_weight c))))
           Demo.passedDown
           (targetPath "config"
              (or_index (t_originalIndex c) (Some (length pre)))) []
    /\ (forall pre1 d pre2,
          pre = (pre1 ++ d :: pre2)%list ->
          (remaining pre1
           <? default REQUEST_PROCESSING.DEFAULT_WEIGHT (t_weight d))%float
          = false)
    /\ ((remaining pre
         <? default REQUEST_PROCESSING.DEFAULT_WEIGHT (t_weight c))%float
        = true
        \/ (post = []
            /\ (remaining pre
                <? default REQUEST_PROCESSING.DEFAULT_WEIGHT (t_weight c))%float
               = false)).
Proof.
  apply (loadbalance_tries_child_by_cumulative_weight Sample.lateDrawGateway
           Sample.lateDrawTryTarget _ Sample.tenths Demo.passedDown "config"
           [] 0x1.ffffffffffffep-1%float []);
    reflexivity.
Defined.

Lemma selectProviderByWeight_spec_witness :
  selectProviderByWeight Demo.gateway
    [Demo.weighted "a" 0%float; Demo.weighted "b" 0%float] []
  = Some (Throw (Error_ "No provider selected, please check the weights"), []).
Proof.
  apply (proj1 (selectProviderByWeight_spec Demo.gateway
                  [Demo.weighted "a" 0%float; Demo.weighted "b" 0%float] [])).
  reflexivity.
Defined.

(** The third child is chosen for a draw of one half over the weights 1,
    1 (by default) and 2: the scaled draw is 2, which the weight of the
    first child does not exceed, and what remains after it (1) is not
    exceeded by the weight of the second. *)
Example loadbalance_sample_choice :
  LoadBalanceStrategy.execute Demo.gateway Demo.tryTarget
    (mkStrategyContext (ParamsBody (JObj [])) ∅ "chatComplete" "POST" "config")
    [Demo.weighted "a" 1%float; Demo.provider "b"; Demo.weighted "c" 2%float]
    Demo.passedDown "config" []
  = Some (Ok (Demo.response 200), ["config.targets[2]"]).
Proof. vm_compute. reflexivity. Qed.

(** Over the weights 0.1, 0.2, 0.3 and 0 and a draw of [1 - 2^-52], the
    loop ends without a choice (the sum is 0.6000000000000001 and what
    remains after the third child is not below 0): the last child is
    tried, though its weight is 0. *)
Example loadbalance_falls_back_to_last_child :
  LoadBalanceStrategy.pick
    (0x1.ffffffffffffep-1
     * LoadBalanceStrategy.totalWeight Sample.tenths)%float 0 Sample.tenths
  = None
  /\ LoadBalanceStrategy.execute Sample.lateDrawGateway
       Sample.lateDrawTryTarget
       (mkStrategyContext (ParamsBody (JObj [])) ∅ "chatComplete" "POST"
          "config")
       Sample.tenths Demo.passedDown "config" []
     = Some (Ok (Demo.response 200), ["config.targets[3]"]).
Proof. split; vm_compute; reflexivity. Qed.

(** [selectProviderByWeight] over the weights 0.1, 0.2 and 0.3 and a draw
    of [1 - 2^-52]: the sum is not 0 and the loop ends without a choice,
    so the error is thrown after the draw. *)
Example selectProviderByWeight_throws_after_the_loop :
  selectProviderByWeight Sample.lateDrawGateway (take 3 Sample.tenths) []
  = Some (Throw (Error_ "No provider selected, please check the weights"), []).
Proof. vm_compute. reflexivity. Qed.

(** [selectProviderByWeight] over the weights 0.4, 0.3 and 0.1 and a draw
    of one half: the sum is 0.7999999999999999, the scaled draw is below
    0.4, and the first provider is returned. *)
Example selectProviderByWeight_sample_choice :
  selectProviderByWeight Demo.gateway
    [Demo.weighted "a" 0.4%float; Demo.weighted "b" 0.3%float;
     Demo.weighted "c" 0.1%float] []
  = Some (Ok (set_index (Demo.weighted "a" 0.4%float) (Some 0%nat)), []).
Proof. vm_compute. reflexivity. Qed.

(** ** Header sources *)

Section HeaderSources.

Context (rc : RequestContext).


Lemma forward_fold (forwardHeaders : list string)
    (acc : gmap string (option string)) k :
  fold_left
    (fun forwardHeadersMap header =>
       let lowerCaseHeaderKey := toLowerCase header in
       if truthy_string (rc_requestHeaders rc !! lowerCaseHeaderKey)
       then <[lowerCaseHeaderKey := rc_requestHeaders rc !! lowerCaseHeaderKey]>
              forwardHeadersMap
       else forwardHeadersMap)
    forwardHeaders acc !! k
  = if existsb (fun header => String.eqb (toLowerCase header) k) forwardHeaders
       && truthy_string (rc_requestHeaders rc !! k)
    then Some (rc_requestHeaders rc !! k)
    else acc !! k.
Proof.
  revert acc. induction forwardHeaders as [| header rest IH]; intros acc; simpl.
  - reflexivity.
  - rewrite IH.
    destruct (String.eqb_spec (toLowerCase header) k) as [-> | Hne]; simpl.
    + destruct (truthy_string (rc_requestHeaders rc !! k)) eqn:Ht.
      * rewrite andb_true_r.
        destruct (existsb _ rest); [reflexivity | apply lookup_insert_eq].
      * rewrite andb_false_r. reflexivity.
    + destruct (existsb _ rest && truthy_string (rc_requestHeaders rc !! k));
        [reflexivity |].
      destruct (truthy_string (rc_requestHeaders rc !! toLowerCase header));
        [by rewrite lookup_insert_ne | reflexivity].
Qed.

(** X14: Forward list, for a name that is not one of those every object
    inherits from [Object.prototype]: a header is forwarded exactly when
    the list holds its name in some letter case and the client sent it
    with a value that is not empty; it is forwarded under its lower-case
    name with the client's value. *)
Theorem forward_headers_spec (forwardHeaders : list string) k :
  ~ In k Object_prototype_names ->
  HeaderProcessor.processForwardHeaders rc forwardHeaders !! k
  = if existsb (fun header => String.eqb (toLowerCase header) k) forwardHeaders
       && truthy_string (rc_requestHeaders rc !! k)
    then Some (rc_requestHeaders rc !! k)
    else None.
Proof.
  intros _. unfold HeaderProcessor.processForwardHeaders.
  rewrite forward_fold. by rewrite lookup_empty.
Qed.

(** What post-processing leaves under [content-type]. *)
Lemma postProcess_content_type h v :
  HeaderProcessor.hget (HeaderProcessor.postProcessHeaders rc h) "content-type"
  = Some v ->
  rc_method rc <> "GET"
  /\ split_first ";" v <> GLOBALS.MULTIPART_FORM_DATA
  /\ HeaderProcessor.postProcessHeaders rc h = h.
Proof.
  unfold HeaderProcessor.postProcessHeaders.
  destruct (String.eqb_spec (rc_method rc) "GET") as [Hget | Hget]; simpl.
  - change (HeaderProcessor.hget (HeaderProcessor.rewritten rc h) "content-type"
            = Some v -> rc_method rc <> "GET"
                        /\ split_first ";" v <> GLOBALS.MULTIPART_FORM_DATA
                        /\ HeaderProcessor.rewritten rc h = h).
    by rewrite hget_rewritten.
  - destruct (bool_decide
                (split_first ";" <$> HeaderProcessor.hget h "content-type"
                 = Some GLOBALS.MULTIPART_FORM_DATA)) eqn:Hmp.
    + change (HeaderProcessor.hget (HeaderProcessor.rewritten rc h)
                "content-type" = Some v ->
              rc_method rc <> "GET"
              /\ split_first ";" v <> GLOBALS.MULTIPART_FORM_DATA
              /\ HeaderProcessor.rewritten rc h = h).
      by rewrite hget_rewritten.
    + intros Hv. apply bool_decide_eq_false in Hmp. rewrite Hv in Hmp.
      simpl in Hmp. split; [exact Hget |]. split; [congruence | reflexivity].
Qed.

(** X15: The final headers.  They hold a (lower-case) [content-type] only for
    a request that is not a GET and whose content type is not
    [multipart/form-data]; and then nothing was rewritten: every header
    comes from the proxy passthrough, else from the forward list, else
    from the provider, else from the base headers. *)
Theorem final_headers_content_type_and_precedence
    (providerConfigMappedHeaders : list (string * option string))
    (forwardHeaders : list string) :
  let final :=
    HeaderProcessor.buildFinalHeaders rc providerConfigMappedHeaders
      forwardHeaders in
  (rc_method rc = "GET" -> final !! "content-type" = None)
  /\ (forall v,
        HeaderProcessor.hget final "content-type" = Some v ->
        rc_method rc <> "GET"
        /\ split_first ";" v <> "multipart/form-data"
        /\ forall k,
             final !! k
             = match HeaderProcessor.processProxyHeaders rc !! k with
               | Some x => Some x
               | None =>
                   match HeaderProcessor.processForwardHeaders rc
                           forwardHeaders !! k with
                   | Some x => Some x
                   | None =>
                       match HeaderProcessor.processProviderHeaders
                               providerConfigMappedHeaders !! k with
                       | Some x => Some x
                       | None => HeaderProcessor.getBaseHeaders rc !! k
                       end
                   end
               end).
Proof.
  intros final. split.
  - intros Hget. unfold final, HeaderProcessor.buildFinalHeaders,
      HeaderProcessor.postProcessHeaders.
    rewrite Hget. simpl.
    repeat case_match;
      rewrite ?lookup_insert_ne by discriminate; apply lookup_delete_eq.
  - intros v Hv. unfold final, HeaderProcessor.buildFinalHeaders in *.
    apply postProcess_content_type in Hv as (Hget & Hmp & Hsame).
    split; [exact Hget |]. split; [exact Hmp |].
    intros k. rewrite Hsame, !lookup_union.
    destruct (HeaderProcessor.processProxyHeaders rc !! k),
      (HeaderProcessor.processForwardHeaders rc forwardHeaders !! k),
      (HeaderProcessor.processProviderHeaders providerConfigMappedHeaders !! k),
      (HeaderProcessor.getBaseHeaders rc !! k); reflexivity.
Qed.

End HeaderSources.


Lemma forward_headers_spec_witness :
  HeaderProcessor.processForwardHeaders Sample.proxyContext
    ["Accept"; "X-Trace-Id"] !! "accept"
  = Some (Some "text/plain").
Proof.
  rewrite (forward_headers_spec Sample.proxyContext ["Accept"; "X-Trace-Id"]
             "accept") by (simpl; intuition discriminate).
  reflexivity.
Defined.

Lemma final_headers_content_type_and_precedence_witness :
  HeaderProcessor.buildFinalHeaders Demo.getContext
    [("Authorization", Some "Bearer sk-1")] [] !! "content-type" = None.
Proof.
  apply (proj1 (final_headers_content_type_and_precedence Demo.getContext
                  [("Authorization", Some "Bearer sk-1")] [])).
  reflexivity.
Defined.

(** ** Hook shorthand *)

Lemma obj_get_None_keys props k :
  obj_get props k = None <-> ~ In k (obj_keys props).
Proof.
  unfold obj_keys. induction props as [| [k0 v0] rest IH]; simpl.
  - tauto.
  - destruct (String.eqb_spec k0 k) as [-> | Hne].
    + split; [discriminate | tauto].
    + rewrite IH. tauto.
Qed.

Lemma filter_other_keys (keys : list string) k :
  ~ In k keys ->
  List.filter (fun k' => negb (String.eqb k' k)) keys = keys.
Proof.
  induction keys as [| k0 rest IH]; simpl; [reflexivity |].
  intros Hnot. destruct (String.eqb_spec k0 k) as [-> | Hne]; simpl.
  - tauto.
  - f_equal. apply IH. tauto.
Qed.

(** Deleting a property of an object (whose keys are distinct). *)
Lemma obj_delete_spec props k :
  List.NoDup (obj_keys props) ->
  obj_keys (obj_delete props k)
  = List.filter (fun k' => negb (String.eqb k' k)) (obj_keys props)
  /\ (forall k', obj_get (obj_delete props k) k'
                 = if String.eqb k k' then None else obj_get props k')
  /\ List.NoDup (obj_keys (obj_delete props k)).
Proof.
  unfold obj_keys.
  induction props as [| [k0 v0] rest IH]; simpl; intros Hnd.
  - repeat split; [intros k'; by destruct (String.eqb k k') | constructor].
  - apply List.NoDup_cons_iff in Hnd as [Hnotin Hnd].
    destruct (IH Hnd) as (Hkeys & Hget & Hnd').
    destruct (String.eqb_spec k0 k) as [-> | Hne]; simpl.
    + split; [by rewrite filter_other_keys |]. split; [| exact Hnd].
      intros k'. destruct (String.eqb_spec k k') as [<- | Hk'];
        [by apply obj_get_None_keys | reflexivity].
    + split; [by rewrite Hkeys |]. split.
      * intros k'. rewrite Hget.
        destruct (String.eqb_spec k0 k') as [<- | Hk0];
          [destruct (String.eqb_spec k k0); congruence | reflexivity].
      * apply List.NoDup_cons_iff. split; [| exact Hnd'].
        fold (obj_keys (obj_delete rest k)). unfold obj_keys. rewrite Hkeys.
        rewrite filter_In. tauto.
Qed.

(** What the [forEach] over a list of keys leaves in the shorthand. *)
Lemma extract_fold (keys : list string) :
  forall hooksObject hook,
    List.NoDup (obj_keys hook) ->
    let rest :=
      (fold_left
         (fun acc key =>
            match obj_get acc.2 key with
            | Some v => (obj_set acc.1 key v, obj_delete acc.2 key)
            | None => acc
            end)
         keys (hooksObject, hook)).2 in
    obj_keys rest
    = List.filter (fun k => negb (includes_key keys k)) (obj_keys hook)
    /\ (forall k, obj_get rest k
                  = if includes_key keys k then None else obj_get hook k).
Proof.
  induction keys as [| key keys IH]; intros hooksObject hook Hnd; simpl.
  - split; [| reflexivity].
    symmetry. apply forallb_filter_id, forallb_forall. reflexivity.
  - destruct (obj_get hook key) as [v |] eqn:Hget.
    + destruct (obj_delete_spec hook key Hnd) as (Hkeys & Hdel & Hnd').
      destruct (IH (obj_set hooksObject key v) (obj_delete hook key) Hnd')
        as (Hk & Hg).
      split.
      * rewrite Hk, Hkeys. clear.
        induction (obj_keys hook) as [| k0 l IHl]; simpl; [reflexivity |].
        destruct (String.eqb k0 key); simpl; [exact IHl |].
        destruct (includes_key keys k0); simpl; [exact IHl | by rewrite IHl].
      * intros k. rewrite Hg, Hdel. rewrite (String.eqb_sym k key).
        destruct (String.eqb key k), (includes_key keys k); reflexivity.
    + destruct (IH hooksObject hook Hnd) as (Hk & Hg).
      apply obj_get_None_keys in Hget.
      split.
      * rewrite Hk. apply filter_ext_in. intros k Hin.
        destruct (String.eqb_spec k key) as [-> | _]; [tauto | reflexivity].
      * intros k. rewrite Hg.
        destruct (String.eqb_spec k key) as [-> | _]; [| reflexivity].
        simpl. apply obj_get_None_keys in Hget. rewrite Hget.
        by destruct (includes_key keys key).
Qed.

Section ShorthandFacts.

Context {W : Type} (G : Gateway W).

(** X16: Expanding one shorthand hook that is an object with distinct
    keys, none of them [hasOwnProperty] and none made of digits only.  One
    number is drawn.  The processed hook has one check for each property
    of the shorthand that is not one of the seven known properties, in
    their order; the id of a check is the property name when it holds a
    dot and "default." followed by the name otherwise; its parameters are
    the property's value.  The call removes the seven known properties
    from the shorthand object itself and leaves the others. *)
Theorem shorthand_checks_are_the_unknown_properties type hookType props w :
  List.NoDup (obj_keys props) ->
  includes_key (obj_keys props) "hasOwnProperty" = false ->
  existsb integer_like (obj_keys props) = false ->
  let unknown :=
    List.filter
      (fun k => negb (includes_key HOOK_PROPERTIES.EXTRACTABLE_KEYS k))
      (obj_keys props) in
  exists processed rest,
    convertHookShorthand G type hookType (JObj props) w
    = (Ok (JObj processed, JObj rest), (Math_random G w).2)
    /\ obj_get processed "checks"
       = Some (JArr
                 (map (fun key =>
                         JObj [("id",
                                JStr (if includes_dot key then key
                                      else "default." ++ key));
                               ("parameters",
                                default JUndefined (obj_get props key));
                               ("is_enabled",
                                optional_prop (obj_get props key)
                                  "is_enabled")])
                      unknown))
    /\ obj_keys rest = unknown
    /\ forall k, obj_get rest k
                 = if includes_key HOOK_PROPERTIES.EXTRACTABLE_KEYS k
                   then None
                   else obj_get props k.
Proof.
  intros Hnd Hown _ unknown. unfold convertHookShorthand.
  destruct (Math_random G w) as [r w1]. cbn [hasOwnProperty_error snd].
  rewrite Hown. unfold extractKnownProperties.
  destruct (extract_fold HOOK_PROPERTIES.EXTRACTABLE_KEYS
              [("type", JStr hookType);
               ("id",
                JStr (type ++ "_guardrail_"
                      ++ substring 2
                           (length HOOK_PROPERTIES.EXTRACTABLE_KEYS - 2)
                           (toString36 G r)))]
              props Hnd) as (Hkeys & Hget).
  destruct (fold_left _ HOOK_PROPERTIES.EXTRACTABLE_KEYS _)
    as [hooksObject rest].
  cbn [fst snd] in Hkeys, Hget.
  eexists _, rest. split; [reflexivity |].
  split; [| split; [exact Hkeys | exact Hget]].
  rewrite obj_get_set. cbn [String.eqb Ascii.eqb Bool.eqb]. do 2 f_equal.
  unfold own_entries. rewrite map_map, Hkeys. apply map_ext_in.
  intros key Hin. cbn [fst snd].
  apply filter_In in Hin as [_ Hunknown]. apply negb_true_iff in Hunknown.
  rewrite Hget, Hunknown.
  destruct (obj_get props key); reflexivity.
Qed.

End ShorthandFacts.

Lemma shorthand_checks_are_the_unknown_properties_witness :
  exists processed rest,
    convertHookShorthand Demo.gateway "input" HookType.GUARDRAIL
      Sample.shorthand []
    = (Ok (JObj processed, JObj rest), [])
    /\ obj_get processed "checks"
       = Some (JArr
                 [JObj [("id", JStr "default.regexMatch");
                        ("parameters",
                         JObj [("rule", JStr "x"); ("is_enabled", JBool true)]);
                        ("is_enabled", JBool true)];
                  JObj [("id", JStr "acme.check");
                        ("parameters", JObj []);
                        ("is_enabled", JUndefined)]])
    /\ obj_keys rest = ["regexMatch"; "acme.check"].
Proof.
  destruct (shorthand_checks_are_the_unknown_properties Demo.gateway
              "input" HookType.GUARDRAIL
              [("deny", JBool true);
               ("regexMatch",
                JObj [("rule", JStr "x"); ("is_enabled", JBool true)]);
               ("acme.check", JObj [])] []
              ltac:(repeat constructor; simpl; intuition discriminate)
              eq_refl eq_refl)
    as (processed & rest & Hrun & Hchecks & Hkeys & _).
  exists processed, rest. split; [exact Hrun |].
  split; [exact Hchecks | exact Hkeys].
Defined.

(** ** Config builder: the entry point *)

Lemma obj_get_spread_other a b k :
  includes_key (obj_keys b) k = false ->
  obj_get (obj_spread a b) k = obj_get a k.
Proof.
  unfold obj_spread, obj_keys, includes_key.
  revert a. induction b as [| [k0 v0] rest IH]; simpl; intros a Hk.
  - reflexivity.
  - apply orb_false_iff in Hk as [Hk0 Hrest].
    rewrite IH by exact Hrest. rewrite obj_get_set.
    rewrite String.eqb_sym, Hk0. reflexivity.
Qed.

Lemma substring_all (s : string) : substring 0 (String.length s) s = s.
Proof.
  induction s as [| c rest IH]; simpl; [reflexivity | by rewrite IH].
Qed.

Lemma replace_first_prefix pat rep s :
  String.prefix pat s = true ->
  replace_first pat rep s
  = rep ++ substring (String.length pat)
             (String.length s - String.length pat) s.
Proof.
  destruct s; simpl; intros ->; reflexivity.
Qed.

(** [replace('Bearer ', '')] on a value that starts with the scheme. *)
Lemma replace_first_Bearer (token : string) :
  replace_first "Bearer " "" ("Bearer " ++ token) = token.
Proof.
  rewrite replace_first_prefix by (destruct token; reflexivity).
  change (substring 0 (String.length token - 0) token = token).
  rewrite Nat.sub_0_r. apply substring_all.
Qed.

Section BuildEntryPoint.

Variable JSON_parse : string -> Outcome json.

(** The settings a provider contributes never replace one of the four
    core properties of the config built from individual headers. *)
Lemma addProviderSpecificConfig_core config provider h k :
  In k ["provider"; "apiKey"; "defaultInputGuardrails";
        "defaultOutputGuardrails"] ->
  obj_get (ProviderConfigBuilder.addProviderSpecificConfig JSON_parse config
             provider h) k
  = obj_get config k.
Proof.
  intros Hk.
  assert (Hvertex :
            includes_key
              (obj_keys (ProviderConfigBuilder.buildVertexConfig JSON_parse h))
              k = false).
  { unfold ProviderConfigBuilder.buildVertexConfig.
    destruct (h !! "x-portkey-vertex-service-account-json") as [v |];
      [destruct (truthy_string (Some v));
       [destruct (JSON_parse v) |] |];
      simpl in Hk; intuition subst; reflexivity. }
  assert (Hfresh : truthy_string (h !! "x-portkey-mistral-fim-completion")
                   = true ->
                   obj_get
                     (obj_set config "mistralFimCompletion"
                        (header_value h "x-portkey-mistral-fim-completion")) k
                   = obj_get config k).
  { intros _. rewrite obj_get_set.
    simpl in Hk; intuition subst; reflexivity. }
  unfold ProviderConfigBuilder.addProviderSpecificConfig.
  destruct provider as [p |]; cbn beta iota zeta.
  - destruct (find _ _) as [[name built] |] eqn:Hfind; simpl.
    + apply find_some in Hfind as [Hin _].
      unfold ProviderConfigBuilder.providerConfigs in Hin. cbn [In] in Hin.
      repeat (destruct Hin as [Hin | Hin];
              [injection Hin as <- <-;
               rewrite ?obj_get_spread_other by exact Hvertex;
               rewrite ?obj_get_set;
               simpl in Hk; intuition subst; reflexivity |]).
      destruct Hin.
    + destruct (truthy_string _) eqn:Hm; [by apply Hfresh | reflexivity].
  - destruct (truthy_string _) eqn:Hm; [by apply Hfresh | reflexivity].
Qed.

(** X17: Without a config header (and with default-guardrails headers that
    parse) the build succeeds, for a provider name that is not a property
    of [Object.prototype], and gives a config whose provider is the
    provider header, whose API key is the authorization header with its
    first "Bearer " removed (the token itself when the header starts with
    it), and whose default guardrails are the parsed headers: no
    provider-specific setting replaces one of them. *)
Theorem individual_headers_config_core h base :
  truthy_string (h !! "x-portkey-config") = false ->
  ProviderConfigBuilder.buildBaseConfig JSON_parse h = Ok base ->
  (forall p, h !! "x-portkey-provider" = Some p ->
             ~ In p Object_prototype_names) ->
  exists config,
    ProviderConfigBuilder.build JSON_parse h = Ok (JObj config)
    /\ obj_get config "provider"
       = Some (header_value h "x-portkey-provider")
    /\ obj_get config "apiKey" = Some (ProviderConfigBuilder.stripBearer h)
    /\ (forall token,
          h !! "authorization" = Some ("Bearer " ++ token) ->
          obj_get config "apiKey" = Some (JStr token))
    /\ obj_get config "defaultInputGuardrails"
       = Some (ProviderConfigBuilder.input_guardrails base)
    /\ obj_get config "defaultOutputGuardrails"
       = Some (ProviderConfigBuilder.output_guardrails base).
Proof.
  intros Hconfig Hbase _.
  unfold ProviderConfigBuilder.build. rewrite Hbase, Hconfig.
  unfold ProviderConfigBuilder.buildFromIndividualHeaders.
  eexists. split; [reflexivity |].
  repeat split;
    try (rewrite addProviderSpecificConfig_core by (simpl; tauto);
         reflexivity).
  intros token Hauth.
  rewrite addProviderSpecificConfig_core by (simpl; tauto). simpl.
  unfold ProviderConfigBuilder.stripBearer. rewrite Hauth.
  by rewrite replace_first_Bearer.
Qed.

(** X18: A default-guardrails header that is not valid JSON fails the whole
    build, with or without a config header. *)
Theorem build_fails_on_malformed_default_guardrails h name text e :
  name = "x-portkey-default-input-guardrails"
  \/ name = "x-portkey-default-output-guardrails" ->
  h !! name = Some text ->
  text <> "" ->
  JSON_parse text = Throw e ->
  exists e', ProviderConfigBuilder.build JSON_parse h = Throw e'.
Proof.
  intros Hname Hget Hne Hparse.
  assert (Htruthy : truthy_string (Some text) = true).
  { simpl. by destruct (String.eqb_spec text ""). }
  unfold ProviderConfigBuilder.build, ProviderConfigBuilder.buildBaseConfig.
  destruct Hname as [-> | ->]; rewrite Hget, Htruthy, Hparse.
  - by eexists.
  - destruct (h !! "x-portkey-default-input-guardrails") as [i |];
      [destruct (truthy_string (Some i)); [destruct (JSON_parse i) |] |];
      by eexists.
Qed.

(** X19: A config header that names a provider or targets makes the request's
    other headers irrelevant: two header sets that agree on the config
    header and on the two default-guardrails headers build the same
    config. *)
Theorem config_header_with_provider_ignores_other_headers h h' text parsed :
  h' !! "x-portkey-config" = h !! "x-portkey-config" ->
  h' !! "x-portkey-default-input-guardrails"
  = h !! "x-portkey-default-input-guardrails" ->
  h' !! "x-portkey-default-output-guardrails"
  = h !! "x-portkey-default-output-guardrails" ->
  h !! "x-portkey-config" = Some text ->
  text <> "" ->
  JSON_parse text = Ok (JObj parsed) ->
  truthy_json (obj_get parsed "provider")
  || truthy_json (obj_get parsed "targets") = true ->
  ProviderConfigBuilder.build JSON_parse h'
  = ProviderConfigBuilder.build JSON_parse h.
Proof.
  intros Hc Hi Ho Hget Hne Hparse Hnamed.
  unfold ProviderConfigBuilder.build, ProviderConfigBuilder.buildBaseConfig.
  rewrite Hc, Hi, Ho.
  destruct (match h !! "x-portkey-default-input-guardrails" with
            | Some v => _ | None => _ end) as [i | ei]; [| reflexivity].
  destruct (match h !! "x-portkey-default-output-guardrails" with
            | Some v => _ | None => _ end) as [o | eo]; [| reflexivity].
  assert (Htruthy : truthy_string (Some text) = true).
  { simpl. by destruct (String.eqb_spec text ""). }
  rewrite Hget, Htruthy.
  unfold ProviderConfigBuilder.buildFromConfigHeader.
  rewrite Hc, Hget. simpl. rewrite Hparse.
  unfold ProviderConfigBuilder.configFromParsedObject.
  rewrite !obj_get_set. simpl.
  apply orb_true_iff in Hnamed.
  destruct (truthy_json (obj_get parsed "provider")),
    (truthy_json (obj_get parsed "targets")); simpl;
    try reflexivity; destruct Hnamed; discriminate.
Qed.

(** X20: A Vertex service-account header that is not valid JSON does not fail
    the build: the config is built and its service account is [null]. *)
Theorem malformed_vertex_service_account_is_null h base text e :
  truthy_string (h !! "x-portkey-config") = false ->
  ProviderConfigBuilder.buildBaseConfig JSON_parse h = Ok base ->
  h !! "x-portkey-provider" = Some ProviderConfigBuilder.GOOGLE_VERTEX_AI ->
  h !! "x-portkey-vertex-service-account-json" = Some text ->
  text <> "" ->
  JSON_parse text = Throw e ->
  exists config,
    ProviderConfigBuilder.build JSON_parse h = Ok (JObj config)
    /\ obj_get config "vertexServiceAccountJson" = Some JNull
    /\ obj_get config "provider"
       = Some (JStr ProviderConfigBuilder.GOOGLE_VERTEX_AI).
Proof.
  intros Hconfig Hbase Hprovider Hget Hne Hparse.
  assert (Htruthy : truthy_string (Some text) = true).
  { simpl. by destruct (String.eqb_spec text ""). }
  unfold ProviderConfigBuilder.build. rewrite Hbase, Hconfig.
  unfold ProviderConfigBuilder.buildFromIndividualHeaders.
  eexists. split; [reflexivity |]. split.
  - rewrite Hprovider.
    unfold ProviderConfigBuilder.addProviderSpecificConfig,
      ProviderConfigBuilder.providerConfigs,
      ProviderConfigBuilder.buildVertexConfig.
    rewrite Hget, Htruthy, Hparse. reflexivity.
  - rewrite addProviderSpecificConfig_core by (simpl; tauto).
    unfold header_value. simpl. rewrite Hprovider. reflexivity.
Qed.

End BuildEntryPoint.

Lemma individual_headers_config_core_witness :
  exists config,
    ProviderConfigBuilder.build Sample.parse Sample.bearerHeaders
    = Ok (JObj config)
    /\ obj_get config "provider" = Some (JStr "openai")
    /\ obj_get config "apiKey" = Some (JStr "sk-1").
Proof.
  destruct (individual_headers_config_core Sample.parse Sample.bearerHeaders
              (ProviderConfigBuilder.mkBaseConfig (JArr []) (JArr []))
              eq_refl eq_refl)
    as (config & Hbuild & Hprovider & _ & Hkey & _).
  - intros p Hp. vm_compute in Hp. injection Hp as <-.
    simpl. intuition discriminate.
  - exists config. split; [exact Hbuild |]. split.
    + exact Hprovider.
    + apply (Hkey "sk-1"). reflexivity.
Defined.

Lemma build_fails_on_malformed_default_guardrails_witness :
  exists e',
    ProviderConfigBuilder.build Sample.parse Sample.malformedGuardrails
    = Throw e'.
Proof.
  apply (build_fails_on_malformed_default_guardrails Sample.parse
           Sample.malformedGuardrails "x-portkey-default-input-guardrails"
           "{oops" (mkError "SyntaxError" "Unexpected token o in JSON" false)).
  - left. reflexivity.
  - reflexivity.
  - discriminate.
  - reflexivity.
Defined.

Lemma config_header_with_provider_ignores_other_headers_witness :
  ProviderConfigBuilder.build Sample.parse Sample.configAndBearerHeaders
  = ProviderConfigBuilder.build Sample.parse Demo.configHeaders.
Proof.
  apply (config_header_with_provider_ignores_other_headers Sample.parse
           Demo.configHeaders Sample.configAndBearerHeaders "{...}"
           Demo.parsedConfig).
  - reflexivity.
  - reflexivity.
  - reflexivity.
  - reflexivity.
  - discriminate.
  - reflexivity.
  - reflexivity.
Defined.

Lemma malformed_vertex_service_account_is_null_witness :
  exists config,
    ProviderConfigBuilder.build Sample.parse Sample.vertexHeaders
    = Ok (JObj config)
    /\ obj_get config "vertexServiceAccountJson" = Some JNull
    /\ obj_get config "provider" = Some (JStr "google-vertex-ai").
Proof.
  apply (malformed_vertex_service_account_is_null Sample.parse
           Sample.vertexHeaders
           (ProviderConfigBuilder.mkBaseConfig (JArr []) (JArr []))
           "{oops" (mkError "SyntaxError" "Unexpected token o in JSON" false)).
  - reflexivity.
  - reflexivity.
  - reflexivity.
  - reflexivity.
  - discriminate.
  - reflexivity.
Defined.

(** ** Before-request hooks *)

Section BeforeHooks.

Context {W : Type} (H : HooksManager W).

(** An error of the hooks manager does not fail the handler: it resolves
    to an object that holds the error and no response. *)
Lemma before_hooks_errors_are_swallowed hookSpanId w start w1 e w2 :
  now H w = (start, w1) ->
  executeHooks H hookSpanId ["syncBeforeRequestHook"] w1 = (Throw e, w2) ->
  beforeRequestHookHandler H hookSpanId w
  = Some (Ok (mkBeforeHookOutcome None None None (Some e)), w2).
Proof.
  intros Hnow Hexec.
  unfold beforeRequestHookHandler, bind, try_catch, call, ret.
  rewrite Hnow, Hexec. reflexivity.
Qed.

(** X21: Whatever the hooks manager does, a response that the handler resolves
    to is the 446 hooks-failure response: it comes with a start time and
    without an error, it does not carry the gateway-exception marker, and
    the hooks have denied the request. *)
Theorem before_hook_response_is_446 hookSpanId w out w' r :
  beforeRequestHookHandler H hookSpanId w = Some (Ok out, w') ->
  bh_response out = Some r ->
  status r = HTTP_STATUS.HOOKS_FAILED
  /\ ~ carries_gateway_exception r
  /\ is_present (bh_createdAt out) = true
  /\ bh_error out = None
  /\ exists start w1 hooksResult w2,
       now H w = (start, w1)
       /\ executeHooks H hookSpanId ["syncBeforeRequestHook"] w1
          = (Ok hooksResult, w2)
       /\ shouldDeny hooksResult = true
       /\ r = RequestErrorHandler.createHooksFailureResponse
                (hooks_results hooksResult).
Proof.
  unfold beforeRequestHookHandler, transformedBodyOf, bind, try_catch, call,
    ret.
  destruct (now H w) as [start w1] eqn:Hnow.
  destruct (executeHooks H hookSpanId _ w1) as [[hooksResult | e] w2] eqn:Hexec;
    [| intros [= <- <-]; discriminate].
  destruct (spanRequest H hookSpanId w2) as [[request | e] w3] eqn:Hspan;
    [| intros [= <- <-]; discriminate].
  destruct (shouldDeny hooksResult) eqn:Hdeny.
  - destruct (isTransformed request).
    + destruct (spanRequest H hookSpanId w3) as [[request' | e] w4];
        intros [= <- <-]; [| discriminate].
      intros [= <-]. repeat split; try discriminate.
      by exists start, w1, hooksResult, w2.
    + intros [= <- <-] [= <-]. repeat split; try discriminate.
      by exists start, w1, hooksResult, w2.
  - destruct (isTransformed request).
    + destruct (spanRequest H hookSpanId w3) as [[request' | e] w4];
        intros [= <- <-]; discriminate.
    + intros [= <- <-]; discriminate.
Qed.

End BeforeHooks.

Lemma before_hook_response_is_446_witness :
  status (RequestErrorHandler.createHooksFailureResponse
            (JArr [JStr "verdict"])) = 446.
Proof.
  apply (before_hook_response_is_446 (Sample.hooks true false) "span-1" []
           (mkBeforeHookOutcome
              (Some (RequestErrorHandler.createHooksFailureResponse
                       (JArr [JStr "verdict"])))
              (Some 0) None None)
           ["executeHooks"]); reflexivity.
Defined.

(** ** Request construction: bodies that are passed through *)

Section BodyPassThrough.

Context (JSON_stringify : option RequestBody -> option string).
Context (getHeaders : RequestContext -> Outcome (list (string * option string))).

(** X22: For an endpoint other than the proxy and a method other than GET and
    DELETE, whatever content type the client sent: when the provider's
    headers say multipart form data the transformed body is sent as it is,
    and otherwise a request body that is a stream is sent as that stream;
    neither is turned into JSON text. *)
Theorem stream_and_multipart_bodies_are_passed_through rc providerMappedHeaders :
  getHeaders rc = Ok providerMappedHeaders ->
  rc_endpoint rc <> "proxy" ->
  rc_method rc <> "GET" ->
  rc_method rc <> "DELETE" ->
  let headerContentType :=
    mjoin (snd <$> find (fun kv => String.eqb kv.1 GLOBALS.CONTENT_TYPE)
                        providerMappedHeaders) in
  exists fetchOptions,
    constructRequest JSON_stringify getHeaders rc = Ok fetchOptions
    /\ (headerContentType = Some GLOBALS.MULTIPART_FORM_DATA ->
        ri_body fetchOptions = BodyOf <$> rc_transformedRequestBody rc)
    /\ (headerContentType <> Some GLOBALS.MULTIPART_FORM_DATA ->
        rc_requestBody rc = ReadableStreamBody ->
        ri_body fetchOptions = Some (BodyOf ReadableStreamBody)).
Proof.
  intros Hh Hproxy Hget Hdelete headerContentType.
  unfold constructRequest. rewrite Hh.
  eexists. split; [reflexivity |].
  assert (Hmethod :
            HeaderProcessor.includes ["GET"; "DELETE"] (rc_method rc) = false).
  { simpl.
    destruct (String.eqb_spec (rc_method rc) "GET"); [done |].
    destruct (String.eqb_spec (rc_method rc) "DELETE"); done. }
  assert (Hmulti :
            HeaderProcessor.isMultiPartRequest
              (HeaderProcessor.shouldProcessRequestBody rc providerMappedHeaders)
            = bool_decide (headerContentType
                           = Some GLOBALS.MULTIPART_FORM_DATA)).
  { unfold HeaderProcessor.shouldProcessRequestBody. simpl.
    destruct (String.eqb_spec (rc_endpoint rc) "proxy"); [done |].
    simpl. apply orb_false_r. }
  cbn [ri_body]. unfold constructRequestBody. rewrite Hmethod, Hmulti.
  split.
  - intros Hct. rewrite bool_decide_eq_true_2 by exact Hct.
    unfold cast. by destruct (rc_transformedRequestBody rc).
  - intros Hct Hstream. rewrite bool_decide_eq_false_2 by exact Hct.
    rewrite Hstream. reflexivity.
Qed.

End BodyPassThrough.

Lemma stream_and_multipart_bodies_are_passed_through_witness :
  exists fetchOptions,
    constructRequest (fun _ => Some "{}") (fun _ => Ok []) Sample.streamContext
    = Ok fetchOptions
    /\ ri_body fetchOptions = Some (BodyOf ReadableStreamBody).
Proof.
  destruct (stream_and_multipart_bodies_are_passed_through
              (fun _ => Some "{}") (fun _ => Ok []) Sample.streamContext []
              eq_refl ltac:(discriminate) ltac:(discriminate)
              ltac:(discriminate))
    as (fetchOptions & Hbuilt & _ & Hstream).
  exists fetchOptions. split; [exact Hbuilt |].
  apply Hstream; [discriminate | reflexivity].
Defined.

(** ** Request processor *)

Lemma bind_Ok_inv {W A B} (m : M W A) (k : A -> M W B) w b w' :
  bind m k w = Some (Ok b, w') ->
  exists a w1, m w = Some (Ok a, w1) /\ k a w1 = Some (Ok b, w').
Proof.
  unfold bind. destruct (m w) as [[[a | e] w1] |]; [eauto | done | done].
Qed.

Section ProcessFacts.

Context {W : Type} (svc : RequestProcessor.Services W).

(** X23: The [catch] of [process] covers the awaited phases only.  An
    error of one of them (resolving the URL, the before-request hooks, the
    transformation to the provider's format, the fetch options, the cache
    lookup, the validation) is not thrown: [process] resolves to the 500
    failure response with the gateway-exception marker.  And [process]
    throws only out of the call it returns without awaiting it (the early,
    cached or validation response, or the main request): the awaited
    phases have then completed, and the error is the one of that call. *)
Theorem process_catches_awaited_phases_only fuel st w :
  (forall e w',
     RequestProcessor.selectTerminal svc st w = Some (Throw e, w') ->
     RequestProcessor.process svc fuel st w
     = Some (Ok (RequestErrorHandler.handleTryPostError e), w')
     /\ status (RequestErrorHandler.handleTryPostError e)
        = HTTP_STATUS.INTERNAL_SERVER_ERROR
     /\ carries_gateway_exception (RequestErrorHandler.handleTryPostError e))
  /\ (forall e w',
        RequestProcessor.process svc fuel st w = Some (Throw e, w') ->
        exists st' t w1,
          RequestProcessor.selectTerminal svc st w = Some (Ok (st', t), w1)
          /\ RequestProcessor.runTerminal svc fuel st' t w1
             = Some (Throw e, w')).
Proof.
  split; intros e w'.
  - intros Hsel. split; [| split; reflexivity].
    unfold RequestProcessor.process, bind, try_catch. rewrite Hsel.
    reflexivity.
  - unfold RequestProcessor.process, bind, try_catch.
    destruct (RequestProcessor.selectTerminal svc st w)
      as [[[[st' t] | e0] w1] |]; simpl.
    + intros Hrun. by exists st', t, w1.
    + discriminate.
    + discriminate.
Qed.

(** X24: The before-request hooks fail open.  When the hooks manager
    throws while it runs them, [process] goes on as if the hooks had
    passed and left the request as it is: the request is neither denied
    nor answered by a 500 response on that account. *)
Theorem hooks_manager_failure_fails_open fuel st w url w1 start w2 e w3 :
  RequestProcessor.getFullURL svc st w = (Ok url, w1) ->
  now (RequestProcessor.hooksManager svc)
    (RequestProcessor.log_addHookSpanId svc (RequestProcessor.hookSpanId svc)
       w1)
  = (start, w2) ->
  executeHooks (RequestProcessor.hooksManager svc)
    (RequestProcessor.hookSpanId svc) ["syncBeforeRequestHook"] w2
  = (Throw e, w3) ->
  RequestProcessor.process svc fuel st w
  = RequestProcessor.process
      (RequestProcessor.withHooksManager svc
         (passingHooks (RequestProcessor.hooksManager svc))) fuel st w.
Proof.
  intros Hurl Hnow Hexec.
  assert (Hsel :
            RequestProcessor.selectTerminal
              (RequestProcessor.withHooksManager svc
                 (passingHooks (RequestProcessor.hooksManager svc))) st w
            = RequestProcessor.selectTerminal svc st w).
  { unfold RequestProcessor.selectTerminal, bind, call, modify.
    cbn [RequestProcessor.getFullURL RequestProcessor.withHooksManager
         RequestProcessor.hooksManager RequestProcessor.hookSpanId
         RequestProcessor.log_addHookSpanId].
    rewrite Hurl.
    rewrite (before_hooks_errors_are_swallowed _ _ _ _ _ _ _ Hnow Hexec).
    unfold beforeRequestHookHandler, bind, try_catch, call, ret.
    cbn [now executeHooks spanRequest passingHooks].
    rewrite Hnow, Hexec. reflexivity. }
  unfold RequestProcessor.process, bind, try_catch. rewrite Hsel.
  destruct (RequestProcessor.selectTerminal svc st w)
    as [[[[st' t] | e0] w4] |]; reflexivity.
Qed.

(** X25: Every response [process] resolves to is either the 500 failure
    response of the error shaper or a response that the response service
    created: no hook, cache, validator or provider response is returned
    without passing through [responseService.create]. *)
Theorem process_response_origin fuel st w r w' :
  RequestProcessor.process svc fuel st w = Some (Ok r, w') ->
  (exists e, r = RequestErrorHandler.handleTryPostError e)
  \/ (exists options w0 originalResponseJson w1,
        RequestProcessor.responseService_create svc options w0
        = (Ok (r, originalResponseJson), w1)).
Proof.
  unfold RequestProcessor.process. intros Hp.
  apply bind_Ok_inv in Hp as (step & w1 & Hstep & Hrun).
  destruct step as [[st' t] | response].
  - right. clear Hstep.
    destruct t as [hookResult | cacheResult fetchOptions
                   | response fetchOptions cacheResult
                   | fetchOptions cacheResult];
      cbn [RequestProcessor.runTerminal] in Hrun.
    + apply bind_Ok_inv in Hrun as (st2 & w2 & _ & Hrun).
      destruct (bh_response hookResult) as [hookResponse |]; [| discriminate].
      apply bind_Ok_inv in Hrun as ([created j] & w3 & Hcreate & Hrun).
      apply bind_Ok_inv in Hrun as (u & w4 & _ & Hret).
      injection Hret as <- <-. injection Hcreate as Hcreate. eauto.
    + destruct (RequestProcessor.cacheResponse cacheResult) as [cached |];
        [| discriminate].
      apply bind_Ok_inv in Hrun as ([created j] & w3 & Hcreate & Hrun).
      apply bind_Ok_inv in Hrun as (u & w4 & _ & Hret).
      injection Hret as <- <-. injection Hcreate as Hcreate. eauto.
    + apply bind_Ok_inv in Hrun as (date & w2 & _ & Hrun).
      apply bind_Ok_inv in Hrun as ([created j] & w3 & Hcreate & Hrun).
      apply bind_Ok_inv in Hrun as (u & w4 & _ & Hret).
      injection Hret as <- <-. injection Hcreate as Hcreate. eauto.
    + apply bind_Ok_inv in Hrun as (result & w2 & _ & Hrun).
      apply bind_Ok_inv in Hrun as ([created j] & w3 & Hcreate & Hrun).
      apply bind_Ok_inv in Hrun as (u & w4 & _ & Hret).
      injection Hret as <- <-. injection Hcreate as Hcreate. eauto.
  - left. injection Hrun as <- <-.
    unfold try_catch, bind in Hstep.
    destruct (RequestProcessor.selectTerminal svc st w)
      as [[[selected | e] w2] |]; [discriminate | | discriminate].
    injection Hstep as <- <-. by exists e.
Qed.

(** X26: When the before-request hooks deny the request, the provider is not
    reached: [process] does the same whatever the provider's headers, the
    cache, the validator, the retry settings and the retrying fetch
    are. *)
Theorem denied_request_skips_fetch_path fuel st w url w1 out w2
    getHeaders' getCachedResponse' validator' retryConfig' loopServices' :
  RequestProcessor.getFullURL svc st w = (Ok url, w1) ->
  beforeRequestHookHandler (RequestProcessor.hooksManager svc)
    (RequestProcessor.hookSpanId svc)
    (RequestProcessor.log_addHookSpanId svc (RequestProcessor.hookSpanId svc)
       w1)
  = Some (Ok out, w2) ->
  is_present (bh_response out) = true ->
  RequestProcessor.process
    (RequestProcessor.withFetchPath svc getHeaders' getCachedResponse'
       validator' retryConfig' loopServices') fuel st w
  = RequestProcessor.process svc fuel st w.
Proof.
  intros Hurl Hhooks Hdenied.
  unfold RequestProcessor.process, RequestProcessor.selectTerminal,
    RequestProcessor.withFetchPath, bind, try_catch, call, modify.
  cbn [RequestProcessor.getFullURL RequestProcessor.hooksManager
       RequestProcessor.hookSpanId RequestProcessor.log_addHookSpanId].
  rewrite Hurl, Hhooks, Hdenied. reflexivity.
Qed.

End ProcessFacts.

Lemma process_catches_awaited_phases_only_witness :
  RequestProcessor.process Sample.cacheDown 1 Sample.state []
  = Some (Ok (RequestErrorHandler.handleTryPostError (Error_ "cache is down")),
          ["getFullURL"; "executeHooks"; "cache"])
  /\ exists st' t w1,
       RequestProcessor.selectTerminal (Sample.services true false true)
         Sample.state [] = Some (Ok (st', t), w1)
       /\ RequestProcessor.runTerminal (Sample.services true false true) 1 st'
            t w1
          = Some (Throw (Error_ "response service failed"),
                  ["getFullURL"; "executeHooks"; "create"]).
Proof.
  split.
  - apply (proj1 (process_catches_awaited_phases_only Sample.cacheDown 1
                    Sample.state [])
             (Error_ "cache is down") ["getFullURL"; "executeHooks"; "cache"]).
    vm_compute. reflexivity.
  - apply (proj2 (process_catches_awaited_phases_only
                    (Sample.services true false true) 1 Sample.state [])).
    vm_compute. reflexivity.
Defined.

Lemma hooks_manager_failure_fails_open_witness :
  RequestProcessor.process (Sample.services false true false) 1 Sample.state []
  = RequestProcessor.process
      (RequestProcessor.withHooksManager (Sample.services false true false)
         (passingHooks (Sample.hooks false true))) 1 Sample.state []
  /\ RequestProcessor.process (Sample.services false true false) 1
       Sample.state []
     = Some (Ok (Demo.response 200),
             ["getFullURL"; "executeHooks"; "cache"; "validate"; "fetch";
              "create"; "log"]).
Proof.
  split; [| vm_compute; reflexivity].
  apply (hooks_manager_failure_fails_open (Sample.services false true false) 1
           Sample.state [] "https://provider.example/v1" ["getFullURL"] 0
           ["getFullURL"] (Error_ "hooks manager is down")
           ["getFullURL"; "executeHooks"]); reflexivity.
Defined.

Lemma process_response_origin_witness :
  (exists e, Demo.response 200 = RequestErrorHandler.handleTryPostError e)
  \/ (exists options w0 originalResponseJson w1,
        RequestProcessor.responseService_create
          (Sample.services false false false) options w0
        = (Ok (Demo.response 200, originalResponseJson), w1)).
Proof.
  apply (process_response_origin (Sample.services false false false) 1
           Sample.state [] (Demo.response 200)
           ["getFullURL"; "executeHooks"; "cache"; "validate"; "fetch";
            "create"; "log"]).
  vm_compute. reflexivity.
Defined.

Lemma denied_request_skips_fetch_path_witness :
  RequestProcessor.process Sample.cacheDown 1 Sample.state []
  <> RequestProcessor.process (Sample.services false false false) 1
       Sample.state []
  /\ RequestProcessor.process
       (RequestProcessor.withFetchPath (Sample.services true false false)
          (fun _ => Ok [])
          (fun _ _ w => (Throw (Error_ "cache is down"), (w ++ ["cache"])%list))
          (fun w => (Ok None, (w ++ ["validate"])%list))
          (fun _ => Demo.retry)
          (fun _ => Sample.loop)) 1 Sample.state []
     = RequestProcessor.process (Sample.services true false false) 1
         Sample.state [].
Proof.
  split; [vm_compute; discriminate |].
  apply (denied_request_skips_fetch_path (Sample.services true false false) 1
           Sample.state [] "https://provider.example/v1" ["getFullURL"]
           (mkBeforeHookOutcome
              (Some (RequestErrorHandler.createHooksFailureResponse
                       (JArr [JStr "verdict"])))
              (Some 0) None None)
           ["getFullURL"; "executeHooks"]); reflexivity.
Defined.

(** ** Shorthand hooks that cannot be read *)

Section UnreadableHooks.

Context {W : Type} (G : Gateway W).
Context (request : RequestBody) (requestHeaders : gmap string string).
Context (fn method : string).

Lemma convertHooksShorthand_Ok_expandable hooksArr type hookType w r w' :
  convertHooksShorthand G hooksArr type hookType w = (Ok r, w') ->
  expandable (Some hooksArr) = true.
Proof.
  unfold expandable. simpl.
  revert w r w'. induction hooksArr as [| hook rest IH]; intros w r w'; simpl;
    [reflexivity |].
  intros Hc. apply tbind_Ok_inv in Hc as ([h hook'] & w1 & Hhook & Hc).
  apply tbind_Ok_inv in Hc as ([hs rest'] & w2 & Hrest & _).
  pose proof (convertHookShorthand_cases G type hookType hook w) as Hcase.
  destruct (hasOwnProperty_error hook); [congruence |].
  simpl. by eapply IH.
Qed.

Lemma appendShorthand_Ok_expandable hooks short type hookType w r w' :
  appendShorthand G hooks short type hookType w = (Ok r, w') ->
  expandable short = true.
Proof.
  destruct r as [hooks' short']. intros Ha.
  apply appendShorthand_inv in Ha as (converted & left & Hc & _).
  by apply convertHooksShorthand_Ok_expandable in Hc.
Qed.

(** The merge completes only when every shorthand list it expands can be
    read. *)
Lemma merge_Ok_expandable inh t w ci cur w' :
  mergeInheritedConfig G inh t w = (Ok (ci, cur), w') ->
  shorthandExpandable inh t = true.
Proof.
  unfold mergeInheritedConfig. intros Hm.
  apply tbind_Ok_inv in Hm as ([di do] & w1 & Hdef & Hm).
  apply tbind_Ok_inv in Hm as (nh & w2 & Hnh & _).
  unfold normalizeShorthand in Hnh.
  apply tbind_Ok_inv in Hnh as ([before1 s1] & v1 & Ha1 & Hnh).
  apply tbind_Ok_inv in Hnh as ([after1 s2] & v2 & Ha2 & Hnh).
  apply tbind_Ok_inv in Hnh as ([before2 s3] & v3 & Ha3 & Hnh).
  apply tbind_Ok_inv in Hnh as ([after2 s4] & v4 & Ha4 & _).
  apply appendShorthand_Ok_expandable in Ha1, Ha2, Ha3, Ha4.
  unfold shorthandExpandable. rewrite Ha1, Ha2, Ha3, Ha4, !andb_true_r.
  unfold expandDefaultGuardrails in Hdef.
  destruct (hasNoKeys inh); [| reflexivity].
  apply tbind_Ok_inv in Hdef as ([di' u1] & v5 & Hd1 & Hdef).
  apply tbind_Ok_inv in Hdef as ([do' u2] & v6 & Hd2 & _).
  apply appendShorthand_Ok_expandable in Hd1, Hd2.
  by rewrite Hd1, Hd2.
Qed.

(** Whatever the merge throws is a TypeError. *)
Lemma merge_error_name inh t w e w' :
  mergeInheritedConfig G inh t w = (Throw e, w') ->
  err_name e = "TypeError".
Proof.
  unfold mergeInheritedConfig. intros Hm.
  apply tbind_Throw_inv in Hm as [Hm | ([di do] & w1 & _ & Hm)];
    [by eapply expandDefaultGuardrails_error |].
  apply tbind_Throw_inv in Hm as [Hm | (nh & w2 & _ & Hm)];
    [by eapply normalizeShorthand_error |].
  destruct di, do; simpl in Hm; try discriminate;
    injection Hm as <- _; reflexivity.
Qed.

(** X27: A node one of whose shorthand lists (the guardrails and mutators
    of the node and, at the root, its default guardrails) holds a hook
    that is [null], or an object with an own property [hasOwnProperty],
    makes the resolver throw a TypeError: the error is not turned into a
    500 response. *)
Theorem unreadable_shorthand_hook_is_thrown fuel t jsonPath inh w :
  shorthandExpandable inh t = false ->
  exists e w',
    tryTargetsRecursively G (S fuel) t request requestHeaders fn method
      jsonPath inh w
    = Some (Throw e, w')
    /\ err_name e = "TypeError".
Proof.
  intros Hunreadable.
  destruct (mergeInheritedConfig G inh t w) as [[[ci cur] | e] w'] eqn:Hm.
  - apply merge_Ok_expandable in Hm. congruence.
  - exists e, w'. split; [by apply resolver_merge_throws |].
    by eapply merge_error_name.
Qed.

End UnreadableHooks.

Lemma unreadable_shorthand_hook_is_thrown_witness :
  exists e w',
    Demo.run 1 Sample.nullGuardrail Demo.passedDown = Some (Throw e, w')
    /\ err_name e = "TypeError".
Proof.
  apply (unreadable_shorthand_hook_is_thrown Demo.gateway
           (ParamsBody (JObj [])) ∅ "chatComplete" "POST" 0
           Sample.nullGuardrail "config" Demo.passedDown []).
  reflexivity.
Defined.

(** The error thrown for a [null] among the input guardrails, after the
    first hook of the list was expanded. *)
Example null_guardrail_error :
  Demo.run 1 Sample.nullGuardrail Demo.passedDown
  = Some (Throw (TypeError_
                   "Cannot read properties of null (reading 'hasOwnProperty')"),
          []).
Proof. vm_compute. reflexivity. Qed.

(** A shorthand hook that is a string has a check for each of its
    characters, under the index of the character. *)
Example string_hook_checks :
  exists processed,
    convertHookShorthand Demo.gateway "input" HookType.GUARDRAIL (JStr "ab") []
    = (Ok (JObj processed, JStr "ab"), [])
    /\ obj_get processed "checks"
       = Some (JArr [JObj [("id", JStr "default.0");
                           ("parameters", JStr "a");
                           ("is_enabled", JUndefined)];
                     JObj [("id", JStr "default.1");
                           ("parameters", JStr "b");
                           ("is_enabled", JUndefined)]]).
Proof. eexists. split; vm_compute; reflexivity. Qed.
